(** * Bulk write batching and result reconciliation

    A shallow embedding of [src/bulk/common.ts] (the result merger
    [mergeBatchResults], the batch executor [executeCommands], the views
    of [BulkWriteResult], the [FindOperators] builder and the [insert],
    [raw], [find] and [execute] methods of [BulkOperationBase]), of the
    [compress] and [decompress] functions of the wire compression module,
    and of [MongoCredentials] in [src/cmap/auth/mongo_credentials.ts].

    Conventions of the embedding:
    - a JavaScript [number] is an integer of [Z] (counts, indexes and codes
      are integers; fractional values and NaN are outside the model);
    - an optional property is an [option]; [None] stands for [undefined];
    - a mutable object is threaded explicitly: a function that mutates
      [bulkResult] takes the old value and returns the new one;
    - a JavaScript exception is the [Throw] constructor of [Completion]. *)

From Stdlib Require Import ZArith List String Bool Lia.
From Stdlib Require Import DecimalString.
Import ListNotations.
Local Open Scope Z_scope.
Local Open Scope list_scope.

Set Implicit Arguments.
Set Warnings "-register-all".

(** ** JavaScript values and completions *)

Inductive JsValue : Type :=
| JUndefined
| JNull
| JBool (b : bool)
| JNum (z : Z)
| JStr (s : string)
| JObj (fields : list (string * JsValue))
| JArr (items : list JsValue).

(** [ToBoolean]: what [if (v)] and [!v] test. *)
Definition js_truthy (v : JsValue) : bool :=
  match v with
  | JUndefined | JNull => false
  | JBool b => b
  | JNum z => negb (z =? 0)
  | JStr s => negb (String.eqb s "")%string
  | JObj _ | JArr _ => true
  end.

(** [v == null]. *)
Definition js_nullish (v : JsValue) : bool :=
  match v with
  | JUndefined | JNull => true
  | _ => false
  end.

(** Property lookup [o.k] on an object literal. *)
Fixpoint js_field (k : string) (fields : list (string * JsValue)) : JsValue :=
  match fields with
  | [] => JUndefined
  | (k', v) :: rest => if String.eqb k k' then v else js_field k rest
  end.

Definition js_prop (v : JsValue) (k : string) : JsValue :=
  match v with
  | JObj fields => js_field k fields
  | _ => JUndefined
  end.

(** Array indexing [a[i]]: [undefined] out of range. *)
Definition js_get {A : Type} (a : list A) (i : Z) : option A :=
  if i <? 0 then None else nth_error a (Z.to_nat i).

(** Truthiness of an optional number ([result.n], [result.code]). *)
Definition num_truthy (n : option Z) : bool :=
  match n with
  | Some z => negb (z =? 0)
  | None => false
  end.

(** [x || 0] on an optional number. *)
Definition num_or_zero (n : option Z) : Z :=
  match n with
  | Some z => if z =? 0 then 0 else z
  | None => 0
  end.

(** [x === k] on an optional number. *)
Definition num_is (n : option Z) (k : Z) : bool :=
  match n with
  | Some z => z =? k
  | None => false
  end.

(** Truthiness of an optional string ([errmsg ? ... : ...]). *)
Definition str_truthy (s : option string) : bool :=
  match s with
  | Some x => negb (String.eqb x "")%string
  | None => false
  end.

Inductive JsError : Type :=
| TypeError
| MongoInvalidArgumentError (message : string)
| MongoBatchReExecutionError
| MongoDecompressionError (message : string).

Inductive Completion (A : Type) : Type :=
| Normal (a : A)
| Throw (e : JsError).

Arguments Normal {A} a.
Arguments Throw {A} e.

(** ** Operation-time markers and the 64-bit integers of the BSON library

    [Long] and [Timestamp] come from the external BSON package.  A [Long]
    holds 64 bits, as two 32-bit halves [low] and [high], and a flag
    [unsigned]; a [Timestamp] is a [Long] whose flag is set.  The model
    keeps the 64 bits as one integer, [high * 2^32 + low] read without
    sign, and takes it modulo [2^64] wherever it is read. *)

Module Long.

Record t : Type := mk { bits : Z; unsigned : bool }.

Definition wrap (z : Z) : Z := z mod 2 ^ 64.

(** The 64 bits of a [Long], between 0 and [2^64 - 1]. *)
Definition pattern (l : t) : Z := wrap (bits l).

(** The integer a [Long] denotes: its bits read with or without sign. *)
Definition toZ (l : t) : Z :=
  if unsigned l then pattern l
  else if pattern l <? 2 ^ 63 then pattern l
  else pattern l - 2 ^ 64.

Definition MIN_VALUE : t := mk (2 ^ 63) false.
Definition MAX_VALUE : t := mk (2 ^ 63 - 1) false.

(** [Long.fromNumber(value)] on an integer-valued number: a signed [Long],
    saturating. *)
Definition fromNumber (value : Z) : t :=
  if value <=? - 2 ^ 63 then MIN_VALUE
  else if 2 ^ 63 <=? value + 1 then MAX_VALUE
  else mk (wrap value) false.

(** [this.isNegative()]: [!this.unsigned && this.high < 0]. *)
Definition isNegative (l : t) : bool :=
  negb (unsigned l) && (2 ^ 63 <=? pattern l).

(** [this.eq(other)] on two [Long]s: equal halves, unless the flags differ
    and both top bits are set. *)
Definition eq (this other : t) : bool :=
  if negb (Bool.eqb (unsigned this) (unsigned other))
     && (2 ^ 63 <=? pattern this) && (2 ^ 63 <=? pattern other)
  then false
  else pattern this =? pattern other.

(** [this.sub(other)]: 64-bit subtraction that wraps around; the result
    has the flag of [this]. *)
Definition sub (this other : t) : t :=
  mk (wrap (pattern this - pattern other)) (unsigned this).

(** [this.compare(other)] on two [Long]s. *)
Definition compare (this other : t) : Z :=
  if eq this other then 0
  else
    let thisNeg := isNegative this in
    let otherNeg := isNegative other in
    if thisNeg && negb otherNeg then -1
    else if negb thisNeg && otherNeg then 1
    else if negb (unsigned this)
    then (if isNegative (sub this other) then -1 else 1)
    else (if pattern this <? pattern other then -1 else 1).

(** [this.greaterThan(other)]; [other] is [None] when the caller passes
    [undefined], which the library dereferences. *)
Definition greaterThan (this : t) (other : option t) : Completion bool :=
  match other with
  | Some o => Normal (0 <? compare this o)
  | None => Throw TypeError
  end.

Definition equals (this : t) (other : option t) : Completion bool :=
  match other with
  | Some o => Normal (eq this o)
  | None => Throw TypeError
  end.

End Long.

(** A component of a decomposed marker: a plain number or a [Long]
    (signed, or unsigned as a [Timestamp] is). *)
Inductive Component : Type :=
| CNum (z : Z)
| CLong (l : Long.t).

(** [typeof c === 'number' ? Long.fromNumber(c) : c]. *)
Definition normalize (c : Component) : Long.t :=
  match c with
  | CNum z => Long.fromNumber z
  | CLong l => l
  end.

(** An operation-time marker: a wire [Timestamp] (its [_bsontype] is
    ['Timestamp']), given by its 64 bits, or a decomposed [{ts, t}] pair. *)
Inductive OpTime : Type :=
| OTTimestamp (value : Z)
| OTPair (ts t : Component).

Definition isTimestamp (o : OpTime) : bool :=
  match o with
  | OTTimestamp _ => true
  | OTPair _ _ => false
  end.

(** [o.ts] and [o.t]: a [Timestamp] has neither property. *)
Definition opTime_ts (o : OpTime) : option Component :=
  match o with
  | OTTimestamp _ => None
  | OTPair ts _ => Some ts
  end.

Definition opTime_t (o : OpTime) : option Component :=
  match o with
  | OTTimestamp _ => None
  | OTPair _ t => Some t
  end.

(** A [Timestamp] as the unsigned [Long] it is. *)
Definition Timestamp_asLong (value : Z) : Long.t := Long.mk value true.

(** What [greaterThan] makes of its argument: a [Timestamp] is a [Long]
    already; a plain [{ts, t}] object goes through [Long.fromValue], has
    no [low] / [high] / [unsigned] and reads as the signed 0. *)
Definition Long_fromValue (o : OpTime) : Long.t :=
  match o with
  | OTTimestamp v => Timestamp_asLong v
  | OTPair _ _ => Long.mk 0 false
  end.

(** ** Data model *)

Inductive BatchType : Type := INSERT | UPDATE | DELETE.

Definition BatchType_code (t : BatchType) : Z :=
  match t with
  | INSERT => 1
  | UPDATE => 2
  | DELETE => 3
  end.

Module Batch.
Record t : Type := mk {
  originalZeroIndex : Z;
  currentIndex : Z;
  originalIndexes : list Z;
  batchType : BatchType;
  operations : list JsValue;
  size : Z;
  sizeBytes : Z
}.

(** [new Batch(batchType, originalZeroIndex)]. *)
Definition new (batchType : BatchType) (originalZeroIndex : Z) : t :=
  mk originalZeroIndex 0 [] batchType [] 0 0.
End Batch.

Definition isInsertBatch (batch : Batch.t) : bool :=
  BatchType_code (Batch.batchType batch) =? BatchType_code INSERT.

Definition isUpdateBatch (batch : Batch.t) : bool :=
  BatchType_code (Batch.batchType batch) =? BatchType_code UPDATE.

Definition isDeleteBatch (batch : Batch.t) : bool :=
  BatchType_code (Batch.batchType batch) =? BatchType_code DELETE.

Module WriteConcernErrorData.
(** The [writeConcernError] sub-document of a response.  [result] is the
    property of that name read by [handleMongoWriteConcernError]. *)
Record t : Type := mk {
  code : Z;
  errmsg : string;
  errInfo : option JsValue;
  result : option Z
}.
End WriteConcernErrorData.

Module WriteConcernError.
(** [new WriteConcernError(error)] keeps the server document. *)
Record t : Type := mk { serverError : WriteConcernErrorData.t }.
Definition code (e : t) : Z := WriteConcernErrorData.code (serverError e).
Definition errmsg (e : t) : string := WriteConcernErrorData.errmsg (serverError e).
End WriteConcernError.

Module WriteError.
(** [BulkWriteOperationError] wrapped by [new WriteError(err)]. *)
Record t : Type := mk {
  index : option Z;
  code : option Z;
  errmsg : option string;
  op : option JsValue
}.
End WriteError.

Module IndexedId.
(** An entry [{index, _id}] of [upserted] / [insertedIds]. *)
Record t : Type := mk { index : Z; _id : JsValue }.
End IndexedId.

Module ServerWriteError.
(** An entry of the [writeErrors] array of a response. *)
Record t : Type := mk { index : Z; code : option Z; errmsg : option string }.
End ServerWriteError.

(** [result.upserted]: an array, or any other value (absent is [undefined]). *)
Inductive Upserted : Type :=
| UpsertedArray (entries : list IndexedId.t)
| UpsertedValue (v : JsValue).

Module Document.
(** A server response, or an error object read as one.  [result] is the
    nested document of a wrapped response. *)
Inductive t : Type := mk {
  ok : option Z;
  code : option Z;
  message : option string;
  n : option Z;
  nModified : option Z;
  upserted : Upserted;
  writeErrors : option (list ServerWriteError.t);
  writeConcernError : option WriteConcernErrorData.t;
  opTime : option OpTime;
  lastOp : option OpTime;
  result : option t
}.

Definition empty : t :=
  mk None None None None None (UpsertedValue JUndefined) None None None None None.

Definition set_ok (v : option Z) (d : t) : t :=
  mk v (code d) (message d) (n d) (nModified d) (upserted d) (writeErrors d)
     (writeConcernError d) (opTime d) (lastOp d) (result d).
End Document.

Module AnyError.
(** An error object: its own properties read as a document, whether it
    has a [message] property, and whether it is a
    [MongoWriteConcernError]. *)
Record t : Type := mk {
  doc : Document.t;
  hasMessage : bool;
  isMongoWriteConcernError : bool
}.

(** [err.ok = 0]. *)
Definition set_ok (v : option Z) (e : t) : t :=
  mk (Document.set_ok v (doc e)) (hasMessage e) (isMongoWriteConcernError e).
End AnyError.

Module BulkResult.
Record t : Type := mk {
  ok : Z;
  writeErrors : list WriteError.t;
  writeConcernErrors : list WriteConcernError.t;
  insertedIds : list IndexedId.t;
  nInserted : Z;
  nUpserted : Z;
  nMatched : Z;
  nModified : Z;
  nRemoved : Z;
  upserted : list IndexedId.t;
  opTime : option OpTime
}.

(** The literal built by the constructor of [BulkOperationBase]. *)
Definition initial : t := mk 1 [] [] [] 0 0 0 0 0 [] None.

Definition set_ok (v : Z) (r : t) : t :=
  mk v (writeErrors r) (writeConcernErrors r) (insertedIds r) (nInserted r)
     (nUpserted r) (nMatched r) (nModified r) (nRemoved r) (upserted r) (opTime r).
Definition set_writeErrors (v : list WriteError.t) (r : t) : t :=
  mk (ok r) v (writeConcernErrors r) (insertedIds r) (nInserted r)
     (nUpserted r) (nMatched r) (nModified r) (nRemoved r) (upserted r) (opTime r).
Definition set_writeConcernErrors (v : list WriteConcernError.t) (r : t) : t :=
  mk (ok r) (writeErrors r) v (insertedIds r) (nInserted r)
     (nUpserted r) (nMatched r) (nModified r) (nRemoved r) (upserted r) (opTime r).
Definition set_nInserted (v : Z) (r : t) : t :=
  mk (ok r) (writeErrors r) (writeConcernErrors r) (insertedIds r) v
     (nUpserted r) (nMatched r) (nModified r) (nRemoved r) (upserted r) (opTime r).
Definition set_nUpserted (v : Z) (r : t) : t :=
  mk (ok r) (writeErrors r) (writeConcernErrors r) (insertedIds r) (nInserted r)
     v (nMatched r) (nModified r) (nRemoved r) (upserted r) (opTime r).
Definition set_nMatched (v : Z) (r : t) : t :=
  mk (ok r) (writeErrors r) (writeConcernErrors r) (insertedIds r) (nInserted r)
     (nUpserted r) v (nModified r) (nRemoved r) (upserted r) (opTime r).
Definition set_nModified (v : Z) (r : t) : t :=
  mk (ok r) (writeErrors r) (writeConcernErrors r) (insertedIds r) (nInserted r)
     (nUpserted r) (nMatched r) v (nRemoved r) (upserted r) (opTime r).
Definition set_nRemoved (v : Z) (r : t) : t :=
  mk (ok r) (writeErrors r) (writeConcernErrors r) (insertedIds r) (nInserted r)
     (nUpserted r) (nMatched r) (nModified r) v (upserted r) (opTime r).
Definition set_upserted (v : list IndexedId.t) (r : t) : t :=
  mk (ok r) (writeErrors r) (writeConcernErrors r) (insertedIds r) (nInserted r)
     (nUpserted r) (nMatched r) (nModified r) (nRemoved r) v (opTime r).
Definition set_opTime (v : option OpTime) (r : t) : t :=
  mk (ok r) (writeErrors r) (writeConcernErrors r) (insertedIds r) (nInserted r)
     (nUpserted r) (nMatched r) (nModified r) (nRemoved r) (upserted r) v.
End BulkResult.

(** ** A small error monad for code that may throw *)

Definition bind {A B : Type} (c : Completion A) (k : A -> Completion B)
  : Completion B :=
  match c with
  | Normal a => k a
  | Throw e => Throw e
  end.

Notation "x <- c ;; k" := (bind c (fun x => k))
  (at level 61, c at next level, right associativity).

(** [a || b] on optional objects. *)
Definition opt_or {A : Type} (a b : option A) : option A :=
  match a with
  | Some _ => a
  | None => b
  end.

(** ** The result merger: [mergeBatchResults]

    The body of the function is split at its comments into the phases below;
    [mergeBatchResults] runs them in the order of the source. *)

(** [if (err) result = err; else if (result && result.result) result = result.result]. *)
Definition effectiveResult (err : option AnyError.t) (result : option Document.t)
  : option Document.t :=
  match err with
  | Some e => Some (AnyError.doc e)
  | None =>
      match result with
      | Some r =>
          match Document.result r with
          | Some inner => Some inner
          | None => Some r
          end
      | None => None
      end
  end.

(** The write error recorded for a top-level command failure. *)
Definition topLevelWriteError (batch : Batch.t) (result : Document.t) : WriteError.t :=
  WriteError.mk (Some 0)
                (Some (num_or_zero (Document.code result)))
                (Document.message result)
                (js_get (Batch.operations batch) 0).

(** "Deal with opTime if available".  The inner [None] case cannot occur:
    the guard has just found one of the two properties set. *)
Definition mergeOpTime (bulkResult : BulkResult.t) (result : Document.t)
  : Completion BulkResult.t :=
  match opt_or (Document.opTime result) (Document.lastOp result) with
  | None => Normal bulkResult
  | Some _ =>
      match opt_or (Document.lastOp result) (Document.opTime result) with
      | None => Throw TypeError
      | Some (OTTimestamp v as opTime) =>
          match BulkResult.opTime bulkResult with
          | None => Normal (BulkResult.set_opTime (Some opTime) bulkResult)
          | Some last =>
              gt <- Long.greaterThan (Timestamp_asLong v) (Some (Long_fromValue last)) ;;
              if gt : bool
              then Normal (BulkResult.set_opTime (Some opTime) bulkResult)
              else Normal bulkResult
          end
      | Some (OTPair ts t as opTime) =>
          let lastOpTS :=
            match BulkResult.opTime bulkResult with
            | Some last => option_map normalize (opTime_ts last)
            | None => None
            end in
          let lastOpT :=
            match BulkResult.opTime bulkResult with
            | Some last => option_map normalize (opTime_t last)
            | None => None
            end in
          let opTimeTS := normalize ts in
          let opTimeT := normalize t in
          match BulkResult.opTime bulkResult with
          | None => Normal (BulkResult.set_opTime (Some opTime) bulkResult)
          | Some _ =>
              gt <- Long.greaterThan opTimeTS lastOpTS ;;
              if gt : bool
              then Normal (BulkResult.set_opTime (Some opTime) bulkResult)
              else
                eq <- Long.equals opTimeTS lastOpTS ;;
                if eq : bool
                then
                  gt' <- Long.greaterThan opTimeT lastOpT ;;
                  if gt' : bool
                  then Normal (BulkResult.set_opTime (Some opTime) bulkResult)
                  else Normal bulkResult
                else Normal bulkResult
          end
      end
  end.

(** [if (isInsertBatch(batch) && result.n) ...]. *)
Definition mergeInserted (batch : Batch.t) (result : Document.t)
           (bulkResult : BulkResult.t) : BulkResult.t :=
  match Document.n result with
  | Some n =>
      if isInsertBatch batch && negb (n =? 0)
      then BulkResult.set_nInserted (BulkResult.nInserted bulkResult + n) bulkResult
      else bulkResult
  | None => bulkResult
  end.

(** [if (isDeleteBatch(batch) && result.n) ...]. *)
Definition mergeRemoved (batch : Batch.t) (result : Document.t)
           (bulkResult : BulkResult.t) : BulkResult.t :=
  match Document.n result with
  | Some n =>
      if isDeleteBatch batch && negb (n =? 0)
      then BulkResult.set_nRemoved (BulkResult.nRemoved bulkResult + n) bulkResult
      else bulkResult
  | None => bulkResult
  end.

(** The entry pushed for [result.upserted[i]]. *)
Definition remapUpserted (batch : Batch.t) (e : IndexedId.t) : IndexedId.t :=
  IndexedId.mk (IndexedId.index e + Batch.originalZeroIndex batch) (IndexedId._id e).

(** "We have an array of upserted values, we need to rewrite the indexes":
    returns the local [nUpserted] and the updated result. *)
Definition mergeUpserted (batch : Batch.t) (result : Document.t)
           (bulkResult : BulkResult.t) : Z * BulkResult.t :=
  match Document.upserted result with
  | UpsertedArray entries =>
      (Z.of_nat (List.length entries),
       BulkResult.set_upserted
         (BulkResult.upserted bulkResult ++ map (remapUpserted batch) entries)
         bulkResult)
  | UpsertedValue v =>
      if js_truthy v
      then (1,
            BulkResult.set_upserted
              (BulkResult.upserted bulkResult
                 ++ [IndexedId.mk (Batch.originalZeroIndex batch) v])
              bulkResult)
      else (0, bulkResult)
  end.

(** "If we have an update Batch type". *)
Definition mergeUpdated (batch : Batch.t) (result : Document.t) (nUpserted : Z)
           (bulkResult : BulkResult.t) : BulkResult.t :=
  match Document.n result with
  | Some n =>
      if isUpdateBatch batch && negb (n =? 0)
      then
        let nModified := Document.nModified result in
        let bulkResult :=
          BulkResult.set_nUpserted (BulkResult.nUpserted bulkResult + nUpserted)
                                   bulkResult in
        let bulkResult :=
          BulkResult.set_nMatched (BulkResult.nMatched bulkResult + (n - nUpserted))
                                  bulkResult in
        match nModified with
        | Some m =>
            BulkResult.set_nModified (BulkResult.nModified bulkResult + m) bulkResult
        | None => BulkResult.set_nModified 0 bulkResult
        end
      else bulkResult
  | None => bulkResult
  end.

(** The write error pushed for [result.writeErrors[i]]. *)
Definition remapWriteError (batch : Batch.t) (e : ServerWriteError.t) : WriteError.t :=
  WriteError.mk (js_get (Batch.originalIndexes batch) (ServerWriteError.index e))
                (ServerWriteError.code e)
                (ServerWriteError.errmsg e)
                (js_get (Batch.operations batch) (ServerWriteError.index e)).

(** [if (Array.isArray(result.writeErrors)) ...]. *)
Definition mergeWriteErrors (batch : Batch.t) (result : Document.t)
           (bulkResult : BulkResult.t) : BulkResult.t :=
  match Document.writeErrors result with
  | Some errors =>
      BulkResult.set_writeErrors
        (BulkResult.writeErrors bulkResult ++ map (remapWriteError batch) errors)
        bulkResult
  | None => bulkResult
  end.

(** [if (result.writeConcernError) ...]. *)
Definition mergeWriteConcernError (result : Document.t) (bulkResult : BulkResult.t)
  : BulkResult.t :=
  match Document.writeConcernError result with
  | Some w =>
      BulkResult.set_writeConcernErrors
        (BulkResult.writeConcernErrors bulkResult ++ [WriteConcernError.mk w])
        bulkResult
  | None => bulkResult
  end.

(** The field merging that follows the top-level checks. *)
Definition mergeFields (batch : Batch.t) (result : Document.t)
           (bulkResult : BulkResult.t) : Completion BulkResult.t :=
  bulkResult <- mergeOpTime bulkResult result ;;
  let bulkResult := mergeInserted batch result bulkResult in
  let bulkResult := mergeRemoved batch result bulkResult in
  let '(nUpserted, bulkResult) := mergeUpserted batch result bulkResult in
  let bulkResult := mergeUpdated batch result nUpserted bulkResult in
  let bulkResult := mergeWriteErrors batch result bulkResult in
  Normal (mergeWriteConcernError result bulkResult).

(** [mergeBatchResults(batch, bulkResult, err, result)]: the value the call
    evaluates to, paired with [bulkResult] after the call.  Every [return]
    of the source is a bare [return;] and so is the fall-through. *)
Definition mergeBatchResults (batch : Batch.t) (bulkResult : BulkResult.t)
           (err : option AnyError.t) (result : option Document.t)
  : Completion (JsValue * BulkResult.t) :=
  match effectiveResult err result with
  | None => Normal (JUndefined, bulkResult)
  | Some result =>
      if num_is (Document.ok result) 0 && (BulkResult.ok bulkResult =? 1)
      then
        let bulkResult := BulkResult.set_ok 0 bulkResult in
        let writeError := topLevelWriteError batch result in
        Normal (JUndefined,
                BulkResult.set_writeErrors
                  (BulkResult.writeErrors bulkResult ++ [writeError]) bulkResult)
      else if num_is (Document.ok result) 0 && (BulkResult.ok bulkResult =? 0)
      then Normal (JUndefined, bulkResult)
      else
        bulkResult <- mergeFields batch result bulkResult ;;
        Normal (JUndefined, bulkResult)
  end.

(** ** Results and errors handed to the caller *)

Module BulkWriteResult.
(** [new BulkWriteResult(bulkResult)] wraps the bulk result object itself,
    not a copy: a wrapper made before a merge shows the merged state when
    it is read afterwards.  The model therefore builds the wrapper from
    the bulk result as it is when the callback is invoked. *)
Record t : Type := mk { result : BulkResult.t }.

Definition hasWriteErrors (r : t) : bool :=
  0 <? Z.of_nat (List.length (BulkResult.writeErrors (result r))).

Definition isOk (r : t) : bool := BulkResult.ok (result r) =? 1.
End BulkWriteResult.

(** The loop of [getWriteConcernError] that combines several messages:
    [' and '] is added after the first one only. *)
Fixpoint combineErrmsg (i : nat) (errors : list WriteConcernError.t) (errmsg : string)
  : string :=
  match errors with
  | [] => errmsg
  | err :: rest =>
      let errmsg := (errmsg ++ WriteConcernError.errmsg err)%string in
      let errmsg := match i with
                    | O => (errmsg ++ " and ")%string
                    | S _ => errmsg
                    end in
      combineErrmsg (S i) rest errmsg
  end.

(** The first argument of [new MongoBulkWriteError(error, result)]. *)
Inductive BulkErrorSource : Type :=
| OfError (e : AnyError.t)
| OfObject (message : option string) (code : option Z) (writeErrors : list WriteError.t)
| OfWriteConcernError (e : WriteConcernError.t).

(** What the [result] property of a [MongoBulkWriteError] holds once the
    constructor has run: the result it was given, or the [result] of the
    error it was built from. *)
Inductive ResultProperty : Type :=
| ResultGiven (result : BulkWriteResult.t)
| ResultOfError (result : Document.t).

(** Likewise for its [writeErrors] property. *)
Inductive WriteErrorsProperty : Type :=
| WriteErrorsGiven (errors : list WriteError.t)
| WriteErrorsOfError (errors : list ServerWriteError.t).

Module MongoBulkWriteError.
(** [new MongoBulkWriteError(error, result)], kept as the two arguments of
    the call; what the constructor leaves in the properties of the object
    is computed from them. *)
Record t : Type := mk {
  error : BulkErrorSource;
  resultArgument : BulkWriteResult.t
}.

(** [this.result = result; Object.assign(this, error);]: the own
    properties of [error] are copied over what has just been set, so an
    error with a [result] of its own leaves that one in [this.result].
    The object literals [{ message, code, writeErrors }] have no such
    property, and a [WriteConcernError] holds nothing but its server
    document, under a symbol. *)
Definition result (e : t) : ResultProperty :=
  match error e with
  | OfError x =>
      match Document.result (AnyError.doc x) with
      | Some own => ResultOfError own
      | None => ResultGiven (resultArgument e)
      end
  | OfObject _ _ _ | OfWriteConcernError _ => ResultGiven (resultArgument e)
  end.

(** The [writeErrors] property: [[]] from the field initialiser, for an
    object literal [error.writeErrors ?? []], and whatever [Object.assign]
    copies from an error that has the property itself. *)
Definition writeErrors (e : t) : WriteErrorsProperty :=
  match error e with
  | OfError x =>
      match Document.writeErrors (AnyError.doc x) with
      | Some own => WriteErrorsOfError own
      | None => WriteErrorsGiven []
      end
  | OfObject _ _ errors => WriteErrorsGiven errors
  | OfWriteConcernError _ => WriteErrorsGiven []
  end.
End MongoBulkWriteError.

(** What a [Callback<BulkWriteResult>] can receive as its error. *)
Inductive CallbackError : Type :=
| BulkWriteFailure (e : MongoBulkWriteError.t)
| EarlyFailure (e : JsError).

Definition CallbackArgs : Type := (option CallbackError * option BulkWriteResult.t)%type.

(** ** The bulk operation and its find builder *)

Module CurrentOp.
(** [s.currentOp]: the pending filter-scoped operation. *)
Record t : Type := mk {
  selector : option JsValue;
  upsert : option bool;
  collation : option JsValue;
  arrayFilters : option (list JsValue)
}.

(** The literal [{}]. *)
Definition empty : t := mk None None None None.
End CurrentOp.

Module BulkWriteOptions.
Record t : Type := mk {
  bypassDocumentValidation : option bool;
  ordered : option bool;
  keepGoing : option bool;
  forceServerObjectId : option bool;
  checkKeys : option bool;
  retryWrites : option bool;
  writeConcern : option JsValue
}.

(** The literal [{}]. *)
Definition empty : t := mk None None None None None None None.

(** [{ ...a, ...b }]. *)
Definition spread (a b : t) : t :=
  mk (opt_or (bypassDocumentValidation b) (bypassDocumentValidation a))
     (opt_or (ordered b) (ordered a))
     (opt_or (keepGoing b) (keepGoing a))
     (opt_or (forceServerObjectId b) (forceServerObjectId a))
     (opt_or (checkKeys b) (checkKeys a))
     (opt_or (retryWrites b) (retryWrites a))
     (opt_or (writeConcern b) (writeConcern a)).

Definition set_ordered (v : option bool) (o : t) : t :=
  mk (bypassDocumentValidation o) v (keepGoing o) (forceServerObjectId o)
     (checkKeys o) (retryWrites o) (writeConcern o).
Definition set_bypassDocumentValidation (v : option bool) (o : t) : t :=
  mk v (ordered o) (keepGoing o) (forceServerObjectId o)
     (checkKeys o) (retryWrites o) (writeConcern o).
Definition set_checkKeys (v : option bool) (o : t) : t :=
  mk (bypassDocumentValidation o) (ordered o) (keepGoing o) (forceServerObjectId o)
     v (retryWrites o) (writeConcern o).
Definition set_retryWrites (v : option bool) (o : t) : t :=
  mk (bypassDocumentValidation o) (ordered o) (keepGoing o) (forceServerObjectId o)
     (checkKeys o) v (writeConcern o).
End BulkWriteOptions.

Module BulkOperationPrivate.
(** The fields of the internal state [s] that the modelled functions read
    or write (the size policy, topology and collection are left out). *)
Record t : Type := mk {
  bulkResult : BulkResult.t;
  currentBatch : option Batch.t;
  currentIndex : Z;
  currentInsertBatch : option Batch.t;
  currentUpdateBatch : option Batch.t;
  currentRemoveBatch : option Batch.t;
  batches : list Batch.t;
  writeConcern : option JsValue;
  namespace : string;
  options : BulkWriteOptions.t;
  currentOp : option CurrentOp.t;
  executed : bool;
  checkKeys : bool;
  bypassDocumentValidation : option bool
}.

Definition set_bulkResult (v : BulkResult.t) (s : t) : t :=
  mk v (currentBatch s) (currentIndex s) (currentInsertBatch s)
     (currentUpdateBatch s) (currentRemoveBatch s) (batches s) (writeConcern s)
     (namespace s) (options s) (currentOp s) (executed s) (checkKeys s)
     (bypassDocumentValidation s).
Definition set_batches (v : list Batch.t) (s : t) : t :=
  mk (bulkResult s) (currentBatch s) (currentIndex s) (currentInsertBatch s)
     (currentUpdateBatch s) (currentRemoveBatch s) v (writeConcern s)
     (namespace s) (options s) (currentOp s) (executed s) (checkKeys s)
     (bypassDocumentValidation s).
Definition set_writeConcern (v : option JsValue) (s : t) : t :=
  mk (bulkResult s) (currentBatch s) (currentIndex s) (currentInsertBatch s)
     (currentUpdateBatch s) (currentRemoveBatch s) (batches s) v
     (namespace s) (options s) (currentOp s) (executed s) (checkKeys s)
     (bypassDocumentValidation s).
Definition set_currentOp (v : option CurrentOp.t) (s : t) : t :=
  mk (bulkResult s) (currentBatch s) (currentIndex s) (currentInsertBatch s)
     (currentUpdateBatch s) (currentRemoveBatch s) (batches s) (writeConcern s)
     (namespace s) (options s) v (executed s) (checkKeys s)
     (bypassDocumentValidation s).
Definition set_executed (v : bool) (s : t) : t :=
  mk (bulkResult s) (currentBatch s) (currentIndex s) (currentInsertBatch s)
     (currentUpdateBatch s) (currentRemoveBatch s) (batches s) (writeConcern s)
     (namespace s) (options s) (currentOp s) v (checkKeys s)
     (bypassDocumentValidation s).
End BulkOperationPrivate.

Module BulkOperationBase.
Record t : Type := mk {
  isOrdered : bool;
  s : BulkOperationPrivate.t;
  operationId : option Z
}.

Definition set_s (v : BulkOperationPrivate.t) (b : t) : t :=
  mk (isOrdered b) v (operationId b).

Definition bulkResult (b : t) : BulkResult.t := BulkOperationPrivate.bulkResult (s b).
Definition batches (b : t) : list Batch.t := BulkOperationPrivate.batches (s b).
Definition executed (b : t) : bool := BulkOperationPrivate.executed (s b).
Definition currentOp (b : t) : option CurrentOp.t := BulkOperationPrivate.currentOp (s b).

Definition set_bulkResult (v : BulkResult.t) (b : t) : t :=
  set_s (BulkOperationPrivate.set_bulkResult v (s b)) b.
Definition set_batches (v : list Batch.t) (b : t) : t :=
  set_s (BulkOperationPrivate.set_batches v (s b)) b.
Definition set_currentOp (v : option CurrentOp.t) (b : t) : t :=
  set_s (BulkOperationPrivate.set_currentOp v (s b)) b.
Definition set_executed (v : bool) (b : t) : t :=
  set_s (BulkOperationPrivate.set_executed v (s b)) b.
Definition set_writeConcern (v : option JsValue) (b : t) : t :=
  set_s (BulkOperationPrivate.set_writeConcern v (s b)) b.

(** The state set up by the constructor, for the fields of the model:
    an empty result with [ok = 1], no batch, [executed = false].  [options]
    stands for the options after [applyRetryableWrites] and [writeConcern]
    for [WriteConcern.fromOptions(options)]. *)
Definition new (namespace : string) (options : BulkWriteOptions.t)
           (writeConcern : option JsValue) (isOrdered : bool) : t :=
  mk isOrdered
     (BulkOperationPrivate.mk
        BulkResult.initial None 0 None None None [] writeConcern namespace options
        None false
        (match BulkWriteOptions.checkKeys options with
         | Some b => b
         | None => false
         end)
        (match BulkWriteOptions.bypassDocumentValidation options with
         | Some true => Some true
         | _ => None
         end))
     None.
End BulkOperationBase.

(** A [FindOperators] object holds nothing but the reference to the bulk
    operation that made it; its methods act on that operation's state. *)
Inductive FindOperators : Type := NewFindOperators.

(** [BulkOperationBase.find(selector)]: the completion of the call and the
    state of the bulk operation after it. *)
Definition find (selector : JsValue) (this : BulkOperationBase.t)
  : Completion FindOperators * BulkOperationBase.t :=
  if negb (js_truthy selector)
  then (Throw (MongoInvalidArgumentError "Bulk find operation must specify a selector"),
        this)
  else
    let this :=
      BulkOperationBase.set_currentOp
        (Some (CurrentOp.mk (Some selector) None None None)) this in
    (Normal NewFindOperators, this).

(** [buildCurrentOp(bulkOp)]: takes the pending operation and clears it. *)
Definition buildCurrentOp (bulkOp : BulkOperationBase.t)
  : CurrentOp.t * BulkOperationBase.t :=
  let currentOp := BulkOperationBase.currentOp bulkOp in
  let bulkOp := BulkOperationBase.set_currentOp None bulkOp in
  match currentOp with
  | Some op => (op, bulkOp)
  | None => (CurrentOp.empty, bulkOp)
  end.

(** [FindOperators.upsert()]. *)
Definition upsert (this : BulkOperationBase.t) : BulkOperationBase.t :=
  let op := match BulkOperationBase.currentOp this with
            | Some op => op
            | None => CurrentOp.empty
            end in
  BulkOperationBase.set_currentOp
    (Some (CurrentOp.mk (CurrentOp.selector op) (Some true) (CurrentOp.collation op)
                        (CurrentOp.arrayFilters op))) this.

(** ** The batch executor: [executeCommands] and [execute] *)

(** How the dispatch of one batch ends: the transport invokes the result
    handler with [(err, result)], or the dispatching call itself throws. *)
Inductive DispatchOutcome : Type :=
| Replied (err : option AnyError.t) (result : option Document.t)
| Raised (err : AnyError.t).

(** Which [return] of [resultHandler] invoked the callback. *)
Inductive HandlerExit : Type :=
| ExitDriverError
| ExitWriteConcernError
| ExitMergeResult
| ExitHandleWriteError.

(** What [resultHandler] does: invokes the callback and stops, goes on to
    the next batch, or lets an exception escape. *)
Inductive Handled : Type :=
| Finished (exit : HandlerExit) (args : CallbackArgs)
| Continue
| Escaped (e : JsError).

(** How a run of the executor ends. *)
Inductive RunOutcome : Type :=
| Called (args : CallbackArgs)
| Rejected (e : JsError)
| Uncaught (e : JsError).

Section Executor.

(** The transport collaborator and the helpers of other modules. *)
Variable World : Type.
Variable executeOperation :
  World -> BatchType -> string -> list JsValue -> BulkWriteOptions.t ->
  DispatchOutcome * World.
Variable resolveOptions :
  BulkOperationBase.t -> BulkWriteOptions.t -> BulkWriteOptions.t.
Variable WriteConcern_fromOptions : BulkWriteOptions.t -> option JsValue.
(** [MONGODB_ERROR_CODES.WriteConcernFailed]. *)
Variable WriteConcernFailed : Z.

(** One entry of the log of a run: the batch handed to the transport,
    the cumulative result at that moment, and how the dispatch ended. *)
Record Dispatch : Type := mkDispatch {
  batch : Batch.t;
  before : BulkResult.t;
  reply : DispatchOutcome
}.

Record Run : Type := mkRun {
  dispatched : list Dispatch;
  outcome : RunOutcome;
  final : BulkOperationBase.t;
  world : World
}.

(** [BulkWriteResult.getWriteConcernError()]. *)
Definition getWriteConcernError (r : BulkWriteResult.t) : option WriteConcernError.t :=
  match BulkResult.writeConcernErrors (BulkWriteResult.result r) with
  | [] => None
  | [e] => Some e
  | errors =>
      Some (WriteConcernError.mk
              (WriteConcernErrorData.mk WriteConcernFailed
                                        (combineErrmsg 0 errors "") None None))
  end.

(** [handleWriteError(callback, writeResult)]: [Some args] when it invokes
    the callback with [args] and returns [true], [None] when it returns
    [undefined]. *)
Definition handleWriteError (this : BulkOperationBase.t)
           (writeResult : BulkWriteResult.t) : option CallbackArgs :=
  match BulkResult.writeErrors (BulkOperationBase.bulkResult this) with
  | first :: _ =>
      let msg := if str_truthy (WriteError.errmsg first)
                 then WriteError.errmsg first
                 else Some "write operation failed"%string in
      Some (Some (BulkWriteFailure
                    (MongoBulkWriteError.mk
                       (OfObject msg (WriteError.code first)
                                 (BulkResult.writeErrors
                                    (BulkOperationBase.bulkResult this)))
                       writeResult)),
            None)
  | [] =>
      match getWriteConcernError writeResult with
      | Some writeConcernError =>
          Some (Some (BulkWriteFailure
                        (MongoBulkWriteError.mk
                           (OfWriteConcernError writeConcernError) writeResult)),
                None)
      | None => None
      end
  end.

(** [handleMongoWriteConcernError(batch, bulkResult, err, callback)]. *)
Definition handleMongoWriteConcernError (batch : Batch.t)
           (bulkResult : BulkResult.t) (err : AnyError.t)
  : Completion CallbackArgs * BulkResult.t :=
  let err_result := Document.result (AnyError.doc err) in
  match mergeBatchResults batch bulkResult None err_result with
  | Throw e => (Throw e, bulkResult)
  | Normal (_, bulkResult) =>
      match err_result with
      | None =>
          (Normal (Some (BulkWriteFailure
                           (MongoBulkWriteError.mk
                              (OfObject None None [])
                              (BulkWriteResult.mk bulkResult))),
                   None),
           bulkResult)
      | Some r =>
          match Document.writeConcernError r with
          | None => (Throw TypeError, bulkResult)
          | Some w =>
              (Normal (Some (BulkWriteFailure
                               (MongoBulkWriteError.mk
                                  (OfObject (Some (WriteConcernErrorData.errmsg w))
                                            (WriteConcernErrorData.result w) [])
                                  (BulkWriteResult.mk bulkResult))),
                       None),
               bulkResult)
          end
      end
  end.

(** The part of [resultHandler] under "Merge the results together". *)
Definition mergeAndDecide (bulkOperation : BulkOperationBase.t) (batch : Batch.t)
           (err : option AnyError.t) (result : option Document.t)
  : Handled * BulkOperationBase.t :=
  match mergeBatchResults batch (BulkOperationBase.bulkResult bulkOperation)
                          err result with
  | Throw x => (Escaped x, bulkOperation)
  | Normal (mergeResult, bulkResult) =>
      let bulkOperation :=
        BulkOperationBase.set_bulkResult bulkResult bulkOperation in
      let writeResult := BulkWriteResult.mk bulkResult in
      if negb (js_nullish mergeResult)
      then (Finished ExitMergeResult (None, Some writeResult), bulkOperation)
      else
        match handleWriteError bulkOperation writeResult with
        | Some args => (Finished ExitHandleWriteError args, bulkOperation)
        | None => (Continue, bulkOperation)
        end
  end.

(** The [resultHandler] closure of [executeCommands] for [batch]. *)
Definition resultHandler (bulkOperation : BulkOperationBase.t) (batch : Batch.t)
           (err : option AnyError.t) (result : option Document.t)
  : Handled * BulkOperationBase.t :=
  let bulkResult := BulkOperationBase.bulkResult bulkOperation in
  match err with
  | Some e =>
      if AnyError.hasMessage e && negb (AnyError.isMongoWriteConcernError e)
      then
        (Finished ExitDriverError
                  (Some (BulkWriteFailure
                           (MongoBulkWriteError.mk (OfError e)
                                                   (BulkWriteResult.mk bulkResult))),
                   None),
         bulkOperation)
      else if AnyError.isMongoWriteConcernError e
      then
        match handleMongoWriteConcernError batch bulkResult e with
        | (Normal args, bulkResult) =>
            (Finished ExitWriteConcernError args,
             BulkOperationBase.set_bulkResult bulkResult bulkOperation)
        | (Throw x, bulkResult) =>
            (Escaped x, BulkOperationBase.set_bulkResult bulkResult bulkOperation)
        end
      else mergeAndDecide bulkOperation batch err result
  | None => mergeAndDecide bulkOperation batch err result
  end.

(** The options of one dispatch, as [executeCommands] computes them. *)
Definition finalOptionsFor (bulkOperation : BulkOperationBase.t)
           (options : BulkWriteOptions.t) (batch : Batch.t) : BulkWriteOptions.t :=
  let finalOptions :=
    resolveOptions bulkOperation
      (BulkWriteOptions.set_ordered
         (Some (BulkOperationBase.isOrdered bulkOperation)) options) in
  let finalOptions :=
    match BulkWriteOptions.bypassDocumentValidation finalOptions with
    | Some true => finalOptions
    | _ => BulkWriteOptions.set_bypassDocumentValidation None finalOptions
    end in
  let finalOptions :=
    match BulkOperationPrivate.bypassDocumentValidation
            (BulkOperationBase.s bulkOperation) with
    | Some true => BulkWriteOptions.set_bypassDocumentValidation (Some true) finalOptions
    | _ => finalOptions
    end in
  let finalOptions :=
    if negb (BulkOperationPrivate.checkKeys (BulkOperationBase.s bulkOperation))
    then BulkWriteOptions.set_checkKeys (Some false) finalOptions
    else finalOptions in
  match BulkWriteOptions.retryWrites finalOptions with
  | Some true =>
      let finalOptions :=
        if isUpdateBatch batch
        then BulkWriteOptions.set_retryWrites
               (Some (negb (existsb (fun op => js_truthy (js_prop op "multi"))
                                    (Batch.operations batch))))
               finalOptions
        else finalOptions in
      if isDeleteBatch batch
      then BulkWriteOptions.set_retryWrites
             (Some (match BulkWriteOptions.retryWrites finalOptions with
                    | Some true =>
                        negb (existsb (fun op => match js_prop op "limit" with
                                                 | JNum 0 => true
                                                 | _ => false
                                                 end)
                                      (Batch.operations batch))
                    | _ => false
                    end))
             finalOptions
      else finalOptions
  | _ => finalOptions
  end.

(** [executeCommands], by recursion on the queue [s.batches]: [queue] is
    the queue as the call finds it, and [batches.shift()] stores its tail
    back into the state.  The handler runs when the transport replies;
    the [catch] block runs when the dispatching call throws.  The run
    logs each dispatch in order. *)
Fixpoint executeCommands_queue (queue : list Batch.t)
         (bulkOperation : BulkOperationBase.t) (options : BulkWriteOptions.t)
         (w : World) : Run :=
  match queue with
  | [] =>
      mkRun []
            (Called (None,
                     Some (BulkWriteResult.mk
                             (BulkOperationBase.bulkResult bulkOperation))))
            bulkOperation w
  | batch :: rest =>
      let bulkOperation := BulkOperationBase.set_batches rest bulkOperation in
      let finalOptions := finalOptionsFor bulkOperation options batch in
      let '(reply, w) :=
        executeOperation w (Batch.batchType batch)
                         (BulkOperationPrivate.namespace
                            (BulkOperationBase.s bulkOperation))
                         (Batch.operations batch) finalOptions in
      let entry :=
        mkDispatch batch (BulkOperationBase.bulkResult bulkOperation) reply in
      match reply with
      | Replied err result =>
          match resultHandler bulkOperation batch err result with
          | (Finished _ args, bulkOperation) =>
              mkRun [entry] (Called args) bulkOperation w
          | (Escaped x, bulkOperation) =>
              mkRun [entry] (Uncaught x) bulkOperation w
          | (Continue, bulkOperation) =>
              let run := executeCommands_queue rest bulkOperation options w in
              mkRun (entry :: dispatched run) (outcome run)
                    (final run) (world run)
          end
      | Raised err =>
          let err := AnyError.set_ok (Some 0) err in
          match mergeBatchResults batch (BulkOperationBase.bulkResult bulkOperation)
                                  (Some err) None with
          | Normal (_, bulkResult) =>
              mkRun [entry] (Called (None, None))
                    (BulkOperationBase.set_bulkResult bulkResult bulkOperation) w
          | Throw x => mkRun [entry] (Uncaught x) bulkOperation w
          end
      end
  end.

Definition executeCommands (bulkOperation : BulkOperationBase.t)
           (options : BulkWriteOptions.t) (w : World) : Run :=
  executeCommands_queue (BulkOperationBase.batches bulkOperation)
                        bulkOperation options w.

(** [handleEarlyError(err, callback)]: [callback(err)] when a callback was
    given, a rejected promise otherwise. *)
Definition handleEarlyError (err : JsError) (callback : bool) : RunOutcome :=
  if callback then Called (Some (EarlyFailure err), None) else Rejected err.

(** [a.push(b)] when [b] is set. *)
Definition pushBatch (current : option Batch.t) (batches : list Batch.t)
  : list Batch.t :=
  match current with
  | Some b => batches ++ [b]
  | None => batches
  end.

(** Modelled from the spec: [executeLegacyOperation] of the utilities
    module is absent; the spec has [execute] "turn control over to the
    Batch Executor and return its terminal outcome", so the call applies
    [executeCommands] to its arguments. *)
Definition executeLegacyOperation
           (operation : BulkOperationBase.t -> BulkWriteOptions.t -> World -> Run)
           (bulkOperation : BulkOperationBase.t) (options : BulkWriteOptions.t)
           (w : World) : Run :=
  operation bulkOperation options w.

(** [BulkOperationBase.execute(options, callback)]; [callback] tells
    whether a callback function was passed. *)
Definition execute (this : BulkOperationBase.t) (options : option BulkWriteOptions.t)
           (callback : bool) (w : World) : Run :=
  let options := match options with
                 | Some o => o
                 | None => BulkWriteOptions.empty
                 end in
  if BulkOperationBase.executed this
  then mkRun [] (handleEarlyError MongoBatchReExecutionError callback) this w
  else
    let this :=
      match WriteConcern_fromOptions options with
      | Some writeConcern => BulkOperationBase.set_writeConcern (Some writeConcern) this
      | None => this
      end in
    let s := BulkOperationBase.s this in
    let this :=
      if BulkOperationBase.isOrdered this
      then BulkOperationBase.set_batches
             (pushBatch (BulkOperationPrivate.currentBatch s)
                        (BulkOperationBase.batches this)) this
      else BulkOperationBase.set_batches
             (pushBatch (BulkOperationPrivate.currentRemoveBatch s)
                (pushBatch (BulkOperationPrivate.currentUpdateBatch s)
                   (pushBatch (BulkOperationPrivate.currentInsertBatch s)
                              (BulkOperationBase.batches this)))) this in
    match BulkOperationBase.batches this with
    | [] =>
        mkRun []
              (handleEarlyError
                 (MongoInvalidArgumentError
                    "Invalid BulkOperation, Batch cannot be empty") callback)
              this w
    | _ :: _ =>
        let this := BulkOperationBase.set_executed true this in
        let finalOptions :=
          BulkWriteOptions.spread
            (BulkOperationPrivate.options (BulkOperationBase.s this)) options in
        executeLegacyOperation executeCommands this finalOptions w
    end.

(** A sequence of [execute] calls on one instance, each given its options
    and whether it has a callback: the runs, in order. *)
Fixpoint executeMany (this : BulkOperationBase.t)
         (calls : list (option BulkWriteOptions.t * bool)) (w : World)
  : list Run :=
  match calls with
  | [] => []
  | (options, callback) :: rest =>
      let run := execute this options callback w in
      run :: executeMany (final run) rest (world run)
  end.

End Executor.

(** ** Wire compression: [decompress] *)

Module Compression.

Definition Buffer : Type := list Byte.byte.

(** The frozen [Compressor] table. *)
Definition none : Z := 0.
Definition snappy : Z := 1.
Definition zlib : Z := 2.

(** [Math.max(x, ...rest)]. *)
Definition Math_max (x : Z) (rest : list Z) : Z := fold_left Z.max rest x.

(** The decimal text of a number in a template string. *)
Definition toString (z : Z) : string := NilZero.string_of_int (Z.to_int z).

Section Decompress.

(** The optional Snappy binding and zlib: the error stored under
    [kModuleError] when the binding failed to load, and the arguments
    with which each codec completes its callback. *)
Variable CodecError : Type.
Variable Snappy_kModuleError : option CodecError.
Variable Snappy_uncompress : Buffer -> option CodecError * option Buffer.
Variable zlib_inflate : Buffer -> option CodecError * option Buffer.

(** [decompress(compressorID, compressedData, callback)]: [Normal args]
    when the callback is invoked with [args], [Throw] when the call
    throws, which it does before it touches the callback. *)
Definition decompress (compressorID : Z) (compressedData : Buffer)
  : Completion (option CodecError * option Buffer) :=
  if (compressorID <? 0) || (compressorID >? Math_max 2 [])
  then
    Throw (MongoDecompressionError
             ("Server sent message compressed using an unsupported compressor. (Received compressor ID "
                ++ toString compressorID ++ ")")%string)
  else if compressorID =? snappy
  then
    match Snappy_kModuleError with
    | Some moduleError => Normal (Some moduleError, None)
    | None => Normal (Snappy_uncompress compressedData)
    end
  else if compressorID =? zlib
  then Normal (zlib_inflate compressedData)
  else Normal (None, Some compressedData).

End Decompress.

End Compression.

(** ** Read-only views of a bulk write result *)

(** A JavaScript object keyed by operation index: what each key holds. *)
Definition IndexedObject : Type := Z -> option JsValue.

(** The literal [{}]. *)
Definition IndexedObject_empty : IndexedObject := fun _ => None.

(** [obj[k] = v]. *)
Definition IndexedObject_set (obj : IndexedObject) (k : Z) (v : JsValue)
  : IndexedObject :=
  fun k' => if k' =? k then Some v else obj k'.

(** The loop shared by the [upsertedIds] and [insertedIds] getters:
    [for (const doc of docs) obj[doc.index] = doc._id]. *)
Definition collectIds (docs : list IndexedId.t) : IndexedObject :=
  fold_left (fun obj doc =>
               IndexedObject_set obj (IndexedId.index doc) (IndexedId._id doc))
            docs IndexedObject_empty.

(** [get upsertedIds()]. *)
Definition upsertedIds (r : BulkWriteResult.t) : IndexedObject :=
  collectIds (BulkResult.upserted (BulkWriteResult.result r)).

(** [get insertedIds()]. *)
Definition insertedIds (r : BulkWriteResult.t) : IndexedObject :=
  collectIds (BulkResult.insertedIds (BulkWriteResult.result r)).

(** [get upsertedCount()]: the length of the [upserted] list. *)
Definition upsertedCount (r : BulkWriteResult.t) : Z :=
  Z.of_nat (List.length (BulkResult.upserted (BulkWriteResult.result r))).

(** [getWriteErrorCount()]. *)
Definition getWriteErrorCount (r : BulkWriteResult.t) : Z :=
  Z.of_nat (List.length (BulkResult.writeErrors (BulkWriteResult.result r))).

(** [getWriteErrorAt(index)]: guarded from above only. *)
Definition getWriteErrorAt (r : BulkWriteResult.t) (index : Z) : option WriteError.t :=
  if index <? Z.of_nat (List.length (BulkResult.writeErrors (BulkWriteResult.result r)))
  then js_get (BulkResult.writeErrors (BulkWriteResult.result r)) index
  else None.

(** [getUpsertedIdAt(index)]. *)
Definition getUpsertedIdAt (r : BulkWriteResult.t) (index : Z) : option IndexedId.t :=
  js_get (BulkResult.upserted (BulkWriteResult.result r)) index.

(** ** The size policy computed by the constructor *)

Module IsMaster.
(** The two limits read from [topology.lastIsMaster()]. *)
Record t : Type := mk {
  maxBsonObjectSize : option Z;
  maxWriteBatchSize : option Z
}.
End IsMaster.

Module SizePolicy.
Record t : Type := mk {
  maxBsonObjectSize : Z;
  maxBatchSizeBytes : Z;
  maxWriteBatchSize : Z;
  maxKeySize : Z
}.

(** The limits as the constructor of [BulkOperationBase] derives them from
    the last handshake ([undefined] when there is none) and from whether an
    auto-encrypter is configured. *)
Definition ofServer (isMaster : option IsMaster.t) (usingAutoEncryption : bool) : t :=
  let maxBsonObjectSize :=
    match isMaster with
    | Some m =>
        if num_truthy (IsMaster.maxBsonObjectSize m)
        then num_or_zero (IsMaster.maxBsonObjectSize m)
        else 1024 * 1024 * 16
    | None => 1024 * 1024 * 16
    end in
  let maxBatchSizeBytes :=
    if usingAutoEncryption then 1024 * 1024 * 2 else maxBsonObjectSize in
  let maxWriteBatchSize :=
    match isMaster with
    | Some m =>
        if num_truthy (IsMaster.maxWriteBatchSize m)
        then num_or_zero (IsMaster.maxWriteBatchSize m)
        else 1000
    | None => 1000
    end in
  let maxKeySize :=
    Z.of_nat (String.length (Compression.toString (maxWriteBatchSize - 1))) + 2 in
  mk maxBsonObjectSize maxBatchSizeBytes maxWriteBatchSize maxKeySize.
End SizePolicy.

(** [get batches()] of [BulkOperationBase]: the sealed batches followed by
    the batches still being filled. *)
Definition get_batches (this : BulkOperationBase.t) : list Batch.t :=
  let batches := BulkOperationBase.batches this in
  let s := BulkOperationBase.s this in
  if BulkOperationBase.isOrdered this
  then match BulkOperationPrivate.currentBatch s with
       | Some b => batches ++ [b]
       | None => batches
       end
  else
    let batches := match BulkOperationPrivate.currentInsertBatch s with
                   | Some b => batches ++ [b]
                   | None => batches
                   end in
    let batches := match BulkOperationPrivate.currentUpdateBatch s with
                   | Some b => batches ++ [b]
                   | None => batches
                   end in
    match BulkOperationPrivate.currentRemoveBatch s with
    | Some b => batches ++ [b]
    | None => batches
    end.

(** ** Building operations: the find builder, [insert] and [raw] *)

(** ['k' in o] on an object literal. *)
Fixpoint obj_has (k : string) (fields : list (string * JsValue)) : bool :=
  match fields with
  | [] => false
  | (k', _) :: rest => String.eqb k k' || obj_has k rest
  end.

(** [o.k = v] on an object literal: an existing property keeps its place. *)
Fixpoint obj_set (k : string) (v : JsValue) (fields : list (string * JsValue))
  : list (string * JsValue) :=
  match fields with
  | [] => [(k, v)]
  | (k', v') :: rest =>
      if String.eqb k k' then (k, v) :: rest else (k', v') :: obj_set k v rest
  end.

(** ['k' in v]: a [TypeError] unless [v] is an object; an array has no
    property of a non-numeric name other than [length]. *)
Definition js_in (k : string) (v : JsValue) : Completion bool :=
  match v with
  | JObj fields => Normal (obj_has k fields)
  | JArr _ => Normal (String.eqb k "length")
  | _ => Throw TypeError
  end.

(** [FindOperators.collation(collation)]. *)
Definition collation (c : JsValue) (this : BulkOperationBase.t) : BulkOperationBase.t :=
  let op := match BulkOperationBase.currentOp this with
            | Some op => op
            | None => CurrentOp.empty
            end in
  BulkOperationBase.set_currentOp
    (Some (CurrentOp.mk (CurrentOp.selector op) (CurrentOp.upsert op) (Some c)
                        (CurrentOp.arrayFilters op))) this.

(** [FindOperators.arrayFilters(arrayFilters)]. *)
Definition arrayFilters (f : list JsValue) (this : BulkOperationBase.t)
  : BulkOperationBase.t :=
  let op := match BulkOperationBase.currentOp this with
            | Some op => op
            | None => CurrentOp.empty
            end in
  BulkOperationBase.set_currentOp
    (Some (CurrentOp.mk (CurrentOp.selector op) (CurrentOp.upsert op)
                        (CurrentOp.collation op) (Some f))) this.

(** The pending operation as the object it is. *)
Definition CurrentOp_toObject (op : CurrentOp.t) : JsValue :=
  JObj ((match CurrentOp.selector op with
         | Some v => [("selector"%string, v)]
         | None => []
         end)
          ++ (match CurrentOp.upsert op with
              | Some b => [("upsert"%string, JBool b)]
              | None => []
              end)
          ++ (match CurrentOp.collation op with
              | Some v => [("collation"%string, v)]
              | None => []
              end)
          ++ (match CurrentOp.arrayFilters op with
              | Some l => [("arrayFilters"%string, JArr l)]
              | None => []
              end)).

(** [currentOp.selector]. *)
Definition CurrentOp_selector (op : CurrentOp.t) : JsValue :=
  match CurrentOp.selector op with
  | Some v => v
  | None => JUndefined
  end.

Section Builder.

(** The helpers of other modules: [hasAtomicOperators] of the utilities,
    [makeUpdateStatement(filter, update, options)] and
    [makeDeleteStatement(filter, options)], whose options are an object
    spread with [multi] or [limit] added, the abstract method
    [addToOperationsList(batchType, document)], the id [new ObjectId()]
    makes, and the [forceServerObjectId] option of the database when it is a
    boolean. *)
Variable hasAtomicOperators : JsValue -> bool.
Variable makeUpdateStatement : JsValue -> JsValue -> JsValue -> bool -> Completion JsValue.
Variable makeDeleteStatement : JsValue -> JsValue -> Z -> Completion JsValue.
Variable addToOperationsList :
  BatchType -> JsValue -> BulkOperationBase.t -> Completion unit * BulkOperationBase.t.
Variable newObjectId : JsValue.
Variable dbForceServerObjectId : option bool.

(** [this.addToOperationsList(kind, statement)] once [statement] has been
    evaluated. *)
Definition addStatement (kind : BatchType) (statement : Completion JsValue)
           (this : BulkOperationBase.t) : Completion unit * BulkOperationBase.t :=
  match statement with
  | Normal st => addToOperationsList kind st this
  | Throw e => (Throw e, this)
  end.

(** [FindOperators.update(updateDocument)]. *)
Definition update (updateDocument : JsValue) (this : BulkOperationBase.t)
  : Completion unit * BulkOperationBase.t :=
  let '(currentOp, this) := buildCurrentOp this in
  addStatement UPDATE
    (makeUpdateStatement (CurrentOp_selector currentOp) updateDocument
                         (CurrentOp_toObject currentOp) true)
    this.

(** [FindOperators.updateOne(updateDocument)]. *)
Definition updateOne (updateDocument : JsValue) (this : BulkOperationBase.t)
  : Completion unit * BulkOperationBase.t :=
  if negb (hasAtomicOperators updateDocument)
  then (Throw (MongoInvalidArgumentError "Update document requires atomic operators"),
        this)
  else
    let '(currentOp, this) := buildCurrentOp this in
    addStatement UPDATE
      (makeUpdateStatement (CurrentOp_selector currentOp) updateDocument
                           (CurrentOp_toObject currentOp) false)
      this.

(** [FindOperators.replaceOne(replacement)]. *)
Definition replaceOne (replacement : JsValue) (this : BulkOperationBase.t)
  : Completion unit * BulkOperationBase.t :=
  if hasAtomicOperators replacement
  then (Throw (MongoInvalidArgumentError
                 "Replacement document must not use atomic operators"),
        this)
  else
    let '(currentOp, this) := buildCurrentOp this in
    addStatement UPDATE
      (makeUpdateStatement (CurrentOp_selector currentOp) replacement
                           (CurrentOp_toObject currentOp) false)
      this.

(** [FindOperators.deleteOne()]. *)
Definition deleteOne (this : BulkOperationBase.t)
  : Completion unit * BulkOperationBase.t :=
  let '(currentOp, this) := buildCurrentOp this in
  addStatement DELETE
    (makeDeleteStatement (CurrentOp_selector currentOp)
                         (CurrentOp_toObject currentOp) 1)
    this.

(** [FindOperators.delete()]. *)
Definition delete (this : BulkOperationBase.t)
  : Completion unit * BulkOperationBase.t :=
  let '(currentOp, this) := buildCurrentOp this in
  addStatement DELETE
    (makeDeleteStatement (CurrentOp_selector currentOp)
                         (CurrentOp_toObject currentOp) 0)
    this.

(** [shouldForceServerObjectId(bulkOperation)]. *)
Definition shouldForceServerObjectId (bulkOperation : BulkOperationBase.t) : bool :=
  match BulkWriteOptions.forceServerObjectId
          (BulkOperationPrivate.options (BulkOperationBase.s bulkOperation)) with
  | Some b => b
  | None =>
      match dbForceServerObjectId with
      | Some b => b
      | None => false
      end
  end.

(** [BulkOperationBase.insert(document)]; the document is an object, as
    its type says. *)
Definition insert (document : list (string * JsValue)) (this : BulkOperationBase.t)
  : Completion unit * BulkOperationBase.t :=
  let document :=
    if js_nullish (js_field "_id" document) && negb (shouldForceServerObjectId this)
    then obj_set "_id" newObjectId document
    else document in
  addToOperationsList INSERT (JObj document) this.

(** The update branches of [raw] share this shape: reject the legacy shape,
    build the statement, check its [u] against [mustBeAtomic]. *)
Definition rawUpdate (model : JsValue) (update : JsValue) (multi mustBeAtomic : bool)
           (this : BulkOperationBase.t) : Completion unit * BulkOperationBase.t :=
  match js_in "q" model with
  | Throw e => (Throw e, this)
  | Normal true =>
      (Throw (MongoInvalidArgumentError "Raw operations are not allowed"), this)
  | Normal false =>
      match makeUpdateStatement (js_prop model "filter") update model multi with
      | Throw e => (Throw e, this)
      | Normal updateStatement =>
          if mustBeAtomic
          then
            if negb (hasAtomicOperators (js_prop updateStatement "u"))
            then (Throw (MongoInvalidArgumentError
                           "Update document requires atomic operators"), this)
            else addToOperationsList UPDATE updateStatement this
          else
            if hasAtomicOperators (js_prop updateStatement "u")
            then (Throw (MongoInvalidArgumentError
                           "Replacement document must not use atomic operators"),
                  this)
            else addToOperationsList UPDATE updateStatement this
      end
  end.

(** The delete branches of [raw]. *)
Definition rawDelete (model : JsValue) (limit : Z) (this : BulkOperationBase.t)
  : Completion unit * BulkOperationBase.t :=
  match js_in "q" model with
  | Throw e => (Throw e, this)
  | Normal true =>
      (Throw (MongoInvalidArgumentError "Raw operations are not allowed"), this)
  | Normal false =>
      addStatement DELETE (makeDeleteStatement (js_prop model "filter") model limit)
                   this
  end.

(** [v.k] where the read can fail: a [TypeError] on [null] and
    [undefined]. *)
Definition js_member (v : JsValue) (k : string) : Completion JsValue :=
  match v with
  | JUndefined | JNull => Throw TypeError
  | _ => Normal (js_prop v k)
  end.

(** [if (forceServerObjectId !== true && v._id == null) v._id = new ObjectId()],
    giving [v] as it is afterwards.  The assignment throws on a primitive
    (strict mode).  An array would receive the property: arrays with named
    properties are outside [JsValue], as they are outside the types of the
    models, and the model answers them with a [TypeError] too. *)
Definition assignId (forceServerObjectId : bool) (v : JsValue) : Completion JsValue :=
  if forceServerObjectId then Normal v
  else
    match v with
    | JObj fields =>
        if js_nullish (js_field "_id" fields)
        then Normal (JObj (obj_set "_id" newObjectId fields))
        else Normal v
    | _ => Throw TypeError
    end.

(** The [insertOne] branch of [raw]. *)
Definition rawInsert (model : JsValue) (this : BulkOperationBase.t)
  : Completion unit * BulkOperationBase.t :=
  let forceServerObjectId := shouldForceServerObjectId this in
  if js_truthy model && js_nullish (js_prop model "document")
  then addStatement INSERT (assignId forceServerObjectId model) this
  else
    addStatement INSERT
      (document <- js_member model "document" ;;
       assignId forceServerObjectId document)
      this.

(** [BulkOperationBase.raw(op)]; [op] is an object. *)
Definition raw (op : list (string * JsValue)) (this : BulkOperationBase.t)
  : Completion unit * BulkOperationBase.t :=
  if obj_has "insertOne" op then rawInsert (js_field "insertOne" op) this
  else if obj_has "replaceOne" op
  then rawUpdate (js_field "replaceOne" op)
                 (js_prop (js_field "replaceOne" op) "replacement") false false this
  else if obj_has "updateOne" op
  then rawUpdate (js_field "updateOne" op)
                 (js_prop (js_field "updateOne" op) "update") false true this
  else if obj_has "updateMany" op
  then rawUpdate (js_field "updateMany" op)
                 (js_prop (js_field "updateMany" op) "update") true true this
  else if obj_has "deleteOne" op then rawDelete (js_field "deleteOne" op) 1 this
  else if obj_has "deleteMany" op then rawDelete (js_field "deleteMany" op) 0 this
  else (Throw (MongoInvalidArgumentError
                 "bulkWrite only supports insertOne, updateOne, updateMany, deleteOne, deleteMany"),
        this).

End Builder.

(** ** Wire compression: [compress] *)

(** The [Compressor] table as callers index it by name,
    [Compressor[name]]. *)
Definition Compressor : list (string * Z) :=
  [("none"%string, Compression.none);
   ("snappy"%string, Compression.snappy);
   ("zlib"%string, Compression.zlib)].

Fixpoint table_lookup (name : string) (table : list (string * Z)) : option Z :=
  match table with
  | [] => None
  | (k, v) :: rest => if String.eqb name k then Some v else table_lookup name rest
  end.

(** The text of an optional string in a template string. *)
Definition template_text (s : option string) : string :=
  match s with
  | Some x => x
  | None => "undefined"%string
  end.

Section Compress.

(** The optional Snappy binding and zlib as [compress] uses them;
    [zlib_deflate] receives the [level] of [zlibOptions], [None] when the
    options object is left empty. *)
Variable CodecError : Type.
Variable Snappy_kModuleError : option CodecError.
Variable Snappy_compress :
  Compression.Buffer -> option CodecError * option Compression.Buffer.
Variable zlib_deflate :
  option Z -> Compression.Buffer -> option CodecError * option Compression.Buffer.

(** [compress(self, dataToBeCompressed, callback)], with the two options
    it reads from [self.options]: [Normal args] when the callback is
    invoked with [args], [Throw] when the call throws. *)
Definition compress (agreedCompressor : option string)
           (zlibCompressionLevel : option Z)
           (dataToBeCompressed : Compression.Buffer)
  : Completion (option CodecError * option Compression.Buffer) :=
  let unknown :=
    Throw (MongoInvalidArgumentError
             ("Unknown compressor " ++ template_text agreedCompressor
                ++ " failed to compress")%string) in
  match agreedCompressor with
  | Some name =>
      if String.eqb name "snappy"
      then
        match Snappy_kModuleError with
        | Some moduleError => Normal (Some moduleError, None)
        | None => Normal (Snappy_compress dataToBeCompressed)
        end
      else if String.eqb name "zlib"
      then
        let level :=
          if num_truthy zlibCompressionLevel then zlibCompressionLevel else None in
        Normal (zlib_deflate level dataToBeCompressed)
      else unknown
  | None => unknown
  end.

End Compress.

(** ** Credentials: [src/cmap/auth/mongo_credentials.ts] *)

(** A regular expression made of literal characters with the [i] flag,
    [s.match(/pattern/i)]: whether [pattern] occurs in [s], letters of
    [A-Z] and [a-z] compared without case. *)
Definition toLower (c : Ascii.ascii) : Ascii.ascii :=
  let n := Ascii.nat_of_ascii c in
  if ((65 <=? n) && (n <=? 90))%nat then Ascii.ascii_of_nat (n + 32) else c.

Fixpoint startsWith_i (pattern s : string) : bool :=
  match pattern, s with
  | EmptyString, _ => true
  | String p pattern', String c s' =>
      Ascii.eqb (toLower p) (toLower c) && startsWith_i pattern' s'
  | String _ _, EmptyString => false
  end.

Fixpoint match_i (pattern s : string) : bool :=
  startsWith_i pattern s ||
  match s with
  | EmptyString => false
  | String _ s' => match_i pattern s'
  end.

(** [a === b] on two optional strings. *)
Definition str_same (a b : option string) : bool :=
  match a, b with
  | Some x, Some y => String.eqb x y
  | None, None => true
  | _, _ => false
  end.

(** [a ?? b] on an optional value. *)
Definition nullish_or {A : Type} (a : option A) (b : A) : A :=
  match a with
  | Some x => x
  | None => b
  end.

Module MongoCredentialsOptions.
Record t : Type := mk {
  username : option string;
  password : option string;
  source : option string;
  db : option string;
  mechanism : option string;
  mechanismProperties : option (list (string * JsValue))
}.
(** The options object [{}]. *)
Definition empty : t := mk None None None None None None.
End MongoCredentialsOptions.

Module MongoCredentials.
Record t : Type := mk {
  username : option string;
  password : option string;
  source : option string;
  mechanism : string;
  mechanismProperties : list (string * JsValue)
}.
End MongoCredentials.

(** The part of [process.env] the constructor reads. *)
Module ProcessEnv.
Record t : Type := mk {
  AWS_ACCESS_KEY_ID : option string;
  AWS_SECRET_ACCESS_KEY : option string;
  AWS_SESSION_TOKEN : option string
}.
End ProcessEnv.

(** The part of an [ismaster] response read by [getDefaultAuthMechanism]:
    [saslSupportedMechs] is [Some] when it is an array. *)
Module IsMasterAuth.
Record t : Type := mk {
  saslSupportedMechs : option (list JsValue);
  maxWireVersion : option Z
}.
End IsMasterAuth.

Inductive AuthError : Type :=
| MongoMissingCredentialsError (message : string)
| MongoDriverError (message : string).

Section Credentials.

(** The names of [AuthMechanism], defined in [defaultAuthProviders]. *)
Variable MONGODB_AWS : string.
Variable MONGODB_CR : string.
Variable MONGODB_DEFAULT : string.
Variable MONGODB_GSSAPI : string.
Variable MONGODB_PLAIN : string.
Variable MONGODB_SCRAM_SHA1 : string.
Variable MONGODB_SCRAM_SHA256 : string.
Variable MONGODB_X509 : string.

Variable process_env : ProcessEnv.t.

(** [getDefaultAuthMechanism(ismaster)]. *)
Definition getDefaultAuthMechanism (ismaster : option IsMasterAuth.t) : string :=
  match ismaster with
  | Some m =>
      match IsMasterAuth.saslSupportedMechs m with
      | Some mechs =>
          if existsb (fun v => match v with
                               | JStr s => String.eqb s MONGODB_SCRAM_SHA256
                               | _ => false
                               end) mechs
          then MONGODB_SCRAM_SHA256
          else MONGODB_SCRAM_SHA1
      | None =>
          match IsMasterAuth.maxWireVersion m with
          | Some v => if 3 <=? v then MONGODB_SCRAM_SHA1 else MONGODB_CR
          | None => MONGODB_CR
          end
      end
  | None => MONGODB_CR
  end.

(** [new MongoCredentials(options)]. *)
Definition new_MongoCredentials (options : MongoCredentialsOptions.t)
  : MongoCredentials.t :=
  let username := MongoCredentialsOptions.username options in
  let password := MongoCredentialsOptions.password options in
  let source := MongoCredentialsOptions.source options in
  let source :=
    if negb (str_truthy source) && str_truthy (MongoCredentialsOptions.db options)
    then MongoCredentialsOptions.db options
    else source in
  let mechanism :=
    match MongoCredentialsOptions.mechanism options with
    | Some m => if negb (String.eqb m "") then m else MONGODB_DEFAULT
    | None => MONGODB_DEFAULT
    end in
  let mechanismProperties :=
    nullish_or (MongoCredentialsOptions.mechanismProperties options) [] in
  if match_i "MONGODB-AWS" mechanism
  then
    let username :=
      if negb (str_truthy username)
         && str_truthy (ProcessEnv.AWS_ACCESS_KEY_ID process_env)
      then ProcessEnv.AWS_ACCESS_KEY_ID process_env
      else username in
    let password :=
      if negb (str_truthy password)
         && str_truthy (ProcessEnv.AWS_SECRET_ACCESS_KEY process_env)
      then ProcessEnv.AWS_SECRET_ACCESS_KEY process_env
      else password in
    let mechanismProperties :=
      match ProcessEnv.AWS_SESSION_TOKEN process_env with
      | Some token =>
          if negb (js_truthy (js_field "AWS_SESSION_TOKEN" mechanismProperties))
             && negb (String.eqb token "")
          then obj_set "AWS_SESSION_TOKEN" (JStr token) mechanismProperties
          else mechanismProperties
      | None => mechanismProperties
      end in
    MongoCredentials.mk username password source mechanism mechanismProperties
  else
    MongoCredentials.mk username password source mechanism mechanismProperties.

(** [this.equals(other)]. *)
Definition equals (this other : MongoCredentials.t) : bool :=
  String.eqb (MongoCredentials.mechanism this) (MongoCredentials.mechanism other)
  && str_same (MongoCredentials.username this) (MongoCredentials.username other)
  && str_same (MongoCredentials.password this) (MongoCredentials.password other)
  && str_same (MongoCredentials.source this) (MongoCredentials.source other).

(** [this.resolveAuthMechanism(ismaster)]. *)
Definition resolveAuthMechanism (this : MongoCredentials.t)
           (ismaster : option IsMasterAuth.t) : MongoCredentials.t :=
  if match_i "DEFAULT" (MongoCredentials.mechanism this)
  then
    new_MongoCredentials
      (MongoCredentialsOptions.mk
         (MongoCredentials.username this)
         (MongoCredentials.password this)
         (MongoCredentials.source this)
         None
         (Some (getDefaultAuthMechanism ismaster))
         (Some (MongoCredentials.mechanismProperties this)))
  else this.

(** [this.validate()]: the error thrown, [None] when the call returns.
    The constructor froze the object, so the [Reflect.set] of the last
    branch leaves [password] as it is and the credentials are the same
    after the call. *)
Definition validate (this : MongoCredentials.t) : option AuthError :=
  let mechanism := MongoCredentials.mechanism this in
  if (String.eqb mechanism MONGODB_GSSAPI
      || String.eqb mechanism MONGODB_CR
      || String.eqb mechanism MONGODB_PLAIN
      || String.eqb mechanism MONGODB_SCRAM_SHA1
      || String.eqb mechanism MONGODB_SCRAM_SHA256)
     && negb (str_truthy (MongoCredentials.username this))
  then Some (MongoMissingCredentialsError
               ("Username required for mechanism '" ++ mechanism ++ "'")%string)
  else
    let invalidSource :=
      if String.eqb mechanism MONGODB_GSSAPI
         || String.eqb mechanism MONGODB_AWS
         || String.eqb mechanism MONGODB_X509
      then
        match MongoCredentials.source this with
        | Some source =>
            if negb (String.eqb source "$external") then Some source else None
        | None => None
        end
      else None in
    match invalidSource with
    | Some source =>
        Some (MongoDriverError
                ("Invalid source '" ++ source ++ "' for mechanism '"
                   ++ mechanism ++ "' specified.")%string)
    | None =>
        if String.eqb mechanism MONGODB_PLAIN
           && match MongoCredentials.source this with
              | Some _ => false
              | None => true
              end
        then Some (MongoDriverError
                     "PLAIN Authentication Mechanism needs an auth source")
        else
          match MongoCredentials.password this with
          | Some password =>
              if String.eqb mechanism MONGODB_X509
              then
                if String.eqb password ""
                then None
                else Some (MongoDriverError
                             "Password not allowed for mechanism MONGODB-X509")
              else None
          | None => None
          end
    end.

(** [MongoCredentials.merge(creds, options)]. *)
Definition merge (creds : option MongoCredentials.t)
           (options : MongoCredentialsOptions.t) : MongoCredentials.t :=
  let of_creds {A : Type} (f : MongoCredentials.t -> option A) : option A :=
    match creds with
    | Some c => f c
    | None => None
    end in
  new_MongoCredentials
    (MongoCredentialsOptions.mk
       (Some (nullish_or (MongoCredentialsOptions.username options)
                (nullish_or (of_creds MongoCredentials.username) ""%string)))
       (Some (nullish_or (MongoCredentialsOptions.password options)
                (nullish_or (of_creds MongoCredentials.password) ""%string)))
       (Some (nullish_or (MongoCredentialsOptions.source options)
                (nullish_or (MongoCredentialsOptions.db options)
                   (nullish_or (of_creds MongoCredentials.source) "admin"%string))))
       None
       (Some (nullish_or (MongoCredentialsOptions.mechanism options)
                (nullish_or (of_creds (fun c => Some (MongoCredentials.mechanism c)))
                   MONGODB_DEFAULT)))
       (Some (nullish_or (MongoCredentialsOptions.mechanismProperties options)
                (nullish_or
                   (of_creds (fun c => Some (MongoCredentials.mechanismProperties c)))
                   [])))).

End Credentials.

(** ** Derived notions used by the statements *)

(** When the operation-time phase throws: the stored marker is a wire
    [Timestamp] and the response brings a decomposed pair. *)
Definition markersClash (stored : option OpTime) (result : Document.t) : bool :=
  match stored, opt_or (Document.lastOp result) (Document.opTime result) with
  | Some (OTTimestamp _), Some (OTPair _ _) => true
  | _, _ => false
  end.

(** The marker a response brings: [result.lastOp || result.opTime]. *)
Definition responseMarker (result : Document.t) : option OpTime :=
  opt_or (Document.lastOp result) (Document.opTime result).

(** The server document of a write-concern-specific failure and the
    [writeConcernError] it carries.  The document is the one that is
    merged: for a [MongoWriteConcernError] its [result] (which itself has a
    [writeConcernError], read for the message of the aggregate error), or
    the document nested in it; otherwise the reply, or the error object
    when it is not a driver error.  It is not a top-level failure. *)
Definition writeConcernFailure (reply : DispatchOutcome)
  : option (Document.t * WriteConcernErrorData.t) :=
  let candidate :=
    match reply with
    | Replied (Some e) result =>
        if AnyError.isMongoWriteConcernError e
        then match Document.result (AnyError.doc e) with
             | Some r =>
                 match Document.writeConcernError r with
                 | Some _ => effectiveResult None (Some r)
                 | None => None
                 end
             | None => None
             end
        else if AnyError.hasMessage e then None
        else effectiveResult (Some e) result
    | Replied None result => effectiveResult None result
    | Raised _ => None
    end in
  match candidate with
  | Some doc =>
      if num_is (Document.ok doc) 0 then None
      else match Document.writeConcernError doc with
           | Some w => Some (doc, w)
           | None => None
           end
  | None => None
  end.

(** The number a component of a decomposed marker stands for: a [Long]
    for the integer it denotes, a number for itself, brought into the
    range of a signed [Long]. *)
Definition componentValue (c : Component) : Z :=
  match c with
  | CNum z => Z.max (- 2 ^ 63) (Z.min (2 ^ 63 - 1) z)
  | CLong l => Long.toZ l
  end.

(** (seconds, ordinal) of a decomposed marker [{ts, t}]. *)
Definition pairKey (m : Component * Component) : Z * Z :=
  (componentValue (fst m), componentValue (snd m)).

(** (seconds, ordinal) of a wire [Timestamp]: its high and its low 32
    bits, read without sign. *)
Definition timestampKey (value : Z) : Z * Z :=
  (Long.wrap value / 2 ^ 32, Long.wrap value mod 2 ^ 32).

(** The lexicographic order on (seconds, ordinal). *)
Definition lexLtb (a b : Z * Z) : bool :=
  (fst a <? fst b) || ((fst a =? fst b) && (snd a <? snd b)).

Definition lexLe (a b : Z * Z) : Prop :=
  fst a < fst b \/ (fst a = fst b /\ snd a <= snd b).

(** "Keep the greater one" by a key. *)
Definition keepMax {A : Type} (key : A -> Z * Z) (stored x : A) : A :=
  if lexLtb (key stored) (key x) then x else stored.

(** A comparison [this.greaterThan(other)] in which the 64-bit
    subtraction of the library wraps around: [this] is a number or a
    signed [Long] that is not negative, and [other] is an unsigned [Long]
    of [2^63] or more. *)
Definition wrapsAround (this other : Component) : bool :=
  match other with
  | CLong o =>
      Long.unsigned o && (2 ^ 63 <=? Long.toZ o)
      && match this with
         | CNum z => 0 <=? z
         | CLong l => negb (Long.unsigned l) && (0 <=? Long.toZ l)
         end
  | CNum _ => false
  end.

(** No marker of a list, in the order in which the markers arrive, is
    compared with an earlier one in a way that wraps around. *)
Fixpoint comparedExactly (markers : list (Component * Component)) : bool :=
  match markers with
  | [] => true
  | earlier :: rest =>
      forallb (fun later =>
                 negb (wrapsAround (fst later) (fst earlier))
                 && negb (wrapsAround (snd later) (snd earlier))) rest
      && comparedExactly rest
  end.

(** The comparison chain of the source on two decomposed markers: whether
    the marker of the response takes the place of the stored one. *)
Definition replacesPair (stored response : Component * Component) : bool :=
  (0 <? Long.compare (normalize (fst response)) (normalize (fst stored)))
  || (Long.eq (normalize (fst response)) (normalize (fst stored))
      && (0 <? Long.compare (normalize (snd response)) (normalize (snd stored)))).

(** What the operation-time phase makes of the stored marker, given the
    marker a response brings. *)
Definition nextMarker (stored marker : option OpTime) : Completion (option OpTime) :=
  match marker with
  | None => Normal stored
  | Some (OTTimestamp v) =>
      match stored with
      | None => Normal marker
      | Some last =>
          Normal (if 0 <? Long.compare (Timestamp_asLong v) (Long_fromValue last)
                  then marker else stored)
      end
  | Some (OTPair ts t) =>
      match stored with
      | None => Normal marker
      | Some (OTTimestamp _) => Throw TypeError
      | Some (OTPair ts0 t0) =>
          Normal (if replacesPair (ts0, t0) (ts, t) then marker else stored)
      end
  end.

Fixpoint foldMarkers (stored : option OpTime) (markers : list (option OpTime))
  : Completion (option OpTime) :=
  match markers with
  | [] => Normal stored
  | marker :: rest =>
      match nextMarker stored marker with
      | Normal stored => foldMarkers stored rest
      | Throw e => Throw e
      end
  end.

(** The marker with which a reply takes part in a merge: none when the
    reply is a top-level failure or brings no marker. *)
Definition mergedMarker (reply : Document.t) : option OpTime :=
  match effectiveResult None (Some reply) with
  | Some doc => if num_is (Document.ok doc) 0 then None else responseMarker doc
  | None => None
  end.

Definition markersOf (replies : list (Batch.t * Document.t)) : list (option OpTime) :=
  map (fun r => mergedMarker (snd r)) replies.

(** The decomposed markers, respectively the wire [Timestamp]s, among the
    markers of a run, in the order of arrival. *)
Fixpoint pairsOf (markers : list (option OpTime)) : list (Component * Component) :=
  match markers with
  | [] => []
  | Some (OTPair ts t) :: rest => (ts, t) :: pairsOf rest
  | _ :: rest => pairsOf rest
  end.

Fixpoint timestampsOf (markers : list (option OpTime)) : list Z :=
  match markers with
  | [] => []
  | Some (OTTimestamp v) :: rest => v :: timestampsOf rest
  | _ :: rest => timestampsOf rest
  end.

Definition pairOpTime (m : Component * Component) : OpTime :=
  OTPair (fst m) (snd m).

(** The replies of a sequence of batches merged one after the other, as
    the executor does. *)
Fixpoint mergeAll (bulkResult : BulkResult.t) (replies : list (Batch.t * Document.t))
  : Completion BulkResult.t :=
  match replies with
  | [] => Normal bulkResult
  | (batch, reply) :: rest =>
      match mergeBatchResults batch bulkResult None (Some reply) with
      | Normal (_, merged) => mergeAll merged rest
      | Throw e => Throw e
      end
  end.

(** The markers a cumulative result has seen: the stored one, if any, and
    those of the replies. *)
Definition seenMarkers {A : Type} (stored : option A) (markers : list A) : list A :=
  match stored with
  | Some m => m :: markers
  | None => markers
  end.

(** A sequence of merge calls on one cumulative result, each with its
    batch, error and response. *)
Fixpoint mergeCalls (bulkResult : BulkResult.t)
         (calls : list (Batch.t * option AnyError.t * option Document.t))
  : Completion BulkResult.t :=
  match calls with
  | [] => Normal bulkResult
  | (batch, err, result) :: rest =>
      match mergeBatchResults batch bulkResult err result with
      | Normal (_, merged) => mergeCalls merged rest
      | Throw e => Throw e
      end
  end.

(** The affected-count a reply reports, 0 when it reports none. *)
Definition affected (reply : Document.t) : Z :=
  match Document.n reply with
  | Some n => n
  | None => 0
  end.

(** The sum of the affected-counts of the replies to batches of one kind. *)
Definition affectedOfKind (kind : BatchType) (replies : list (Batch.t * Document.t)) : Z :=
  fold_right (fun r acc =>
                if BatchType_code (Batch.batchType (fst r)) =? BatchType_code kind
                then affected (snd r) + acc else acc)
             0 replies.

(** A reply that is merged field by field as it stands: not wrapped, not a
    top-level failure, and without a wire [Timestamp] marker. *)
Definition plainReply (reply : Document.t) : bool :=
  match Document.result reply with
  | Some _ => false
  | None =>
      negb (num_is (Document.ok reply) 0)
      && match responseMarker reply with
         | Some (OTTimestamp _) => false
         | _ => true
         end
  end.

(** The entries one merged response adds to [upserted]. *)
Definition pushedUpserted (batch : Batch.t) (result : Document.t) : list IndexedId.t :=
  match Document.upserted result with
  | UpsertedArray entries => map (remapUpserted batch) entries
  | UpsertedValue v =>
      if js_truthy v then [IndexedId.mk (Batch.originalZeroIndex batch) v] else []
  end.

(** [a] is an initial segment of [b]. *)
Definition isPrefix {A : Type} (a b : list A) : Prop := exists rest, b = a ++ rest.

(** A mechanism name the constructor takes as it is: not empty, and
    matching neither [/DEFAULT/i] nor [/MONGODB-AWS/i]. *)
Definition settledName (mechanism : string) : bool :=
  negb (String.eqb mechanism "")
  && negb (match_i "DEFAULT" mechanism)
  && negb (match_i "MONGODB-AWS" mechanism).

(** The options that hand the fields of existing credentials back to the
    constructor. *)
Definition optionsOf (c : MongoCredentials.t) : MongoCredentialsOptions.t :=
  MongoCredentialsOptions.mk
    (MongoCredentials.username c) (MongoCredentials.password c)
    (MongoCredentials.source c) None
    (Some (MongoCredentials.mechanism c))
    (Some (MongoCredentials.mechanismProperties c)).

(** A source that [validate] lets pass for an external mechanism. *)
Definition externalOrAbsent (source : option string) : bool :=
  match source with
  | Some s => String.eqb s "$external"
  | None => true
  end.

(** ** Sample data *)

Module Sample.

Definition docA : JsValue := JObj [("a"%string, JNum 1)].
Definition docB : JsValue := JObj [("a"%string, JNum 2)].
Definition docC : JsValue := JObj [("a"%string, JNum 3)].
Definition docD : JsValue := JObj [("a"%string, JNum 4)].

Definition updateC : JsValue :=
  JObj [("q"%string, JObj [("a"%string, JNum 3)]);
        ("u"%string, JObj [("$set"%string, JObj [("b"%string, JNum 1)])])].

(** The second insert batch of a bulk whose first batch held two
    documents. *)
Definition secondInsertBatch : Batch.t :=
  Batch.mk 2 2 [2; 3] INSERT [docC; docD] 2 60.

(** An update batch that follows two other operations. *)
Definition updateBatch : Batch.t :=
  Batch.mk 2 1 [2] UPDATE [updateC] 1 80.

(** An unordered insert batch: the caller interleaved other kinds, so its
    documents sit at the original positions 1, 3 and 4. *)
Definition scatteredInsertBatch : Batch.t :=
  Batch.mk 1 3 [1; 3; 4] INSERT [docB; docC; docD] 3 90.

(** The cumulative result after a first batch inserted two documents. *)
Definition afterFirstInsert : BulkResult.t :=
  BulkResult.set_nInserted 2 BulkResult.initial.

(** The cumulative result after update batches that modified three
    documents. *)
Definition afterUpdates : BulkResult.t :=
  BulkResult.set_nModified 3 (BulkResult.set_nMatched 3 BulkResult.initial).

(** The error thrown by a dispatch, as the [catch] block of
    [executeCommands] passes it on: [ok] forced to 0. *)
Definition thrownError : AnyError.t :=
  AnyError.set_ok (Some 0)
    (AnyError.mk
       (Document.mk None (Some 10107) (Some "not master"%string) None None
                    (UpsertedValue JUndefined) None None None None None)
       true false).

(** [{ ok: 1, n: 1 }]: an update reply of a server that reports no
    [nModified]. *)
Definition replyWithoutNModified : Document.t :=
  Document.mk (Some 1) None None (Some 1) None (UpsertedValue JUndefined)
              None None None None None.

(** [{ ok: 1, n: 2 }]. *)
Definition replyTwo : Document.t :=
  Document.mk (Some 1) None None (Some 2) None (UpsertedValue JUndefined)
              None None None None None.

(** The cumulative result after a top-level failure of the first batch. *)
Definition afterTopLevelFailure : BulkResult.t :=
  BulkResult.set_writeErrors
    [WriteError.mk (Some 0) (Some 10107) (Some "not master"%string) (Some docA)]
    (BulkResult.set_ok 0 BulkResult.initial).

(** [{ ok: 1, n: 2, writeErrors: [{ index: 1, code: 11000, ... }] }]. *)
Definition replyWithWriteError : Document.t :=
  Document.mk (Some 1) None None (Some 2) None (UpsertedValue JUndefined)
              (Some [ServerWriteError.mk 1 (Some 11000)
                                         (Some "duplicate key"%string)])
              None None None None.

(** A transport that plays back a script of replies. *)
Definition scripted (w : list DispatchOutcome) (_ : BatchType) (_ : string)
           (_ : list JsValue) (_ : BulkWriteOptions.t)
  : DispatchOutcome * list DispatchOutcome :=
  match w with
  | r :: rest => (r, rest)
  | [] => (Replied None None, [])
  end.

Definition keepOptions (_ : BulkOperationBase.t) (o : BulkWriteOptions.t)
  : BulkWriteOptions.t := o.

(** A fresh ordered bulk operation. *)
Definition orderedBulk : BulkOperationBase.t :=
  BulkOperationBase.new "db.coll" BulkWriteOptions.empty None true.

(** An ordered bulk operation holding one insert batch of two documents. *)
Definition firstInsertBatch : Batch.t :=
  Batch.mk 0 2 [0; 1] INSERT [docA; docB] 2 60.

Definition loadedBulk : BulkOperationBase.t :=
  BulkOperationBase.set_batches [firstInsertBatch] orderedBulk.

(** The first [execute] of [loadedBulk], answered by [{ ok: 1, n: 2 }]. *)
Definition firstRun : Run (list DispatchOutcome) :=
  execute scripted keepOptions BulkWriteOptions.writeConcern 64
          loadedBulk None true [Replied None (Some replyTwo)].

(** A write-concern failure as the transport reports it: a
    [MongoWriteConcernError] whose [result] is the server reply
    [{ ok: 1, n: 2, writeConcernError: { code: 64, errmsg: ... } }]. *)
Definition wceData : WriteConcernErrorData.t :=
  WriteConcernErrorData.mk 64 "waiting for replication timed out" None None.

Definition writeConcernReply : Document.t :=
  Document.mk (Some 1) None None (Some 2) None (UpsertedValue JUndefined)
              None (Some wceData) None None None.

Definition writeConcernFailed : AnyError.t :=
  AnyError.mk
    (Document.mk None (Some 64) (Some "waiting for replication timed out"%string)
                 None None (UpsertedValue JUndefined) None None None None
                 (Some writeConcernReply))
    true true.

Definition thirdInsertBatch : Batch.t :=
  Batch.mk 4 2 [4; 5] INSERT [docA; docB] 2 60.

(** An unordered bulk operation with three insert batches queued. *)
Definition threeBatchBulk : BulkOperationBase.t :=
  BulkOperationBase.set_batches
    [firstInsertBatch; secondInsertBatch; thirdInsertBatch]
    (BulkOperationBase.new "db.coll" BulkWriteOptions.empty None false).

(** The run in which the first batch succeeds and the second one fails
    on its write concern. *)
Definition failingRun : Run (list DispatchOutcome) :=
  executeCommands scripted keepOptions 64 threeBatchBulk BulkWriteOptions.empty
                  [Replied None (Some replyTwo);
                   Replied (Some writeConcernFailed) None;
                   Replied None (Some replyTwo)].

Definition firstDispatch : Dispatch :=
  mkDispatch firstInsertBatch BulkResult.initial (Replied None (Some replyTwo)).

Definition failingDispatch : Dispatch :=
  mkDispatch secondInsertBatch afterFirstInsert
             (Replied (Some writeConcernFailed) None).

(** [{ ok: 1, n: 1, opTime: { ts, t } }]. *)
Definition replyAt (ts t : Component) : Document.t :=
  Document.mk (Some 1) None None (Some 1) None (UpsertedValue JUndefined)
              None None (Some (OTPair ts t)) None None.

(** [{ ok: 1, n: 2, nModified: 1, upserted: [{ index: 0, _id: 7 }] }]: an
    update reply that matched one document and upserted another. *)
Definition replyWithUpsert : Document.t :=
  Document.mk (Some 1) None None (Some 2) (Some 1)
              (UpsertedArray [IndexedId.mk 0 (JNum 7)])
              None None None None None.

(** [{ ok: 1, n: 1 }] for a delete batch at original index 3. *)
Definition deleteBatch : Batch.t :=
  Batch.mk 3 1 [3] DELETE [JObj [("q"%string, docA); ("limit"%string, JNum 1)]] 1 40.

(** Three merge calls: an insert reply, a thrown dispatch, an update reply. *)
Definition threeCalls : list (Batch.t * option AnyError.t * option Document.t) :=
  [(firstInsertBatch, None, Some replyTwo);
   (secondInsertBatch, Some thrownError, None);
   (updateBatch, None, Some replyWithUpsert)].

(** An insert, an update and a delete reply, in that order. *)
Definition mixedReplies : list (Batch.t * Document.t) :=
  [(firstInsertBatch, replyTwo);
   (updateBatch, replyWithUpsert);
   (deleteBatch, replyWithoutNModified)].

(** A network error: it has a message and is not a write-concern error. *)
Definition networkError : AnyError.t :=
  AnyError.mk
    (Document.mk None None (Some "connection closed"%string) None None
                 (UpsertedValue JUndefined) None None None None None)
    true false.

(** The error a dispatching call throws, before the [catch] block marks it. *)
Definition rawThrownError : AnyError.t :=
  AnyError.mk
    (Document.mk None (Some 10107) (Some "not master"%string) None None
                 (UpsertedValue JUndefined) None None None None None)
    true false.

(** A multi-document update and an unlimited delete, as statements. *)
Definition multiUpdate : JsValue :=
  JObj [("q"%string, docA); ("u"%string, docB); ("multi"%string, JBool true)].

Definition unlimitedDelete : JsValue :=
  JObj [("q"%string, docA); ("limit"%string, JNum 0)].

Definition retryOptions : BulkWriteOptions.t :=
  BulkWriteOptions.set_retryWrites (Some true) BulkWriteOptions.empty.

(** A run of two batches that both succeed. *)
Definition twoBatchBulk : BulkOperationBase.t :=
  BulkOperationBase.set_batches [firstInsertBatch; secondInsertBatch] orderedBulk.

Definition successRun : Run (list DispatchOutcome) :=
  executeCommands scripted keepOptions 64 twoBatchBulk BulkWriteOptions.empty
                  [Replied None (Some replyTwo); Replied None (Some replyTwo)].

(** A run whose second dispatch ends in a network error. *)
Definition networkErrorRun : Run (list DispatchOutcome) :=
  executeCommands scripted keepOptions 64 threeBatchBulk BulkWriteOptions.empty
                  [Replied None (Some replyTwo); Replied (Some networkError) None].

Definition networkErrorDispatch : Dispatch :=
  mkDispatch secondInsertBatch afterFirstInsert (Replied (Some networkError) None).

(** A run whose second dispatching call throws. *)
Definition thrownRun : Run (list DispatchOutcome) :=
  executeCommands scripted keepOptions 64 threeBatchBulk BulkWriteOptions.empty
                  [Replied None (Some replyTwo); Raised rawThrownError].

Definition thrownDispatch : Dispatch :=
  mkDispatch secondInsertBatch afterFirstInsert (Raised rawThrownError).

(** Credentials for the AWS mechanism and an environment that holds AWS
    keys. *)
Definition awsEnv : ProcessEnv.t :=
  ProcessEnv.mk (Some "AKIDEXAMPLE"%string) (Some "secret"%string)
                (Some "token"%string).
Definition noEnv : ProcessEnv.t := ProcessEnv.mk None None None.
Definition awsOptions : MongoCredentialsOptions.t :=
  MongoCredentialsOptions.mk None (Some "given"%string) (Some "$external"%string)
                             None (Some "MONGODB-AWS"%string) None.
Definition defaultUser : MongoCredentials.t :=
  MongoCredentials.mk (Some "ann"%string) (Some "pw"%string) (Some "admin"%string)
                      "DEFAULT" [].
Definition modernServer : IsMasterAuth.t :=
  IsMasterAuth.mk (Some [JStr "SCRAM-SHA-1"; JStr "SCRAM-SHA-256"]) (Some 8).
Definition x509User : MongoCredentials.t :=
  MongoCredentials.mk (Some "CN=client"%string) (Some ""%string)
                      (Some "$external"%string) "MONGODB-X509" [].
(** [{ ok: 1, n: 1, opTime: Timestamp }]: a reply whose marker is a wire
    [Timestamp] with the given 64 bits. *)
Definition replyStamped (value : Z) : Document.t :=
  Document.mk (Some 1) None None (Some 1) None (UpsertedValue JUndefined)
              None None (Some (OTTimestamp value)) None None.

(** An unsigned [Long] with its top bit set, as the [ts] of a marker. *)
Definition farFuture : Component := CLong (Long.mk 9487534653230284801 true).
(** A [MongoWriteConcernError] that carries no [result]. *)
Definition bareWriteConcernFailed : AnyError.t :=
  AnyError.mk
    (Document.mk None (Some 64) (Some "waiting for replication timed out"%string)
                 None None (UpsertedValue JUndefined) None None None None None)
    true true.

(** A [MongoWriteConcernError] whose [result] has no [writeConcernError]. *)
Definition hollowWriteConcernFailed : AnyError.t :=
  AnyError.mk
    (Document.mk None (Some 64) (Some "waiting for replication timed out"%string)
                 None None (UpsertedValue JUndefined) None None None None
                 (Some replyTwo))
    true true.

(** The runs in which the second batch ends in one of them. *)
Definition bareFailureRun : Run (list DispatchOutcome) :=
  executeCommands scripted keepOptions 64 threeBatchBulk BulkWriteOptions.empty
                  [Replied None (Some replyTwo);
                   Replied (Some bareWriteConcernFailed) None;
                   Replied None (Some replyTwo)].

Definition hollowFailureRun : Run (list DispatchOutcome) :=
  executeCommands scripted keepOptions 64 threeBatchBulk BulkWriteOptions.empty
                  [Replied None (Some replyTwo);
                   Replied (Some hollowWriteConcernFailed) None;
                   Replied None (Some replyTwo)].

(** A driver error that has a [result] property of its own, and the run in
    which the second batch ends in it. *)
Definition errorWithResult : AnyError.t :=
  AnyError.mk
    (Document.mk None None (Some "connection closed"%string) None None
                 (UpsertedValue JUndefined) None None None None (Some replyTwo))
    true false.

Definition ownResultRun : Run (list DispatchOutcome) :=
  executeCommands scripted keepOptions 64 threeBatchBulk BulkWriteOptions.empty
                  [Replied None (Some replyTwo);
                   Replied (Some errorWithResult) None;
                   Replied None (Some replyTwo)].
End Sample.

(** * Properties *)

(** ** The result merger *)

Lemma opt_or_None {A : Type} (a b : option A) :
  opt_or a b = None -> opt_or b a = None.
Proof. destruct a, b; simpl; congruence. Qed.

Lemma mergeOpTime_Normal bulkResult result bulkResult' :
  mergeOpTime bulkResult result = Normal bulkResult' ->
  bulkResult' = BulkResult.set_opTime (BulkResult.opTime bulkResult') bulkResult.
Proof.
  unfold mergeOpTime, bind, Long.greaterThan, Long.equals.
  destruct bulkResult as [ok we wce ids ni nu nm nmod nr ups ot]; simpl.
  intros H.
  repeat match type of H with
         | context [match ?x with _ => _ end] => destruct x; simpl in H
         end;
    try discriminate; inversion H; reflexivity.
Qed.

Lemma mergeOpTime_total bulkResult result :
  match mergeOpTime bulkResult result with
  | Normal _ => markersClash (BulkResult.opTime bulkResult) result = false
  | Throw e => e = TypeError /\ markersClash (BulkResult.opTime bulkResult) result = true
  end.
Proof.
  unfold mergeOpTime, markersClash, bind, Long.greaterThan, Long.equals.
  destruct (opt_or (Document.opTime result) (Document.lastOp result)) eqn:Hguard.
  - destruct (opt_or (Document.lastOp result) (Document.opTime result)) as [[v|ts t]|] eqn:Hm.
    + destruct (BulkResult.opTime bulkResult) as [[w|ts0 t0]|]; simpl;
        try reflexivity;
        match goal with |- context [if ?c then _ else _] => destruct c end; reflexivity.
    + destruct (BulkResult.opTime bulkResult) as [[w|ts0 t0]|]; simpl;
        try (split; reflexivity); try reflexivity;
        repeat match goal with
               | |- context [if ?c then _ else _] => destruct c; simpl
               end; reflexivity.
    + apply opt_or_None in Hm. congruence.
  - apply opt_or_None in Hguard. rewrite Hguard.
    destruct (BulkResult.opTime bulkResult) as [[w|ts0 t0]|]; reflexivity.
Qed.

(** Each phase after the operation-time phase writes its own fields only. *)
Lemma mergeInserted_frame batch result b :
  mergeInserted batch result b =
    BulkResult.set_nInserted (BulkResult.nInserted (mergeInserted batch result b)) b.
Proof.
  unfold mergeInserted. destruct b, (Document.n result) as [n|]; simpl;
    [destruct (isInsertBatch batch && negb (n =? 0))|]; reflexivity.
Qed.

Lemma mergeRemoved_frame batch result b :
  mergeRemoved batch result b =
    BulkResult.set_nRemoved (BulkResult.nRemoved (mergeRemoved batch result b)) b.
Proof.
  unfold mergeRemoved. destruct b, (Document.n result) as [n|]; simpl;
    [destruct (isDeleteBatch batch && negb (n =? 0))|]; reflexivity.
Qed.

Lemma mergeUpserted_frame batch result b :
  snd (mergeUpserted batch result b) =
    BulkResult.set_upserted (BulkResult.upserted (snd (mergeUpserted batch result b))) b.
Proof.
  unfold mergeUpserted. destruct b, (Document.upserted result) as [entries|v]; simpl;
    [|destruct (js_truthy v)]; reflexivity.
Qed.

Lemma mergeUpdated_frame batch result k b :
  mergeUpdated batch result k b =
    BulkResult.set_nModified (BulkResult.nModified (mergeUpdated batch result k b))
      (BulkResult.set_nMatched (BulkResult.nMatched (mergeUpdated batch result k b))
         (BulkResult.set_nUpserted (BulkResult.nUpserted (mergeUpdated batch result k b))
            b)).
Proof.
  unfold mergeUpdated. destruct b, (Document.n result) as [n|]; simpl;
    [destruct (isUpdateBatch batch && negb (n =? 0)), (Document.nModified result)|];
    reflexivity.
Qed.

Lemma mergeWriteErrors_frame batch result b :
  mergeWriteErrors batch result b =
    BulkResult.set_writeErrors (BulkResult.writeErrors (mergeWriteErrors batch result b)) b.
Proof.
  unfold mergeWriteErrors. destruct b, (Document.writeErrors result); reflexivity.
Qed.

Lemma mergeWriteConcernError_frame result b :
  mergeWriteConcernError result b =
    BulkResult.set_writeConcernErrors
      (BulkResult.writeConcernErrors (mergeWriteConcernError result b)) b.
Proof.
  unfold mergeWriteConcernError. destruct b, (Document.writeConcernError result);
    reflexivity.
Qed.

(** Reads a field through the phases that do not write it. *)
Ltac through_phases :=
  repeat progress
    (first [ rewrite mergeWriteConcernError_frame
           | rewrite mergeWriteErrors_frame
           | rewrite mergeUpdated_frame
           | rewrite mergeUpserted_frame
           | rewrite mergeRemoved_frame
           | rewrite mergeInserted_frame ];
     simpl).

Lemma mergeFields_inv batch result bulkResult bulkResult' :
  mergeFields batch result bulkResult = Normal bulkResult' ->
  exists marked,
    mergeOpTime bulkResult result = Normal marked /\
    marked = BulkResult.set_opTime (BulkResult.opTime marked) bulkResult /\
    bulkResult' =
      mergeWriteConcernError result
        (mergeWriteErrors batch result
           (mergeUpdated batch result
              (fst (mergeUpserted batch result
                      (mergeRemoved batch result (mergeInserted batch result marked))))
              (snd (mergeUpserted batch result
                      (mergeRemoved batch result (mergeInserted batch result marked)))))).
Proof.
  unfold mergeFields, bind. intros H.
  destruct (mergeOpTime bulkResult result) as [marked|] eqn:Hm; [|discriminate].
  exists marked. split; [reflexivity|]. split; [eapply mergeOpTime_Normal; exact Hm|].
  destruct (mergeUpserted batch result
              (mergeRemoved batch result (mergeInserted batch result marked)))
    as [nUpserted upd] eqn:Hu.
  simpl. congruence.
Qed.

Lemma mergeFields_writeErrors batch result bulkResult bulkResult' :
  mergeFields batch result bulkResult = Normal bulkResult' ->
  BulkResult.writeErrors bulkResult' =
    BulkResult.writeErrors bulkResult ++
      match Document.writeErrors result with
      | Some errors => map (remapWriteError batch) errors
      | None => []
      end.
Proof.
  intros H. apply mergeFields_inv in H as (marked & _ & Hmarked & ->).
  through_phases. unfold mergeWriteErrors.
  destruct (Document.writeErrors result); simpl; through_phases;
    rewrite Hmarked, ?app_nil_r; reflexivity.
Qed.

Lemma mergeFields_writeConcernErrors batch result bulkResult bulkResult' :
  mergeFields batch result bulkResult = Normal bulkResult' ->
  BulkResult.writeConcernErrors bulkResult' =
    BulkResult.writeConcernErrors bulkResult ++
      match Document.writeConcernError result with
      | Some w => [WriteConcernError.mk w]
      | None => []
      end.
Proof.
  intros H. apply mergeFields_inv in H as (marked & _ & Hmarked & ->).
  unfold mergeWriteConcernError.
  destruct (Document.writeConcernError result); simpl; through_phases;
    rewrite Hmarked, ?app_nil_r; reflexivity.
Qed.

Lemma mergeFields_nModified batch result bulkResult bulkResult' :
  mergeFields batch result bulkResult = Normal bulkResult' ->
  BulkResult.nModified bulkResult' =
    if isUpdateBatch batch && num_truthy (Document.n result)
    then match Document.nModified result with
         | Some m => BulkResult.nModified bulkResult + m
         | None => 0
         end
    else BulkResult.nModified bulkResult.
Proof.
  intros H. apply mergeFields_inv in H as (marked & _ & Hmarked & ->).
  through_phases. unfold mergeUpdated, num_truthy.
  destruct (Document.n result) as [n|]; simpl;
    [destruct (isUpdateBatch batch && negb (n =? 0)), (Document.nModified result)|
     rewrite andb_false_r];
    simpl; through_phases; try rewrite Hmarked; reflexivity.
Qed.

Lemma mergeFields_opTime batch result bulkResult bulkResult' :
  mergeFields batch result bulkResult = Normal bulkResult' ->
  exists marked,
    mergeOpTime bulkResult result = Normal marked /\
    BulkResult.opTime bulkResult' = BulkResult.opTime marked.
Proof.
  intros H. apply mergeFields_inv in H as (marked & Hm & _ & ->).
  exists marked. split; [exact Hm|].
  through_phases. reflexivity.
Qed.

Lemma mergeFields_total batch result bulkResult :
  match mergeFields batch result bulkResult with
  | Normal _ => markersClash (BulkResult.opTime bulkResult) result = false
  | Throw e => e = TypeError /\ markersClash (BulkResult.opTime bulkResult) result = true
  end.
Proof.
  unfold mergeFields, bind.
  pose proof (mergeOpTime_total bulkResult result) as H.
  destruct (mergeOpTime bulkResult result); [|exact H].
  destruct (mergeUpserted _ _ _). exact H.
Qed.

(** The three ways [mergeBatchResults] ends once a document is chosen. *)
Lemma mergeBatchResults_cases batch bulkResult err result doc :
  effectiveResult err result = Some doc ->
  mergeBatchResults batch bulkResult err result =
    if num_is (Document.ok doc) 0 && (BulkResult.ok bulkResult =? 1)
    then Normal (JUndefined,
                 BulkResult.set_writeErrors
                   (BulkResult.writeErrors bulkResult ++ [topLevelWriteError batch doc])
                   (BulkResult.set_ok 0 bulkResult))
    else if num_is (Document.ok doc) 0 && (BulkResult.ok bulkResult =? 0)
    then Normal (JUndefined, bulkResult)
    else match mergeFields batch doc bulkResult with
         | Normal merged => Normal (JUndefined, merged)
         | Throw e => Throw e
         end.
Proof.
  intros H. unfold mergeBatchResults. rewrite H. reflexivity.
Qed.

Lemma mergeBatchResults_merged batch bulkResult err result doc :
  effectiveResult err result = Some doc ->
  num_is (Document.ok doc) 0 = false ->
  mergeBatchResults batch bulkResult err result =
    match mergeFields batch doc bulkResult with
    | Normal merged => Normal (JUndefined, merged)
    | Throw e => Throw e
    end.
Proof.
  intros H Hok. erewrite mergeBatchResults_cases by exact H. rewrite Hok. reflexivity.
Qed.

Lemma num_is_false n k : n <> Some k -> num_is n k = false.
Proof.
  destruct n as [z|]; simpl; [|reflexivity].
  intros H. apply Z.eqb_neq. congruence.
Qed.

(** How a top-level command failure is merged while the cumulative result
    is still ok: [ok] drops to 0, one write error is pushed, nothing else
    changes. *)
Lemma mergeBatchResults_top_level batch bulkResult err result doc :
  effectiveResult err result = Some doc ->
  Document.ok doc = Some 0 ->
  BulkResult.ok bulkResult = 1 ->
  mergeBatchResults batch bulkResult err result =
    Normal (JUndefined,
            BulkResult.set_writeErrors
              (BulkResult.writeErrors bulkResult
                 ++ [WriteError.mk (Some 0) (Some (num_or_zero (Document.code doc)))
                                   (Document.message doc)
                                   (js_get (Batch.operations batch) 0)])
              (BulkResult.set_ok 0 bulkResult)).
Proof.
  intros H Hok Hbr. erewrite mergeBatchResults_cases by exact H.
  rewrite Hok, Hbr. reflexivity.
Qed.

(** C1 (code defect): the second batch of a bulk starts at original index 2;
    when its dispatch fails at the top level the merger sets [ok] to 0 and
    records one write error with the code and message of the failure and the
    first operation of the batch, but with index 0 instead of the batch's
    [originalZeroIndex]. *)
Theorem C1_top_level_failure_index_is_zero :
  Batch.originalZeroIndex Sample.secondInsertBatch = 2 /\
  mergeBatchResults Sample.secondInsertBatch Sample.afterFirstInsert
                    (Some Sample.thrownError) None =
    Normal (JUndefined,
            BulkResult.mk 0
              [WriteError.mk (Some 0) (Some 10107) (Some "not master"%string)
                             (Some Sample.docC)]
              [] [] 2 0 0 0 0 [] None).
Proof. split; reflexivity. Qed.

(** C2, as stated, fails: three modifications were accumulated, an update
    reply without [nModified] is merged, and the accumulated value is not
    preserved. *)
Lemma C2_accumulated_nModified_lost :
  exists merged,
    mergeBatchResults Sample.updateBatch Sample.afterUpdates None
                      (Some Sample.replyWithoutNModified) = Normal (JUndefined, merged) /\
    BulkResult.nModified merged <> BulkResult.nModified Sample.afterUpdates.
Proof.
  eexists. split; [reflexivity|]. simpl. discriminate.
Qed.

(** C2 (amended): for an Update batch and a merged response (not a top-level
    failure, and no clash of marker kinds in the operation-time phase)
    without a numeric [nModified], the merge returns and does not add to the
    cumulative [nModified]: it resets it to 0 when the response has a
    non-zero [n], and leaves it unchanged when [n] is zero or absent. *)
Theorem C2_update_without_nModified batch bulkResult err result doc :
  effectiveResult err result = Some doc ->
  Document.ok doc <> Some 0 ->
  Batch.batchType batch = UPDATE ->
  Document.nModified doc = None ->
  markersClash (BulkResult.opTime bulkResult) doc = false ->
  exists merged,
    mergeBatchResults batch bulkResult err result = Normal (JUndefined, merged) /\
    BulkResult.nModified merged =
      if num_truthy (Document.n doc) then 0 else BulkResult.nModified bulkResult.
Proof.
  intros Heff Hok Hkind Hmod Hclash.
  erewrite mergeBatchResults_merged by (try exact Heff; now apply num_is_false).
  pose proof (mergeFields_total batch doc bulkResult) as Htot.
  destruct (mergeFields batch doc bulkResult) as [merged|e] eqn:Hm.
  - exists merged. split; [reflexivity|].
    rewrite (mergeFields_nModified _ _ _ Hm), Hmod.
    unfold isUpdateBatch. rewrite Hkind. reflexivity.
  - destruct Htot as [_ Htot]. congruence.
Qed.

Lemma C2_update_without_nModified_witness :
  effectiveResult None (Some Sample.replyWithoutNModified)
    = Some Sample.replyWithoutNModified /\
  Document.ok Sample.replyWithoutNModified <> Some 0 /\
  Batch.batchType Sample.updateBatch = UPDATE /\
  Document.nModified Sample.replyWithoutNModified = None /\
  markersClash (BulkResult.opTime Sample.afterUpdates) Sample.replyWithoutNModified
    = false /\
  exists merged,
    mergeBatchResults Sample.updateBatch Sample.afterUpdates None
                      (Some Sample.replyWithoutNModified) = Normal (JUndefined, merged) /\
    BulkResult.nModified merged =
      if num_truthy (Document.n Sample.replyWithoutNModified)
      then 0 else BulkResult.nModified Sample.afterUpdates.
Proof.
  assert (Hok : Document.ok Sample.replyWithoutNModified <> Some 0)
    by (simpl; discriminate).
  repeat split; try reflexivity; try exact Hok.
  exact (@C2_update_without_nModified
           Sample.updateBatch Sample.afterUpdates None
           (Some Sample.replyWithoutNModified) Sample.replyWithoutNModified
           eq_refl Hok eq_refl eq_refl eq_refl).
Defined.

(** C3, as stated, fails: the cumulative result already has [ok = 0], a
    reply with [ok = 1] and [n = 2] for an insert batch is merged, and
    [nInserted] grows. *)
Lemma C3_count_grows_after_failure :
  BulkResult.ok Sample.afterTopLevelFailure = 0 /\
  exists merged,
    mergeBatchResults Sample.secondInsertBatch Sample.afterTopLevelFailure None
                      (Some Sample.replyTwo) = Normal (JUndefined, merged) /\
    BulkResult.nInserted merged <> BulkResult.nInserted Sample.afterTopLevelFailure.
Proof.
  split; [reflexivity|]. eexists. split; [reflexivity|]. simpl. discriminate.
Qed.

(** C3 (amended): once the cumulative result has [ok = 0], a merge call
    whose response or error is absent or has [ok = 0] returns with the
    cumulative result unchanged, counts included. *)
Theorem C3_failed_response_in_terminal_state batch bulkResult err result :
  BulkResult.ok bulkResult = 0 ->
  (forall doc, effectiveResult err result = Some doc -> Document.ok doc = Some 0) ->
  mergeBatchResults batch bulkResult err result = Normal (JUndefined, bulkResult).
Proof.
  intros Hbr Hdoc. unfold mergeBatchResults.
  destruct (effectiveResult err result) as [doc|]; [|reflexivity].
  rewrite (Hdoc doc eq_refl), Hbr. reflexivity.
Qed.

Lemma C3_failed_response_in_terminal_state_witness :
  BulkResult.ok Sample.afterTopLevelFailure = 0 /\
  (forall doc,
      effectiveResult (Some Sample.thrownError) None = Some doc ->
      Document.ok doc = Some 0) /\
  mergeBatchResults Sample.secondInsertBatch Sample.afterTopLevelFailure
                    (Some Sample.thrownError) None =
    Normal (JUndefined, Sample.afterTopLevelFailure).
Proof.
  assert (H : forall doc,
             effectiveResult (Some Sample.thrownError) None = Some doc ->
             Document.ok doc = Some 0)
    by (intros doc E; injection E as <-; reflexivity).
  split; [reflexivity|]. split; [exact H|].
  exact (@C3_failed_response_in_terminal_state
           Sample.secondInsertBatch Sample.afterTopLevelFailure
           (Some Sample.thrownError) None eq_refl H).
Defined.

(** C7: when a merged response (not a top-level failure, and no clash of
    marker kinds in the operation-time phase) carries a list of
    per-operation write errors, the merge returns and has appended them in
    the order of the response, the error with batch-local index [i] getting
    the index [batch.originalIndexes[i]] (a lookup, not an offset from
    [originalZeroIndex]) and the operation [batch.operations[i]]. *)
Theorem C7_write_errors_remapped batch bulkResult err result doc errors :
  effectiveResult err result = Some doc ->
  Document.ok doc <> Some 0 ->
  Document.writeErrors doc = Some errors ->
  markersClash (BulkResult.opTime bulkResult) doc = false ->
  exists merged,
    mergeBatchResults batch bulkResult err result = Normal (JUndefined, merged) /\
    BulkResult.writeErrors merged =
      BulkResult.writeErrors bulkResult ++
        map (fun e =>
               WriteError.mk
                 (js_get (Batch.originalIndexes batch) (ServerWriteError.index e))
                 (ServerWriteError.code e)
                 (ServerWriteError.errmsg e)
                 (js_get (Batch.operations batch) (ServerWriteError.index e)))
            errors.
Proof.
  intros Heff Hok Herrors Hclash.
  erewrite mergeBatchResults_merged by (try exact Heff; now apply num_is_false).
  pose proof (mergeFields_total batch doc bulkResult) as Htot.
  destruct (mergeFields batch doc bulkResult) as [merged|e] eqn:Hm.
  - exists merged. split; [reflexivity|].
    rewrite (mergeFields_writeErrors _ _ _ Hm), Herrors. reflexivity.
  - destruct Htot as [_ Htot]. congruence.
Qed.

Lemma C7_write_errors_remapped_witness :
  effectiveResult None (Some Sample.replyWithWriteError)
    = Some Sample.replyWithWriteError /\
  Document.ok Sample.replyWithWriteError <> Some 0 /\
  Document.writeErrors Sample.replyWithWriteError
    = Some [ServerWriteError.mk 1 (Some 11000) (Some "duplicate key"%string)] /\
  markersClash (BulkResult.opTime BulkResult.initial) Sample.replyWithWriteError
    = false /\
  exists merged,
    mergeBatchResults Sample.scatteredInsertBatch BulkResult.initial None
                      (Some Sample.replyWithWriteError) = Normal (JUndefined, merged) /\
    BulkResult.writeErrors merged =
      [WriteError.mk (Some 3) (Some 11000) (Some "duplicate key"%string)
                     (Some Sample.docC)].
Proof.
  assert (Hok : Document.ok Sample.replyWithWriteError <> Some 0)
    by (simpl; discriminate).
  repeat split; try reflexivity; try exact Hok.
  exact (@C7_write_errors_remapped
           Sample.scatteredInsertBatch BulkResult.initial None
           (Some Sample.replyWithWriteError) Sample.replyWithWriteError _
           eq_refl Hok eq_refl eq_refl).
Defined.

(** ** The find builder *)

(** C4, as stated, fails: the empty document is accepted, recorded as the
    pending selector, and no error is thrown. *)
Lemma C4_empty_document_accepted :
  find (JObj []) Sample.orderedBulk =
    (Normal NewFindOperators,
     BulkOperationBase.set_currentOp
       (Some (CurrentOp.mk (Some (JObj [])) None None None)) Sample.orderedBulk) /\
  ~ (exists e, fst (find (JObj []) Sample.orderedBulk) = Throw e).
Proof.
  split; [reflexivity|]. intros [e H]. discriminate H.
Qed.

(** C4 (amended): [find] throws [MongoInvalidArgumentError], leaving the
    bulk operation as it was, exactly when the selector is falsy (absent:
    [undefined] or [null]); any other selector, every document included
    (empty or not), becomes the single pending operation descriptor and a
    builder is returned. *)
Theorem C4_find_selector selector this :
  (js_truthy selector = false ->
   find selector this =
     (Throw (MongoInvalidArgumentError "Bulk find operation must specify a selector"),
      this)) /\
  (js_truthy selector = true ->
   find selector this =
     (Normal NewFindOperators,
      BulkOperationBase.set_currentOp
        (Some (CurrentOp.mk (Some selector) None None None)) this) /\
   BulkOperationBase.currentOp (snd (find selector this)) =
     Some (CurrentOp.mk (Some selector) None None None)).
Proof.
  unfold find. split; intros H; rewrite H; simpl.
  - reflexivity.
  - split; reflexivity.
Qed.

Lemma C4_find_selector_witness :
  (js_truthy JUndefined = false /\
   find JUndefined Sample.orderedBulk =
     (Throw (MongoInvalidArgumentError "Bulk find operation must specify a selector"),
      Sample.orderedBulk)) /\
  (js_truthy Sample.docA = true /\
   BulkOperationBase.currentOp (snd (find Sample.docA Sample.orderedBulk)) =
     Some (CurrentOp.mk (Some Sample.docA) None None None)).
Proof.
  split; (split; [reflexivity|]).
  - exact (proj1 (C4_find_selector JUndefined Sample.orderedBulk) eq_refl).
  - exact (proj2 (proj2 (C4_find_selector Sample.docA Sample.orderedBulk) eq_refl)).
Defined.

(** ** The merger returns nothing *)

Lemma mergeBatchResults_total batch bulkResult err result :
  (exists merged,
      mergeBatchResults batch bulkResult err result = Normal (JUndefined, merged)) \/
  mergeBatchResults batch bulkResult err result = Throw TypeError.
Proof.
  unfold mergeBatchResults.
  destruct (effectiveResult err result) as [doc|]; [|left; eauto].
  destruct (num_is (Document.ok doc) 0 && (BulkResult.ok bulkResult =? 1));
    [left; eauto|].
  destruct (num_is (Document.ok doc) 0 && (BulkResult.ok bulkResult =? 0));
    [left; eauto|].
  pose proof (mergeFields_total batch doc bulkResult) as Htot.
  unfold bind. destruct (mergeFields batch doc bulkResult) as [merged|e].
  - left; eauto.
  - right. destruct Htot as [-> _]. reflexivity.
Qed.

Lemma mergeBatchResults_undefined batch bulkResult err result v merged :
  mergeBatchResults batch bulkResult err result = Normal (v, merged) ->
  v = JUndefined.
Proof.
  intros H.
  destruct (mergeBatchResults_total batch bulkResult err result) as [[m Hm]|Hm];
    congruence.
Qed.

Section ExecutorProperties.

Variable World : Type.
Variable executeOperation :
  World -> BatchType -> string -> list JsValue -> BulkWriteOptions.t ->
  DispatchOutcome * World.
Variable resolveOptions :
  BulkOperationBase.t -> BulkWriteOptions.t -> BulkWriteOptions.t.
Variable WriteConcern_fromOptions : BulkWriteOptions.t -> option JsValue.
Variable WriteConcernFailed : Z.

Local Abbreviation runQueue :=
  (executeCommands_queue executeOperation resolveOptions WriteConcernFailed).
Local Abbreviation runExecute :=
  (execute executeOperation resolveOptions WriteConcern_fromOptions
           WriteConcernFailed).
Local Abbreviation runMany :=
  (executeMany executeOperation resolveOptions WriteConcern_fromOptions
               WriteConcernFailed).

Lemma mergeAndDecide_unfold bulkOperation batch err result :
  mergeAndDecide WriteConcernFailed bulkOperation batch err result =
    match mergeBatchResults batch (BulkOperationBase.bulkResult bulkOperation)
                            err result with
    | Throw x => (Escaped x, bulkOperation)
    | Normal (_, merged) =>
        let merged_op := BulkOperationBase.set_bulkResult merged bulkOperation in
        (match handleWriteError WriteConcernFailed merged_op
                                (BulkWriteResult.mk merged) with
         | Some args => Finished ExitHandleWriteError args
         | None => Continue
         end,
         merged_op)
    end.
Proof.
  unfold mergeAndDecide.
  destruct (mergeBatchResults batch (BulkOperationBase.bulkResult bulkOperation)
                              err result) as [[v merged]|x] eqn:Hm;
    [|reflexivity].
  apply mergeBatchResults_undefined in Hm. subst v. simpl.
  destruct (handleWriteError _ _ _); reflexivity.
Qed.

(** C9: [mergeBatchResults] returns [undefined] whenever it returns (it
    can only fail to return by throwing); hence the result handler never
    leaves through the branch guarded by [mergeResult != null], and after
    merging an ordinary response it halts or continues as
    [handleWriteError] decides. *)
Theorem C9_merge_result_is_undefined :
  (forall batch bulkResult err result,
      (exists merged,
          mergeBatchResults batch bulkResult err result
            = Normal (JUndefined, merged)) \/
      mergeBatchResults batch bulkResult err result = Throw TypeError) /\
  (forall bulkOperation batch err result args,
      fst (resultHandler WriteConcernFailed bulkOperation batch err result)
        <> Finished ExitMergeResult args) /\
  (forall bulkOperation batch result,
      resultHandler WriteConcernFailed bulkOperation batch None result =
        match mergeBatchResults batch (BulkOperationBase.bulkResult bulkOperation)
                                None result with
        | Throw x => (Escaped x, bulkOperation)
        | Normal (_, merged) =>
            let merged_op := BulkOperationBase.set_bulkResult merged bulkOperation in
            (match handleWriteError WriteConcernFailed merged_op
                                    (BulkWriteResult.mk merged) with
             | Some args => Finished ExitHandleWriteError args
             | None => Continue
             end,
             merged_op)
        end).
Proof.
  split; [exact mergeBatchResults_total|]. split.
  - intros bulkOperation batch err result args.
    unfold resultHandler.
    assert (Hmerge : fst (mergeAndDecide WriteConcernFailed bulkOperation batch
                                         err result)
                     <> Finished ExitMergeResult args).
    { rewrite mergeAndDecide_unfold.
      destruct (mergeBatchResults _ _ _ _) as [[v merged]|x]; simpl;
        [destruct (handleWriteError _ _ _)|]; discriminate. }
    destruct err as [e|]; [|exact Hmerge].
    destruct (AnyError.hasMessage e && negb (AnyError.isMongoWriteConcernError e));
      [simpl; discriminate|].
    destruct (AnyError.isMongoWriteConcernError e); [|exact Hmerge].
    destruct (handleMongoWriteConcernError batch _ e) as [[args'|x] b];
      simpl; discriminate.
  - intros bulkOperation batch result. unfold resultHandler.
    apply mergeAndDecide_unfold.
Qed.

(** *** Re-execution *)

Lemma execute_after_executed this options callback w :
  BulkOperationBase.executed this = true ->
  runExecute this options callback w =
    mkRun [] (handleEarlyError MongoBatchReExecutionError callback) this w.
Proof.
  intros H. unfold execute. rewrite H. reflexivity.
Qed.

Lemma executeMany_after_executed calls : forall this w,
  BulkOperationBase.executed this = true ->
  map (fun run => BulkOperationBase.executed (final run)) (runMany this calls w) =
    repeat true (List.length calls).
Proof.
  induction calls as [|[options callback] rest IH]; intros this w H; simpl.
  - reflexivity.
  - rewrite execute_after_executed by exact H. simpl.
    rewrite H. f_equal. now apply IH.
Qed.

Lemma resultHandler_executed bulkOperation batch err result :
  BulkOperationBase.executed
    (snd (resultHandler WriteConcernFailed bulkOperation batch err result)) =
    BulkOperationBase.executed bulkOperation.
Proof.
  assert (Hmerge :
            BulkOperationBase.executed
              (snd (mergeAndDecide WriteConcernFailed bulkOperation batch err result))
            = BulkOperationBase.executed bulkOperation).
  { rewrite mergeAndDecide_unfold.
    destruct (mergeBatchResults _ _ _ _) as [[v merged]|x]; reflexivity. }
  unfold resultHandler.
  destruct err as [e|]; [|exact Hmerge].
  destruct (AnyError.hasMessage e && negb (AnyError.isMongoWriteConcernError e));
    [reflexivity|].
  destruct (AnyError.isMongoWriteConcernError e); [|exact Hmerge].
  destruct (handleMongoWriteConcernError batch _ e) as [[args|x] b]; reflexivity.
Qed.

Lemma executeCommands_queue_executed queue : forall bulkOperation options w,
  BulkOperationBase.executed (final (runQueue queue bulkOperation options w)) =
    BulkOperationBase.executed bulkOperation.
Proof.
  induction queue as [|batch rest IH]; intros bulkOperation options w; simpl.
  - reflexivity.
  - destruct (executeOperation _ _ _ _ _) as [[err result|err] w'].
    + pose proof (resultHandler_executed
                    (BulkOperationBase.set_batches rest bulkOperation)
                    batch err result) as Hh.
      destruct (resultHandler _ _ _ _ _) as [[exit args| |x] handled];
        simpl in *; try exact Hh.
      rewrite IH. exact Hh.
    + destruct (mergeBatchResults _ _ _ _) as [[v merged]|x]; reflexivity.
Qed.

(** C8: on an instance whose [executed] flag is set, [execute] fails with
    [MongoBatchReExecutionError] (through the callback or the rejected
    promise), dispatches nothing and leaves the instance and the transport
    as they were; over any sequence of [execute] calls the flag goes from
    false to true at most once and never back; the executor itself never
    writes the flag. *)
Theorem C8_reexecution_fails_without_dispatch :
  (forall this options callback w,
      BulkOperationBase.executed this = true ->
      dispatched (runExecute this options callback w) = [] /\
      outcome (runExecute this options callback w) =
        (if callback
         then Called (Some (EarlyFailure MongoBatchReExecutionError), None)
         else Rejected MongoBatchReExecutionError) /\
      final (runExecute this options callback w) = this /\
      world (runExecute this options callback w) = w) /\
  (forall this calls w,
      exists k m,
        BulkOperationBase.executed this
          :: map (fun run => BulkOperationBase.executed (final run))
                 (runMany this calls w)
        = repeat false k ++ repeat true m) /\
  (forall queue bulkOperation options w,
      BulkOperationBase.executed (final (runQueue queue bulkOperation options w)) =
        BulkOperationBase.executed bulkOperation).
Proof.
  split; [|split].
  - intros this options callback w H.
    rewrite execute_after_executed by exact H. simpl.
    repeat split; reflexivity.
  - intros this calls. revert this.
    induction calls as [|[options callback] rest IH]; intros this w.
    + destruct (BulkOperationBase.executed this).
      * exists 0%nat, 1%nat. reflexivity.
      * exists 1%nat, 0%nat. reflexivity.
    + destruct (BulkOperationBase.executed this) eqn:He.
      * exists 0%nat, (S (List.length ((options, callback) :: rest))).
        rewrite executeMany_after_executed by exact He. reflexivity.
      * simpl.
        destruct (IH (final (runExecute this options callback w))
                     (world (runExecute this options callback w)))
          as (k & m & Hkm).
        exists (S k), m. simpl. f_equal. exact Hkm.
  - intros queue bulkOperation options w.
    apply executeCommands_queue_executed.
Qed.

(** *** Write-concern failures end the run *)

Lemma getWriteConcernError_nonempty r :
  BulkResult.writeConcernErrors (BulkWriteResult.result r) <> [] ->
  exists e, getWriteConcernError WriteConcernFailed r = Some e.
Proof.
  unfold getWriteConcernError.
  destruct (BulkResult.writeConcernErrors (BulkWriteResult.result r))
    as [|e [|e' rest]]; intros H; [congruence | eauto | eauto].
Qed.

Lemma handleWriteError_with_writeConcernError bulkOperation :
  BulkResult.writeConcernErrors (BulkOperationBase.bulkResult bulkOperation) <> [] ->
  exists failure,
    handleWriteError WriteConcernFailed bulkOperation
                     (BulkWriteResult.mk (BulkOperationBase.bulkResult bulkOperation))
      = Some (Some (BulkWriteFailure failure), None) /\
    MongoBulkWriteError.result failure =
      ResultGiven (BulkWriteResult.mk (BulkOperationBase.bulkResult bulkOperation)).
Proof.
  intros H. unfold handleWriteError.
  destruct (BulkResult.writeErrors (BulkOperationBase.bulkResult bulkOperation))
    as [|first rest].
  - destruct (getWriteConcernError_nonempty
                (BulkWriteResult.mk (BulkOperationBase.bulkResult bulkOperation)) H)
      as [e He].
    rewrite He. eexists. split; reflexivity.
  - eexists. split; reflexivity.
Qed.

(** The result handler on a write-concern-specific failure. *)
Lemma resultHandler_writeConcernFailure bulkOperation batch err result doc wce :
  writeConcernFailure (Replied err result) = Some (doc, wce) ->
  markersClash (BulkResult.opTime (BulkOperationBase.bulkResult bulkOperation)) doc
    = false ->
  exists exit failure handled,
    resultHandler WriteConcernFailed bulkOperation batch err result =
      (Finished exit (Some (BulkWriteFailure failure), None), handled) /\
    MongoBulkWriteError.result failure =
      ResultGiven (BulkWriteResult.mk (BulkOperationBase.bulkResult handled)) /\
    BulkResult.writeConcernErrors (BulkOperationBase.bulkResult handled) =
      BulkResult.writeConcernErrors (BulkOperationBase.bulkResult bulkOperation)
        ++ [WriteConcernError.mk wce].
Proof.
  intros Hfail Hclash.
  pose proof (mergeFields_total
                batch doc (BulkOperationBase.bulkResult bulkOperation)) as Htot.
  destruct (mergeFields batch doc (BulkOperationBase.bulkResult bulkOperation))
    as [merged|x] eqn:Hm; [|destruct Htot; congruence].
  pose proof (mergeFields_writeConcernErrors _ _ _ Hm) as Hwce.
  assert (Hdecide :
            forall err',
              effectiveResult err' result = Some doc ->
              num_is (Document.ok doc) 0 = false ->
              Document.writeConcernError doc = Some wce ->
              exists exit failure handled,
                mergeAndDecide WriteConcernFailed bulkOperation batch err' result =
                  (Finished exit (Some (BulkWriteFailure failure), None), handled) /\
                MongoBulkWriteError.result failure =
                  ResultGiven
                    (BulkWriteResult.mk (BulkOperationBase.bulkResult handled)) /\
                BulkResult.writeConcernErrors (BulkOperationBase.bulkResult handled) =
                  BulkResult.writeConcernErrors
                    (BulkOperationBase.bulkResult bulkOperation)
                    ++ [WriteConcernError.mk wce]).
  { intros err' Heff Hok Hw.
    rewrite mergeAndDecide_unfold.
    erewrite mergeBatchResults_merged; [|exact Heff|exact Hok].
    rewrite Hm. cbv zeta.
    rewrite Hw in Hwce.
    destruct (handleWriteError_with_writeConcernError
                (BulkOperationBase.set_bulkResult merged bulkOperation))
      as (failure & Hh & Hres).
    { change (BulkResult.writeConcernErrors merged <> []). rewrite Hwce.
      intros Hnil. now apply app_eq_nil in Hnil as [_ ?]. }
    change (BulkOperationBase.bulkResult
              (BulkOperationBase.set_bulkResult merged bulkOperation))
      with merged in Hh, Hres.
    rewrite Hh.
    do 3 eexists. split; [reflexivity|]. split; [exact Hres|]. exact Hwce. }
  unfold writeConcernFailure in Hfail.
  destruct err as [e|].
  - destruct (AnyError.isMongoWriteConcernError e) eqn:Hkind.
    + (* a MongoWriteConcernError *)
      destruct (Document.result (AnyError.doc e)) as [r|] eqn:Hr; [|discriminate].
      destruct (Document.writeConcernError r) as [outer|] eqn:Houter;
        [|discriminate].
      destruct (effectiveResult None (Some r)) as [d|] eqn:Heff; [|discriminate].
      destruct (num_is (Document.ok d) 0) eqn:Hok; [discriminate|].
      destruct (Document.writeConcernError d) as [w|] eqn:Hw; [|discriminate].
      injection Hfail as <- <-.
      unfold resultHandler, handleMongoWriteConcernError.
      rewrite Hkind, andb_false_r, Hr.
      erewrite mergeBatchResults_merged; [|exact Heff|exact Hok].
      rewrite Hm, Houter. do 3 eexists. split; [reflexivity|].
      split; [reflexivity|]. rewrite Hw in Hwce. exact Hwce.
    + (* an error object that is not a driver error *)
      destruct (AnyError.hasMessage e) eqn:Hmsg; [discriminate|].
      destruct (effectiveResult (Some e) result) as [d|] eqn:Heff; [|discriminate].
      destruct (num_is (Document.ok d) 0) eqn:Hok; [discriminate|].
      destruct (Document.writeConcernError d) as [w|] eqn:Hw; [|discriminate].
      injection Hfail as <- <-.
      unfold resultHandler. rewrite Hmsg, Hkind. cbn [andb].
      exact (Hdecide (Some e) Heff Hok Hw).
  - (* an ordinary reply with a writeConcernError *)
    destruct (effectiveResult None result) as [d|] eqn:Heff; [|discriminate].
    destruct (num_is (Document.ok d) 0) eqn:Hok; [discriminate|].
    destruct (Document.writeConcernError d) as [w|] eqn:Hw; [|discriminate].
    injection Hfail as <- <-.
    unfold resultHandler. exact (Hdecide None Heff Hok Hw).
Qed.

(** A [MongoWriteConcernError] never lets the run go on. *)
Lemma resultHandler_MongoWriteConcernError bulkOperation batch e result :
  AnyError.isMongoWriteConcernError e = true ->
  fst (resultHandler WriteConcernFailed bulkOperation batch (Some e) result)
    <> Continue.
Proof.
  intros Hkind. unfold resultHandler. rewrite Hkind, andb_false_r.
  destruct (handleMongoWriteConcernError batch _ e) as [[args|x] merged];
    discriminate.
Qed.

(** A [MongoWriteConcernError] without [result]: nothing is merged, and
    the aggregate error has neither message nor code. *)
Lemma resultHandler_without_result bulkOperation batch e result :
  AnyError.isMongoWriteConcernError e = true ->
  Document.result (AnyError.doc e) = None ->
  resultHandler WriteConcernFailed bulkOperation batch (Some e) result =
    (Finished ExitWriteConcernError
              (Some (BulkWriteFailure
                       (MongoBulkWriteError.mk
                          (OfObject None None [])
                          (BulkWriteResult.mk
                             (BulkOperationBase.bulkResult bulkOperation)))),
               None),
     BulkOperationBase.set_bulkResult
       (BulkOperationBase.bulkResult bulkOperation) bulkOperation).
Proof.
  intros Hkind Hr. unfold resultHandler, handleMongoWriteConcernError.
  rewrite Hkind, andb_false_r, Hr. reflexivity.
Qed.

Lemma singleton_split {A : Type} (pre post : list A) (x y : A) :
  pre ++ x :: post = [y] -> pre = [] /\ x = y /\ post = [].
Proof.
  destruct pre as [|a pre]; simpl; intros H.
  - injection H as -> ->. auto.
  - injection H as _ H. symmetry in H. now apply app_cons_not_nil in H.
Qed.

End ExecutorProperties.

Lemma C8_reexecution_fails_without_dispatch_witness :
  BulkOperationBase.executed (final Sample.firstRun) = true /\
  dispatched (execute Sample.scripted Sample.keepOptions BulkWriteOptions.writeConcern
                      64 (final Sample.firstRun) None true (world Sample.firstRun))
    = [] /\
  outcome (execute Sample.scripted Sample.keepOptions BulkWriteOptions.writeConcern
                   64 (final Sample.firstRun) None true (world Sample.firstRun))
    = Called (Some (EarlyFailure MongoBatchReExecutionError), None).
Proof.
  split; [reflexivity|].
  pose proof (proj1 (C8_reexecution_fails_without_dispatch
                       Sample.scripted Sample.keepOptions
                       BulkWriteOptions.writeConcern 64)
                    (final Sample.firstRun) None true (world Sample.firstRun)
                    eq_refl) as H.
  split; [exact (proj1 H) | exact (proj1 (proj2 H))].
Defined.

(** ** Wire compression *)

(** C10: with compressor id 0 ([none]) [decompress] hands the input buffer
    unchanged to its callback; with an id below 0 or above 2 it throws
    [MongoDecompressionError] and the callback is not invoked. *)
Theorem C10_decompress_none_and_unsupported
        (CodecError : Type) (kModuleError : option CodecError)
        (uncompress inflate :
           Compression.Buffer -> option CodecError * option Compression.Buffer) :
  (forall data,
      Compression.decompress kModuleError uncompress inflate Compression.none data
        = Normal (None, Some data)) /\
  (forall compressorID data,
      compressorID < 0 \/ 2 < compressorID ->
      Compression.decompress kModuleError uncompress inflate compressorID data =
        Throw (MongoDecompressionError
                 ("Server sent message compressed using an unsupported compressor. (Received compressor ID "
                    ++ Compression.toString compressorID ++ ")")%string)).
Proof.
  split.
  - intros data. reflexivity.
  - intros compressorID data H. unfold Compression.decompress.
    replace ((compressorID <? 0) || (compressorID >? Compression.Math_max 2 []))
      with true; [reflexivity|].
    symmetry. apply orb_true_iff. simpl.
    destruct H as [H|H]; [left; now apply Z.ltb_lt | right; now apply Z.gtb_lt].
Qed.

Lemma C10_decompress_none_and_unsupported_witness :
  (3 < 0 \/ 2 < 3) /\
  Compression.decompress (CodecError := unit) None
                         (fun data => (None, Some data))
                         (fun data => (None, Some data)) 3 [] =
    Throw (MongoDecompressionError
             "Server sent message compressed using an unsupported compressor. (Received compressor ID 3)").
Proof.
  assert (H : 3 < 0 \/ 2 < 3) by (right; lia).
  split; [exact H|].
  exact (proj2 (@C10_decompress_none_and_unsupported
                  unit None (fun data => (None, Some data))
                  (fun data => (None, Some data))) 3 [] H).
Defined.

(** ** Operation-time markers *)

Lemma lexLtb_true a b : lexLtb a b = true -> lexLe a b.
Proof.
  unfold lexLtb, lexLe. intros H.
  apply orb_true_iff in H as [H|H].
  - left. now apply Z.ltb_lt.
  - apply andb_true_iff in H as [H1 H2].
    apply Z.eqb_eq in H1. apply Z.ltb_lt in H2. right. lia.
Qed.

Lemma lexLtb_false a b : lexLtb a b = false -> lexLe b a.
Proof.
  unfold lexLtb, lexLe. intros H.
  apply orb_false_iff in H as [H1 H2].
  apply Z.ltb_ge in H1.
  apply andb_false_iff in H2 as [H2|H2].
  - apply Z.eqb_neq in H2. left. lia.
  - apply Z.ltb_ge in H2. lia.
Qed.

Lemma lexLe_refl a : lexLe a a.
Proof. unfold lexLe. lia. Qed.

Lemma lexLe_trans a b c : lexLe a b -> lexLe b c -> lexLe a c.
Proof. unfold lexLe. lia. Qed.

(** *** The comparisons of [Long] *)

Ltac no_conditional x :=
  lazymatch x with
  | context [if _ then _ else _] => fail
  | _ => idtac
  end.

Ltac compare_cases :=
  repeat (cbn [negb andb orb Bool.eqb];
          match goal with
          | |- context [?x <=? ?y] =>
              no_conditional x; no_conditional y; destruct (Z.leb_spec x y)
          | |- context [?x <? ?y] =>
              no_conditional x; no_conditional y; destruct (Z.ltb_spec x y)
          | |- context [?x =? ?y] =>
              no_conditional x; no_conditional y; destruct (Z.eqb_spec x y)
          end);
  cbn [negb andb orb Bool.eqb];
  intros; try reflexivity; try discriminate; try (exfalso; lia); try lia.

Lemma pattern_range l : 0 <= Long.pattern l < 18446744073709551616.
Proof. unfold Long.pattern, Long.wrap. apply Z.mod_pos_bound. reflexivity. Qed.

Lemma wrap_cases z :
  - 18446744073709551616 <= z < 18446744073709551616 ->
  Long.wrap z = if 0 <=? z then z else z + 18446744073709551616.
Proof.
  intros Hz. unfold Long.wrap.
  change (2 ^ 64) with 18446744073709551616.
  destruct (Z.leb_spec 0 z).
  - apply Z.mod_small. lia.
  - symmetry. apply (Z.mod_unique _ _ (-1)); [left; lia | lia].
Qed.

Lemma wrap_pattern l : Long.wrap (Long.pattern l) = Long.pattern l.
Proof. unfold Long.pattern, Long.wrap. apply Z.mod_mod. discriminate. Qed.

(** [equals] is equality of the integers denoted. *)
Lemma Long_eq_exact a b : Long.eq a b = (Long.toZ a =? Long.toZ b).
Proof.
  unfold Long.eq, Long.toZ.
  pose proof (pattern_range a) as Ha. pose proof (pattern_range b) as Hb.
  change (2 ^ 63) with 9223372036854775808.
  change (2 ^ 64) with 18446744073709551616.
  generalize dependent (Long.pattern a). generalize dependent (Long.pattern b).
  intros pb Hb pa Ha.
  destruct (Long.unsigned a), (Long.unsigned b); compare_cases.
Qed.

(** [greaterThan] is the order of the integers denoted, except when a
    signed [Long] that is not negative meets an unsigned one with its top
    bit set. *)
Lemma Long_gt_exact a b :
  negb (Long.unsigned a) && (Long.pattern a <? 2 ^ 63)
  && Long.unsigned b && (2 ^ 63 <=? Long.pattern b) = false ->
  (0 <? Long.compare a b) = (Long.toZ b <? Long.toZ a).
Proof.
  unfold Long.compare, Long.isNegative, Long.eq, Long.toZ.
  replace (Long.pattern (Long.sub a b))
    with (Long.wrap (Long.pattern a - Long.pattern b))
    by (unfold Long.sub, Long.pattern at 3; simpl; unfold Long.wrap;
        now rewrite Z.mod_mod).
  replace (Long.unsigned (Long.sub a b)) with (Long.unsigned a) by reflexivity.
  pose proof (pattern_range a) as Ha. pose proof (pattern_range b) as Hb.
  rewrite wrap_cases by lia.
  change (2 ^ 63) with 9223372036854775808.
  change (2 ^ 64) with 18446744073709551616.
  generalize dependent (Long.pattern a). generalize dependent (Long.pattern b).
  intros pb Hb pa Ha.
  destruct (Long.unsigned a), (Long.unsigned b); compare_cases.
Qed.

Lemma fromNumber_signed z : Long.unsigned (Long.fromNumber z) = false.
Proof.
  unfold Long.fromNumber.
  destruct (z <=? - 2 ^ 63); [reflexivity|].
  destruct (2 ^ 63 <=? z + 1); reflexivity.
Qed.

Lemma fromNumber_pattern z :
  Long.pattern (Long.fromNumber z) =
    if z <=? - 2 ^ 63 then 2 ^ 63
    else if 2 ^ 63 <=? z + 1 then 2 ^ 63 - 1
    else if 0 <=? z then z else z + 2 ^ 64.
Proof.
  unfold Long.fromNumber.
  destruct (z <=? - 2 ^ 63) eqn:H1; [reflexivity|].
  destruct (2 ^ 63 <=? z + 1) eqn:H2; [reflexivity|].
  apply Z.leb_gt in H1, H2.
  change (2 ^ 63) with 9223372036854775808 in H1, H2.
  change (2 ^ 64) with 18446744073709551616.
  unfold Long.pattern. cbn [Long.bits].
  replace (Long.wrap (Long.wrap z)) with (Long.wrap z)
    by (unfold Long.wrap; now rewrite Z.mod_mod).
  apply wrap_cases. lia.
Qed.

(** The [Long] a component is turned into denotes the value of the
    component. *)
Lemma toZ_normalize c : Long.toZ (normalize c) = componentValue c.
Proof.
  destruct c as [z|l]; [|reflexivity].
  unfold normalize, componentValue, Long.toZ.
  rewrite fromNumber_signed, fromNumber_pattern.
  change (2 ^ 63) with 9223372036854775808.
  change (2 ^ 64) with 18446744073709551616.
  compare_cases.
Qed.

Lemma wrapsAround_normalize this other :
  wrapsAround this other = false ->
  negb (Long.unsigned (normalize this))
  && (Long.pattern (normalize this) <? 2 ^ 63)
  && Long.unsigned (normalize other)
  && (2 ^ 63 <=? Long.pattern (normalize other)) = false.
Proof.
  destruct other as [z0|o]; cbn [normalize wrapsAround].
  - intros _. rewrite fromNumber_signed, andb_false_r. reflexivity.
  - destruct (Long.unsigned o) eqn:Hu; [|intros _; now rewrite andb_false_r].
    unfold Long.toZ at 1. rewrite Hu.
    pose proof (pattern_range o) as Ho.
    destruct (2 ^ 63 <=? Long.pattern o) eqn:Htop;
      [|intros _; now rewrite andb_false_r].
    cbn [andb]. rewrite !andb_true_r.
    destruct this as [z|l]; cbn [normalize].
    + rewrite fromNumber_signed, fromNumber_pattern.
      change (2 ^ 63) with 9223372036854775808.
      compare_cases.
    + unfold Long.toZ. pose proof (pattern_range l) as Hl.
      change (2 ^ 63) with 9223372036854775808.
      change (2 ^ 64) with 18446744073709551616.
      destruct (Long.unsigned l); compare_cases.
Qed.

(** Without wrap-around the comparison chain of the source is the
    lexicographic order on (seconds, ordinal). *)
Lemma replacesPair_exact stored response :
  wrapsAround (fst response) (fst stored) = false ->
  wrapsAround (snd response) (snd stored) = false ->
  replacesPair stored response = lexLtb (pairKey stored) (pairKey response).
Proof.
  intros Hts Ht. unfold replacesPair, lexLtb, pairKey. cbn [fst snd].
  rewrite !Long_gt_exact by (apply wrapsAround_normalize; assumption).
  rewrite Long_eq_exact, !toZ_normalize.
  rewrite (Z.eqb_sym (componentValue (fst response))). reflexivity.
Qed.

Lemma lex_divmod a b :
  0 <= a -> 0 <= b ->
  lexLtb (a / 2 ^ 32, a mod 2 ^ 32) (b / 2 ^ 32, b mod 2 ^ 32) = (a <? b).
Proof.
  intros Ha Hb. unfold lexLtb. cbn [fst snd].
  change (2 ^ 32) with 4294967296.
  pose proof (Z.div_mod a 4294967296 ltac:(discriminate)) as Da.
  pose proof (Z.div_mod b 4294967296 ltac:(discriminate)) as Db.
  pose proof (Z.mod_pos_bound a 4294967296 ltac:(reflexivity)) as Ra.
  pose proof (Z.mod_pos_bound b 4294967296 ltac:(reflexivity)) as Rb.
  compare_cases.
Qed.

(** Two wire [Timestamp]s are compared as unsigned 64-bit integers, which
    is the lexicographic order on their (seconds, ordinal). *)
Lemma timestamp_exact v w :
  (0 <? Long.compare (Timestamp_asLong v) (Timestamp_asLong w))
    = lexLtb (timestampKey w) (timestampKey v).
Proof.
  rewrite Long_gt_exact by reflexivity.
  unfold timestampKey, Long.toZ, Timestamp_asLong, Long.pattern.
  cbn [Long.unsigned Long.bits].
  pose proof (pattern_range (Long.mk v true)) as Hv.
  pose proof (pattern_range (Long.mk w true)) as Hw.
  unfold Long.pattern in Hv, Hw. cbn [Long.bits] in Hv, Hw.
  rewrite lex_divmod by lia. reflexivity.
Qed.

(** *** The operation-time phase *)

Lemma set_opTime_same bulkResult :
  BulkResult.set_opTime (BulkResult.opTime bulkResult) bulkResult = bulkResult.
Proof. destruct bulkResult; reflexivity. Qed.

Lemma mergeOpTime_nextMarker bulkResult result :
  mergeOpTime bulkResult result =
    match nextMarker (BulkResult.opTime bulkResult) (responseMarker result) with
    | Normal marker => Normal (BulkResult.set_opTime marker bulkResult)
    | Throw e => Throw e
    end.
Proof.
  unfold responseMarker, mergeOpTime.
  destruct (opt_or (Document.opTime result) (Document.lastOp result)) eqn:Hguard.
  - destruct (opt_or (Document.lastOp result) (Document.opTime result))
      as [[v|ts t]|] eqn:Hm.
    + unfold nextMarker, bind, Long.greaterThan.
      destruct (BulkResult.opTime bulkResult) as [last|] eqn:Hs; [|reflexivity].
      destruct (0 <? Long.compare _ _); [reflexivity|].
      rewrite <- Hs, set_opTime_same. reflexivity.
    + unfold nextMarker, replacesPair, bind, Long.greaterThan, Long.equals.
      destruct (BulkResult.opTime bulkResult) as [[w|ts0 t0]|] eqn:Hs;
        cbn [opTime_ts opTime_t option_map fst snd]; try reflexivity.
      destruct (0 <? Long.compare (normalize ts) (normalize ts0));
        cbn [orb]; [reflexivity|].
      destruct (Long.eq (normalize ts) (normalize ts0)); cbn [andb];
        [|rewrite <- Hs, set_opTime_same; reflexivity].
      destruct (0 <? Long.compare (normalize t) (normalize t0));
        [reflexivity|].
      rewrite <- Hs, set_opTime_same. reflexivity.
    + apply opt_or_None in Hm. congruence.
  - rewrite (opt_or_None _ _ Hguard). cbn [nextMarker].
    rewrite set_opTime_same. reflexivity.
Qed.

(** * Further properties of the code *)

(** ** What a merge writes *)

Lemma mergeUpserted_fst batch result b :
  fst (mergeUpserted batch result b) =
    Z.of_nat (List.length (pushedUpserted batch result)).
Proof.
  unfold mergeUpserted, pushedUpserted.
  destruct (Document.upserted result) as [entries|v]; simpl.
  - now rewrite length_map.
  - destruct (js_truthy v); reflexivity.
Qed.

Lemma mergeUpserted_snd batch result b :
  BulkResult.upserted (snd (mergeUpserted batch result b)) =
    BulkResult.upserted b ++ pushedUpserted batch result.
Proof.
  unfold mergeUpserted, pushedUpserted.
  destruct (Document.upserted result) as [entries|v]; simpl.
  - reflexivity.
  - destruct (js_truthy v); simpl; [reflexivity | now rewrite app_nil_r].
Qed.

Lemma mergeFields_ok batch result bulkResult merged :
  mergeFields batch result bulkResult = Normal merged ->
  BulkResult.ok merged = BulkResult.ok bulkResult.
Proof.
  intros H. apply mergeFields_inv in H as (marked & _ & Hmarked & ->).
  through_phases. rewrite Hmarked. reflexivity.
Qed.

Lemma mergeFields_insertedIds batch result bulkResult merged :
  mergeFields batch result bulkResult = Normal merged ->
  BulkResult.insertedIds merged = BulkResult.insertedIds bulkResult.
Proof.
  intros H. apply mergeFields_inv in H as (marked & _ & Hmarked & ->).
  through_phases. rewrite Hmarked. reflexivity.
Qed.

Lemma mergeFields_upserted batch result bulkResult merged :
  mergeFields batch result bulkResult = Normal merged ->
  BulkResult.upserted merged =
    BulkResult.upserted bulkResult ++ pushedUpserted batch result.
Proof.
  intros H. apply mergeFields_inv in H as (marked & _ & Hmarked & ->).
  through_phases. rewrite mergeUpserted_snd. through_phases.
  rewrite Hmarked. reflexivity.
Qed.

Lemma mergeFields_nInserted batch result bulkResult merged :
  mergeFields batch result bulkResult = Normal merged ->
  BulkResult.nInserted merged =
    if isInsertBatch batch && num_truthy (Document.n result)
    then BulkResult.nInserted bulkResult + affected result
    else BulkResult.nInserted bulkResult.
Proof.
  intros H. apply mergeFields_inv in H as (marked & _ & Hmarked & ->).
  through_phases. unfold mergeInserted, num_truthy, affected.
  destruct (Document.n result) as [n|]; simpl;
    [destruct (isInsertBatch batch && negb (n =? 0))|rewrite andb_false_r];
    simpl; rewrite Hmarked; reflexivity.
Qed.

Lemma mergeFields_nRemoved batch result bulkResult merged :
  mergeFields batch result bulkResult = Normal merged ->
  BulkResult.nRemoved merged =
    if isDeleteBatch batch && num_truthy (Document.n result)
    then BulkResult.nRemoved bulkResult + affected result
    else BulkResult.nRemoved bulkResult.
Proof.
  intros H. apply mergeFields_inv in H as (marked & _ & Hmarked & ->).
  through_phases. unfold mergeRemoved, num_truthy, affected.
  destruct (Document.n result) as [n|]; simpl;
    [destruct (isDeleteBatch batch && negb (n =? 0))|rewrite andb_false_r];
    simpl; through_phases; rewrite Hmarked; reflexivity.
Qed.

Lemma mergeFields_nUpserted batch result bulkResult merged :
  mergeFields batch result bulkResult = Normal merged ->
  BulkResult.nUpserted merged =
    if isUpdateBatch batch && num_truthy (Document.n result)
    then BulkResult.nUpserted bulkResult
         + Z.of_nat (List.length (pushedUpserted batch result))
    else BulkResult.nUpserted bulkResult.
Proof.
  intros H. apply mergeFields_inv in H as (marked & _ & Hmarked & ->).
  through_phases. unfold mergeUpdated, num_truthy.
  destruct (Document.n result) as [n|]; simpl;
    [destruct (isUpdateBatch batch && negb (n =? 0)), (Document.nModified result)|
     rewrite andb_false_r];
    simpl; rewrite ?mergeUpserted_fst; through_phases; rewrite Hmarked; reflexivity.
Qed.

Lemma mergeFields_nMatched batch result bulkResult merged :
  mergeFields batch result bulkResult = Normal merged ->
  BulkResult.nMatched merged =
    if isUpdateBatch batch && num_truthy (Document.n result)
    then BulkResult.nMatched bulkResult
         + (affected result - Z.of_nat (List.length (pushedUpserted batch result)))
    else BulkResult.nMatched bulkResult.
Proof.
  intros H. apply mergeFields_inv in H as (marked & _ & Hmarked & ->).
  through_phases. unfold mergeUpdated, num_truthy, affected.
  destruct (Document.n result) as [n|]; simpl;
    [destruct (isUpdateBatch batch && negb (n =? 0)), (Document.nModified result)|
     rewrite andb_false_r];
    simpl; rewrite ?mergeUpserted_fst; through_phases; rewrite Hmarked; reflexivity.
Qed.

(** Every way a merge call can return, seen from its caller. *)
Lemma mergeBatchResults_inv batch bulkResult err result v merged :
  mergeBatchResults batch bulkResult err result = Normal (v, merged) ->
  merged = bulkResult \/
  (exists doc,
      effectiveResult err result = Some doc /\
      Document.ok doc = Some 0 /\ BulkResult.ok bulkResult = 1 /\
      merged = BulkResult.set_writeErrors
                 (BulkResult.writeErrors bulkResult ++ [topLevelWriteError batch doc])
                 (BulkResult.set_ok 0 bulkResult)) \/
  (exists doc,
      effectiveResult err result = Some doc /\
      mergeFields batch doc bulkResult = Normal merged).
Proof.
  unfold mergeBatchResults.
  destruct (effectiveResult err result) as [doc|]; [|intros [= _ <-]; now left].
  destruct (num_is (Document.ok doc) 0) eqn:Hok; simpl.
  - destruct (BulkResult.ok bulkResult =? 1) eqn:H1.
    + intros [= _ <-]. right. left. exists doc.
      unfold num_is in Hok. destruct (Document.ok doc) as [z|]; [|discriminate].
      apply Z.eqb_eq in Hok, H1. subst z. auto.
    + destruct (BulkResult.ok bulkResult =? 0).
      * intros [= _ <-]. now left.
      * unfold bind. destruct (mergeFields batch doc bulkResult) eqn:Hm;
          [|discriminate]. intros [= _ <-]. right. right. eauto.
  - unfold bind. destruct (mergeFields batch doc bulkResult) eqn:Hm;
      [|discriminate]. intros [= _ <-]. right. right. eauto.
Qed.

(** ** Invariants of the cumulative result *)

Lemma mergeBatchResults_ok_step batch bulkResult err result v merged :
  mergeBatchResults batch bulkResult err result = Normal (v, merged) ->
  BulkResult.ok merged = BulkResult.ok bulkResult \/
  (BulkResult.ok bulkResult = 1 /\ BulkResult.ok merged = 0 /\
   BulkResult.writeErrors merged <> []).
Proof.
  intros H.
  destruct (mergeBatchResults_inv _ _ _ _ H)
    as [-> | [(doc & _ & _ & Hone & ->) | (doc & _ & Hm)]].
  - now left.
  - right. repeat split; [exact Hone|]. simpl.
    intros Hnil. now apply app_eq_nil in Hnil as [_ ?].
  - left. eapply mergeFields_ok; exact Hm.
Qed.

Lemma mergeBatchResults_grows batch bulkResult err result v merged :
  mergeBatchResults batch bulkResult err result = Normal (v, merged) ->
  isPrefix (BulkResult.writeErrors bulkResult) (BulkResult.writeErrors merged) /\
  isPrefix (BulkResult.writeConcernErrors bulkResult)
           (BulkResult.writeConcernErrors merged) /\
  isPrefix (BulkResult.upserted bulkResult) (BulkResult.upserted merged) /\
  BulkResult.insertedIds merged = BulkResult.insertedIds bulkResult.
Proof.
  intros H. unfold isPrefix.
  destruct (mergeBatchResults_inv _ _ _ _ H)
    as [-> | [(doc & _ & _ & _ & ->) | (doc & _ & Hm)]].
  - repeat split; try (exists []; now rewrite app_nil_r).
  - simpl. repeat split; try (exists []; now rewrite app_nil_r). eauto.
  - rewrite (mergeFields_writeErrors _ _ _ Hm),
      (mergeFields_writeConcernErrors _ _ _ Hm),
      (mergeFields_upserted _ _ _ Hm), (mergeFields_insertedIds _ _ _ Hm).
    repeat split; eauto.
Qed.

Lemma isPrefix_trans {A : Type} (a b c : list A) :
  isPrefix a b -> isPrefix b c -> isPrefix a c.
Proof.
  intros [x ->] [y ->]. exists (x ++ y). now rewrite app_assoc.
Qed.

Lemma isPrefix_refl {A : Type} (a : list A) : isPrefix a a.
Proof. exists []. now rewrite app_nil_r. Qed.

(** X1: a cumulative result that has failed ([ok = 0]) stays failed through
    any further merge calls, whatever their batches, errors and responses. *)
Theorem X1_failed_result_stays_failed calls : forall bulkResult merged,
  BulkResult.ok bulkResult = 0 ->
  mergeCalls bulkResult calls = Normal merged ->
  BulkResult.ok merged = 0.
Proof.
  induction calls as [|[[batch err] result] rest IH]; intros bulkResult merged H0 H.
  - injection H as <-. exact H0.
  - simpl in H.
    destruct (mergeBatchResults batch bulkResult err result) as [[v step]|e] eqn:Hs;
      [|discriminate].
    apply (IH step merged); [|exact H].
    destruct (mergeBatchResults_ok_step _ _ _ _ Hs) as [Hsame | (Hone & _)];
      congruence.
Qed.

Lemma X1_failed_result_stays_failed_witness :
  BulkResult.ok Sample.afterTopLevelFailure = 0 /\
  mergeCalls Sample.afterTopLevelFailure
             [(Sample.secondInsertBatch, None, Some Sample.replyTwo)]
    = Normal (BulkResult.set_nInserted 2 Sample.afterTopLevelFailure) /\
  BulkResult.ok (BulkResult.set_nInserted 2 Sample.afterTopLevelFailure) = 0.
Proof.
  split; [reflexivity|]. split; [reflexivity|].
  exact (@X1_failed_result_stays_failed
           [(Sample.secondInsertBatch, None, Some Sample.replyTwo)]
           Sample.afterTopLevelFailure
           (BulkResult.set_nInserted 2 Sample.afterTopLevelFailure)
           eq_refl eq_refl).
Defined.

(** X2: whatever merge calls are applied to the result the constructor
    creates, [ok] is 1 or 0, and a result with [ok = 0] holds at least one
    write error. *)
Theorem X2_failed_result_has_write_error calls : forall merged,
  mergeCalls BulkResult.initial calls = Normal merged ->
  BulkResult.ok merged = 1 \/
  (BulkResult.ok merged = 0 /\ BulkResult.writeErrors merged <> []).
Proof.
  assert (Hgen : forall calls bulkResult merged,
             (BulkResult.ok bulkResult = 1 \/
              (BulkResult.ok bulkResult = 0 /\
               BulkResult.writeErrors bulkResult <> [])) ->
             mergeCalls bulkResult calls = Normal merged ->
             BulkResult.ok merged = 1 \/
             (BulkResult.ok merged = 0 /\ BulkResult.writeErrors merged <> [])).
  { clear calls. induction calls as [|[[batch err] result] rest IH];
      intros bulkResult merged Hinv H.
    - injection H as <-. exact Hinv.
    - simpl in H.
      destruct (mergeBatchResults batch bulkResult err result) as [[v step]|e] eqn:Hs;
        [|discriminate].
      apply (IH step merged); [|exact H].
      destruct (mergeBatchResults_ok_step _ _ _ _ Hs) as [Hsame | (_ & Hzero & Hne)].
      + destruct (mergeBatchResults_grows _ _ _ _ Hs) as ([extra Hwe] & _).
        rewrite Hsame. destruct Hinv as [H1 | [H0 Hne]]; [now left|].
        right. split; [exact H0|]. rewrite Hwe. intros Hnil.
        apply app_eq_nil in Hnil as [? _]. contradiction.
      + right. split; assumption. }
  intros merged. apply Hgen. left. reflexivity.
Qed.

Lemma X2_failed_result_has_write_error_witness :
  exists merged,
    mergeCalls BulkResult.initial Sample.threeCalls = Normal merged /\
    (BulkResult.ok merged = 1 \/
     (BulkResult.ok merged = 0 /\ BulkResult.writeErrors merged <> [])).
Proof.
  eexists. split; [reflexivity|].
  exact (@X2_failed_result_has_write_error Sample.threeCalls _ eq_refl).
Defined.

(** X3: merge calls only append to the record-keeping lists: the write
    errors, write-concern errors and upserted ids present before a sequence
    of merge calls are an initial segment of those present after it, and
    [insertedIds] is never written. *)
Theorem X3_records_only_grow calls : forall bulkResult merged,
  mergeCalls bulkResult calls = Normal merged ->
  isPrefix (BulkResult.writeErrors bulkResult) (BulkResult.writeErrors merged) /\
  isPrefix (BulkResult.writeConcernErrors bulkResult)
           (BulkResult.writeConcernErrors merged) /\
  isPrefix (BulkResult.upserted bulkResult) (BulkResult.upserted merged) /\
  BulkResult.insertedIds merged = BulkResult.insertedIds bulkResult.
Proof.
  induction calls as [|[[batch err] result] rest IH]; intros bulkResult merged H.
  - injection H as <-. repeat split; apply isPrefix_refl.
  - simpl in H.
    destruct (mergeBatchResults batch bulkResult err result) as [[v step]|e] eqn:Hs;
      [|discriminate].
    destruct (mergeBatchResults_grows _ _ _ _ Hs) as (A1 & A2 & A3 & A4).
    destruct (IH step merged H) as (B1 & B2 & B3 & B4).
    repeat split; try (eapply isPrefix_trans; eassumption). congruence.
Qed.

Lemma X3_records_only_grow_witness :
  exists merged,
    mergeCalls Sample.afterTopLevelFailure Sample.threeCalls = Normal merged /\
    isPrefix (BulkResult.writeErrors Sample.afterTopLevelFailure)
             (BulkResult.writeErrors merged) /\
    BulkResult.insertedIds merged = BulkResult.insertedIds Sample.afterTopLevelFailure.
Proof.
  eexists. split; [reflexivity|].
  pose proof (@X3_records_only_grow Sample.threeCalls
                Sample.afterTopLevelFailure _ eq_refl) as H.
  split; [exact (proj1 H) | exact (proj2 (proj2 (proj2 H)))].
Defined.

(** ** Counters *)

(** X4: a merge call touches only the counters of its batch's kind: for an
    Insert batch [nRemoved], [nMatched], [nModified] and [nUpserted] are
    left as they were, for a Delete batch [nInserted], [nMatched],
    [nModified] and [nUpserted], and for an Update batch [nInserted] and
    [nRemoved]. *)
Theorem X4_kinds_keep_their_counters batch bulkResult err result v merged :
  mergeBatchResults batch bulkResult err result = Normal (v, merged) ->
  match Batch.batchType batch with
  | INSERT =>
      BulkResult.nRemoved merged = BulkResult.nRemoved bulkResult /\
      BulkResult.nMatched merged = BulkResult.nMatched bulkResult /\
      BulkResult.nModified merged = BulkResult.nModified bulkResult /\
      BulkResult.nUpserted merged = BulkResult.nUpserted bulkResult
  | DELETE =>
      BulkResult.nInserted merged = BulkResult.nInserted bulkResult /\
      BulkResult.nMatched merged = BulkResult.nMatched bulkResult /\
      BulkResult.nModified merged = BulkResult.nModified bulkResult /\
      BulkResult.nUpserted merged = BulkResult.nUpserted bulkResult
  | UPDATE =>
      BulkResult.nInserted merged = BulkResult.nInserted bulkResult /\
      BulkResult.nRemoved merged = BulkResult.nRemoved bulkResult
  end.
Proof.
  intros H.
  destruct (mergeBatchResults_inv _ _ _ _ H)
    as [-> | [(doc & _ & _ & _ & ->) | (doc & _ & Hm)]].
  - destruct (Batch.batchType batch); repeat split.
  - destruct (Batch.batchType batch); repeat split.
  - rewrite (mergeFields_nInserted _ _ _ Hm), (mergeFields_nRemoved _ _ _ Hm),
      (mergeFields_nMatched _ _ _ Hm), (mergeFields_nModified _ _ _ Hm),
      (mergeFields_nUpserted _ _ _ Hm).
    unfold isInsertBatch, isDeleteBatch, isUpdateBatch.
    destruct (Batch.batchType batch); simpl; repeat split.
Qed.

Lemma X4_kinds_keep_their_counters_witness :
  exists merged,
    mergeBatchResults Sample.deleteBatch Sample.afterUpdates None
                      (Some Sample.replyWithUpsert) = Normal (JUndefined, merged) /\
    BulkResult.nInserted merged = BulkResult.nInserted Sample.afterUpdates /\
    BulkResult.nMatched merged = BulkResult.nMatched Sample.afterUpdates /\
    BulkResult.nModified merged = BulkResult.nModified Sample.afterUpdates /\
    BulkResult.nUpserted merged = BulkResult.nUpserted Sample.afterUpdates.
Proof.
  eexists. split; [reflexivity|].
  exact (@X4_kinds_keep_their_counters
           Sample.deleteBatch Sample.afterUpdates None
           (Some Sample.replyWithUpsert) JUndefined _ eq_refl).
Defined.

(** One plain reply merged into a result whose stored marker is not a wire
    [Timestamp]. *)
Lemma mergeBatchResults_plain batch bulkResult reply :
  plainReply reply = true ->
  (forall v, BulkResult.opTime bulkResult <> Some (OTTimestamp v)) ->
  exists merged,
    mergeBatchResults batch bulkResult None (Some reply) = Normal (JUndefined, merged) /\
    mergeFields batch reply bulkResult = Normal merged /\
    (forall v, BulkResult.opTime merged <> Some (OTTimestamp v)).
Proof.
  unfold plainReply. intros Hplain Hstored.
  destruct (Document.result reply) eqn:Hres; [discriminate|].
  apply andb_true_iff in Hplain as [Hok Hmarker].
  apply negb_true_iff in Hok.
  erewrite mergeBatchResults_merged;
    [|unfold effectiveResult; rewrite Hres; reflexivity|exact Hok].
  pose proof (mergeFields_total batch reply bulkResult) as Htot.
  destruct (mergeFields batch reply bulkResult) as [merged|e] eqn:Hm.
  - exists merged. split; [reflexivity|]. split; [reflexivity|].
    destruct (mergeFields_opTime _ _ _ Hm) as (marked & Hmarked & ->).
    destruct (responseMarker reply) as [[w|ts t]|] eqn:Hrm; [discriminate| |].
    + rewrite mergeOpTime_nextMarker, Hrm in Hmarked. cbn [nextMarker] in Hmarked.
      destruct (BulkResult.opTime bulkResult) as [[w|ts0 t0]|] eqn:Hs;
        [now elim (Hstored w) | |]; injection Hmarked as <-; simpl.
      * destruct (replacesPair _ _); discriminate.
      * discriminate.
    + unfold mergeOpTime in Hmarked. unfold responseMarker in Hrm.
      rewrite (opt_or_None _ _ Hrm) in Hmarked. injection Hmarked as <-.
      exact Hstored.
  - destruct Htot as [_ Hclash]. unfold markersClash in Hclash.
    destruct (BulkResult.opTime bulkResult) as [[w|ts0 t0]|];
      [now elim (Hstored w) | discriminate | discriminate].
Qed.

(** X5: when a sequence of plain replies (not top-level failures, not
    wrapped, no wire [Timestamp] marker) is merged, the counters account for
    every reply: [nInserted] grows by the sum of the affected-counts of the
    Insert batches, [nRemoved] by that of the Delete batches, and
    [nMatched + nUpserted] by that of the Update batches. *)
Theorem X5_counts_add_up replies : forall bulkResult,
  (forall v, BulkResult.opTime bulkResult <> Some (OTTimestamp v)) ->
  forallb (fun r => plainReply (snd r)) replies = true ->
  exists merged,
    mergeAll bulkResult replies = Normal merged /\
    BulkResult.nInserted merged =
      BulkResult.nInserted bulkResult + affectedOfKind INSERT replies /\
    BulkResult.nRemoved merged =
      BulkResult.nRemoved bulkResult + affectedOfKind DELETE replies /\
    BulkResult.nMatched merged + BulkResult.nUpserted merged =
      BulkResult.nMatched bulkResult + BulkResult.nUpserted bulkResult
      + affectedOfKind UPDATE replies.
Proof.
  induction replies as [|[batch reply] rest IH]; intros bulkResult Hstored Hall.
  - exists bulkResult. simpl. repeat split; lia.
  - simpl in Hall. apply andb_true_iff in Hall as [Hplain Hrest].
    destruct (mergeBatchResults_plain batch bulkResult reply Hplain Hstored)
      as (step & Hstep & Hfields & Hstored').
    destruct (IH step Hstored' Hrest) as (merged & Hmerged & Hi & Hr & Hu).
    exists merged. simpl. rewrite Hstep. split; [exact Hmerged|].
    rewrite Hi, Hr, Hu.
    rewrite (mergeFields_nInserted _ _ _ Hfields), (mergeFields_nRemoved _ _ _ Hfields),
      (mergeFields_nMatched _ _ _ Hfields), (mergeFields_nUpserted _ _ _ Hfields).
    unfold affected, isInsertBatch, isDeleteBatch, isUpdateBatch, num_truthy.
    destruct (Batch.batchType batch), (Document.n reply) as [k|]; simpl;
      try (destruct (k =? 0) eqn:Hk; simpl; [apply Z.eqb_eq in Hk|]);
      repeat split; lia.
Qed.

Lemma X5_counts_add_up_witness :
  (forall v, BulkResult.opTime BulkResult.initial <> Some (OTTimestamp v)) /\
  forallb (fun r => plainReply (snd r)) Sample.mixedReplies = true /\
  exists merged,
    mergeAll BulkResult.initial Sample.mixedReplies = Normal merged /\
    BulkResult.nInserted merged = 0 + 2 /\
    BulkResult.nRemoved merged = 0 + 1 /\
    BulkResult.nMatched merged + BulkResult.nUpserted merged = 0 + 0 + 2.
Proof.
  assert (H : forall v, BulkResult.opTime BulkResult.initial <> Some (OTTimestamp v))
    by (intros v; discriminate).
  split; [exact H|]. split; [reflexivity|].
  exact (@X5_counts_add_up Sample.mixedReplies BulkResult.initial H eq_refl).
Defined.

(** ** The upserted ids *)

Lemma mergeBatchResults_upsert_step batch bulkResult err result v merged :
  mergeBatchResults batch bulkResult err result = Normal (v, merged) ->
  exists added : list IndexedId.t,
    BulkResult.upserted merged = BulkResult.upserted bulkResult ++ added /\
    BulkResult.nUpserted bulkResult <= BulkResult.nUpserted merged /\
    BulkResult.nUpserted merged
      <= BulkResult.nUpserted bulkResult + Z.of_nat (List.length added).
Proof.
  intros H.
  destruct (mergeBatchResults_inv _ _ _ _ H)
    as [-> | [(doc & _ & _ & _ & ->) | (doc & _ & Hm)]].
  - exists []. rewrite app_nil_r. simpl. repeat split; lia.
  - exists []. simpl. rewrite app_nil_r. repeat split; lia.
  - exists (pushedUpserted batch doc).
    rewrite (mergeFields_upserted _ _ _ Hm), (mergeFields_nUpserted _ _ _ Hm).
    split; [reflexivity|].
    destruct (isUpdateBatch batch && num_truthy (Document.n doc)); lia.
Qed.

(** X6: whatever merge calls are applied to the result the constructor
    creates, [nUpserted] never exceeds the number of upserted ids recorded
    (what the [upsertedCount] getter reports), and it is never negative. *)
Theorem X6_nUpserted_at_most_upsertedCount calls : forall merged,
  mergeCalls BulkResult.initial calls = Normal merged ->
  0 <= BulkResult.nUpserted merged <= upsertedCount (BulkWriteResult.mk merged).
Proof.
  assert (Hgen : forall calls bulkResult merged,
             0 <= BulkResult.nUpserted bulkResult
               <= Z.of_nat (List.length (BulkResult.upserted bulkResult)) ->
             mergeCalls bulkResult calls = Normal merged ->
             0 <= BulkResult.nUpserted merged
               <= Z.of_nat (List.length (BulkResult.upserted merged))).
  { clear calls. induction calls as [|[[batch err] result] rest IH];
      intros bulkResult merged Hinv H.
    - injection H as <-. exact Hinv.
    - simpl in H.
      destruct (mergeBatchResults batch bulkResult err result) as [[v step]|e] eqn:Hs;
        [|discriminate].
      apply (IH step merged); [|exact H].
      destruct (mergeBatchResults_upsert_step _ _ _ _ Hs) as (added & Hu & Hlo & Hhi).
      rewrite Hu, length_app, Nat2Z.inj_add. lia. }
  intros merged H. unfold upsertedCount. simpl.
  apply (Hgen calls BulkResult.initial merged); [simpl; lia | exact H].
Qed.

Lemma X6_nUpserted_at_most_upsertedCount_witness :
  exists merged,
    mergeCalls BulkResult.initial
               [(Sample.deleteBatch, None, Some Sample.replyWithUpsert)]
      = Normal merged /\
    0 <= BulkResult.nUpserted merged <= upsertedCount (BulkWriteResult.mk merged).
Proof.
  eexists. split; [reflexivity|].
  exact (@X6_nUpserted_at_most_upsertedCount
           [(Sample.deleteBatch, None, Some Sample.replyWithUpsert)] _ eq_refl).
Defined.

Lemma find_snoc {A : Type} (p : A -> bool) (l : list A) (x : A) :
  List.find p (l ++ [x]) =
    match List.find p l with
    | Some y => Some y
    | None => if p x then Some x else None
    end.
Proof.
  induction l as [|a l IH]; simpl; [reflexivity|].
  destruct (p a); [reflexivity | exact IH].
Qed.

Lemma fold_set_last_wins docs : forall obj k,
  fold_left (fun obj doc =>
               IndexedObject_set obj (IndexedId.index doc) (IndexedId._id doc))
            docs obj k =
    match List.find (fun d => IndexedId.index d =? k) (rev docs) with
    | Some d => Some (IndexedId._id d)
    | None => obj k
    end.
Proof.
  induction docs as [|d docs IH]; intros obj k; simpl; [reflexivity|].
  rewrite IH, find_snoc.
  destruct (List.find _ (rev docs)); [reflexivity|].
  unfold IndexedObject_set. rewrite (Z.eqb_sym k).
  destruct (IndexedId.index d =? k); reflexivity.
Qed.

(** X7: the [upsertedIds] and [insertedIds] views map an operation index to
    the id of the last recorded entry that carries this index, and have no
    entry for an index that no recorded entry carries. *)
Theorem X7_id_views_last_entry_wins (r : BulkWriteResult.t) (k : Z) :
  upsertedIds r k =
    option_map IndexedId._id
      (List.find (fun d => IndexedId.index d =? k)
            (rev (BulkResult.upserted (BulkWriteResult.result r)))) /\
  insertedIds r k =
    option_map IndexedId._id
      (List.find (fun d => IndexedId.index d =? k)
            (rev (BulkResult.insertedIds (BulkWriteResult.result r)))).
Proof.
  unfold upsertedIds, insertedIds, collectIds.
  rewrite !fold_set_last_wins. split.
  - destruct (List.find _ _); reflexivity.
  - destruct (List.find _ _); reflexivity.
Qed.

Lemma find_unique {A : Type} (f : A -> Z) (l : list A) (e : A) :
  NoDup (map f l) -> In e l -> List.find (fun d => f d =? f e) l = Some e.
Proof.
  induction l as [|a l IH]; simpl; intros Hnd Hin; [contradiction|].
  inversion Hnd as [|? ? Hnotin Hnd']; subst.
  destruct Hin as [-> | Hin].
  - now rewrite Z.eqb_refl.
  - destruct (f a =? f e) eqn:Heq.
    + apply Z.eqb_eq in Heq. exfalso. apply Hnotin. rewrite Heq.
      now apply in_map.
    + now apply IH.
Qed.

Lemma NoDup_map_shift (c : Z) (l : list Z) :
  NoDup l -> NoDup (map (fun i => i + c) l).
Proof.
  induction 1 as [|a l Hnotin Hnd IH]; simpl; constructor; [|exact IH].
  intros Hin. apply in_map_iff in Hin as (b & Hb & Hin).
  assert (b = a) by lia. subst b. contradiction.
Qed.

(** X8: after a response with an array of upserted ids whose batch-local
    indexes are distinct has been merged, looking up
    [originalZeroIndex + i] in [upsertedIds] gives the id the server
    reported for local index [i], whatever was recorded before. *)
Theorem X8_upserted_ids_by_caller_index batch bulkResult err result doc entries :
  effectiveResult err result = Some doc ->
  Document.ok doc <> Some 0 ->
  Document.upserted doc = UpsertedArray entries ->
  NoDup (map IndexedId.index entries) ->
  markersClash (BulkResult.opTime bulkResult) doc = false ->
  exists merged,
    mergeBatchResults batch bulkResult err result = Normal (JUndefined, merged) /\
    forall e,
      In e entries ->
      upsertedIds (BulkWriteResult.mk merged)
                  (IndexedId.index e + Batch.originalZeroIndex batch)
        = Some (IndexedId._id e).
Proof.
  intros Heff Hok Hups Hnd Hclash.
  erewrite mergeBatchResults_merged by (try exact Heff; now apply num_is_false).
  pose proof (mergeFields_total batch doc bulkResult) as Htot.
  destruct (mergeFields batch doc bulkResult) as [merged|x] eqn:Hm;
    [|destruct Htot; congruence].
  exists merged. split; [reflexivity|].
  intros e Hin.
  destruct (X7_id_views_last_entry_wins
              (BulkWriteResult.mk merged)
              (IndexedId.index e + Batch.originalZeroIndex batch)) as [-> _].
  simpl. rewrite (mergeFields_upserted _ _ _ Hm).
  unfold pushedUpserted. rewrite Hups, rev_app_distr.
  assert (Hfind :
            List.find (fun d => IndexedId.index d
                           =? IndexedId.index e + Batch.originalZeroIndex batch)
                 (rev (map (remapUpserted batch) entries))
            = Some (remapUpserted batch e)).
  { apply (find_unique IndexedId.index (rev (map (remapUpserted batch) entries))
                       (remapUpserted batch e)).
    - rewrite map_rev, map_map. simpl.
      apply NoDup_rev.
      rewrite <- (map_map IndexedId.index
                          (fun i => i + Batch.originalZeroIndex batch)).
      now apply NoDup_map_shift.
    - apply in_rev. rewrite rev_involutive. now apply in_map. }
  assert (Happ : forall (p : IndexedId.t -> bool) l1 l2 y,
             List.find p l1 = Some y -> List.find p (l1 ++ l2) = Some y).
  { intros p l1 l2 y. induction l1 as [|a l1 IH]; simpl; [discriminate|].
    destruct (p a); [auto | exact IH]. }
  rewrite (Happ _ _ _ _ Hfind). reflexivity.
Qed.

Lemma X8_upserted_ids_by_caller_index_witness :
  effectiveResult None (Some Sample.replyWithUpsert) = Some Sample.replyWithUpsert /\
  Document.ok Sample.replyWithUpsert <> Some 0 /\
  Document.upserted Sample.replyWithUpsert
    = UpsertedArray [IndexedId.mk 0 (JNum 7)] /\
  NoDup (map IndexedId.index [IndexedId.mk 0 (JNum 7)]) /\
  markersClash (BulkResult.opTime Sample.afterUpdates) Sample.replyWithUpsert = false /\
  exists merged,
    mergeBatchResults Sample.updateBatch Sample.afterUpdates None
                      (Some Sample.replyWithUpsert) = Normal (JUndefined, merged) /\
    upsertedIds (BulkWriteResult.mk merged) (0 + 2) = Some (JNum 7).
Proof.
  assert (Hok : Document.ok Sample.replyWithUpsert <> Some 0) by (simpl; discriminate).
  assert (Hnd : NoDup (map IndexedId.index [IndexedId.mk 0 (JNum 7)]))
    by (simpl; constructor; [intros [] | constructor]).
  split; [reflexivity|]. split; [exact Hok|]. split; [reflexivity|].
  split; [exact Hnd|]. split; [reflexivity|].
  destruct (@X8_upserted_ids_by_caller_index
              Sample.updateBatch Sample.afterUpdates None
              (Some Sample.replyWithUpsert) Sample.replyWithUpsert
              [IndexedId.mk 0 (JNum 7)] eq_refl Hok eq_refl Hnd eq_refl)
    as (merged & Hm & Hlookup).
  exists merged. split; [exact Hm|].
  exact (Hlookup (IndexedId.mk 0 (JNum 7)) (or_introl eq_refl)).
Defined.

(** ** The executor's log *)

Section ExecutorLog.

Variable World : Type.
Variable executeOperation :
  World -> BatchType -> string -> list JsValue -> BulkWriteOptions.t ->
  DispatchOutcome * World.
Variable resolveOptions :
  BulkOperationBase.t -> BulkWriteOptions.t -> BulkWriteOptions.t.
Variable WriteConcern_fromOptions : BulkWriteOptions.t -> option JsValue.
Variable WriteConcernFailed : Z.

Local Abbreviation queueRun :=
  (executeCommands_queue executeOperation resolveOptions WriteConcernFailed).
Local Abbreviation commandsRun :=
  (executeCommands executeOperation resolveOptions WriteConcernFailed).
Local Abbreviation executeRun :=
  (execute executeOperation resolveOptions WriteConcern_fromOptions
           WriteConcernFailed).

(** The result handler writes nothing but the cumulative result. *)
Lemma resultHandler_frame bulkOperation batch err result :
  snd (resultHandler WriteConcernFailed bulkOperation batch err result) =
    BulkOperationBase.set_bulkResult
      (BulkOperationBase.bulkResult
         (snd (resultHandler WriteConcernFailed bulkOperation batch err result)))
      bulkOperation.
Proof.
  assert (Hself : bulkOperation =
                    BulkOperationBase.set_bulkResult
                      (BulkOperationBase.bulkResult bulkOperation) bulkOperation)
    by (destruct bulkOperation as [o [] i]; reflexivity).
  assert (Hmerge :
            snd (mergeAndDecide WriteConcernFailed bulkOperation batch err result) =
              BulkOperationBase.set_bulkResult
                (BulkOperationBase.bulkResult
                   (snd (mergeAndDecide WriteConcernFailed bulkOperation batch
                                        err result)))
                bulkOperation).
  { rewrite mergeAndDecide_unfold.
    destruct (mergeBatchResults _ _ _ _) as [[v merged]|x]; simpl;
      [reflexivity | exact Hself]. }
  unfold resultHandler.
  destruct err as [e|]; [|exact Hmerge].
  destruct (AnyError.hasMessage e && negb (AnyError.isMongoWriteConcernError e));
    [exact Hself|].
  destruct (AnyError.isMongoWriteConcernError e); [|exact Hmerge].
  destruct (handleMongoWriteConcernError batch _ e) as [[args|x] b]; reflexivity.
Qed.

Lemma resultHandler_batches bulkOperation batch err result :
  BulkOperationBase.batches
    (snd (resultHandler WriteConcernFailed bulkOperation batch err result)) =
    BulkOperationBase.batches bulkOperation.
Proof. rewrite resultHandler_frame. reflexivity. Qed.

Lemma executeCommands_queue_log queue : forall bulkOperation options w,
  BulkOperationBase.batches bulkOperation = queue ->
  queue = map batch (dispatched (queueRun queue bulkOperation options w))
            ++ BulkOperationBase.batches
                 (final (queueRun queue bulkOperation options w)).
Proof.
  induction queue as [|b rest IH]; intros bulkOperation options w Hq; simpl.
  - now rewrite Hq.
  - destruct (executeOperation _ _ _ _ _) as [[err result|err] w'].
    + pose proof (resultHandler_batches
                    (BulkOperationBase.set_batches rest bulkOperation)
                    b err result) as Hb.
      destruct (resultHandler _ _ _ _ _) as [[exit args| |x] handled];
        simpl in *; try (rewrite Hb; reflexivity).
      f_equal. apply IH. exact Hb.
    + destruct (mergeBatchResults _ _ _ _) as [[v merged]|x]; reflexivity.
Qed.

(** X9: the executor dispatches the queued batches in queue order, each at
    most once, and leaves the others queued: the queue it starts from is
    the list of dispatched batches followed by the queue it ends with. *)
Theorem X9_dispatch_follows_queue bulkOperation options w :
  BulkOperationBase.batches bulkOperation =
    map batch (dispatched (commandsRun bulkOperation options w))
      ++ BulkOperationBase.batches (final (commandsRun bulkOperation options w)).
Proof.
  unfold executeCommands. now apply executeCommands_queue_log.
Qed.

Lemma handleWriteError_None bulkOperation writeResult :
  handleWriteError WriteConcernFailed bulkOperation writeResult = None ->
  BulkResult.writeErrors (BulkOperationBase.bulkResult bulkOperation) = [] /\
  BulkResult.writeConcernErrors (BulkWriteResult.result writeResult) = [].
Proof.
  unfold handleWriteError, getWriteConcernError.
  destruct (BulkResult.writeErrors (BulkOperationBase.bulkResult bulkOperation));
    [|discriminate].
  destruct (BulkResult.writeConcernErrors (BulkWriteResult.result writeResult))
    as [|e [|e' l]]; [auto | discriminate | discriminate].
Qed.

Lemma handleWriteError_Some bulkOperation writeResult args :
  handleWriteError WriteConcernFailed bulkOperation writeResult = Some args ->
  exists failure,
    args = (Some (BulkWriteFailure failure), None) /\
    MongoBulkWriteError.resultArgument failure = writeResult /\
    forall x, MongoBulkWriteError.error failure <> OfError x.
Proof.
  unfold handleWriteError.
  destruct (BulkResult.writeErrors (BulkOperationBase.bulkResult bulkOperation)).
  - destruct (getWriteConcernError WriteConcernFailed writeResult);
      [|discriminate].
    intros [= <-]. eexists. split; [reflexivity|]. split; [reflexivity|].
    discriminate.
  - intros [= <-]. eexists. split; [reflexivity|]. split; [reflexivity|].
    discriminate.
Qed.

(** What the result handler leaves behind when it lets the run go on. *)
Lemma resultHandler_Continue bulkOperation b err result handled :
  resultHandler WriteConcernFailed bulkOperation b err result = (Continue, handled) ->
  BulkResult.writeErrors (BulkOperationBase.bulkResult handled) = [] /\
  BulkResult.writeConcernErrors (BulkOperationBase.bulkResult handled) = [].
Proof.
  assert (Hmerge :
            mergeAndDecide WriteConcernFailed bulkOperation b err result
              = (Continue, handled) ->
            BulkResult.writeErrors (BulkOperationBase.bulkResult handled) = [] /\
            BulkResult.writeConcernErrors (BulkOperationBase.bulkResult handled) = []).
  { rewrite mergeAndDecide_unfold.
    destruct (mergeBatchResults _ _ _ _) as [[v merged]|x]; [|discriminate].
    cbv zeta.
    destruct (handleWriteError _ _ _) eqn:Hh; [discriminate|].
    intros [= <-]. apply handleWriteError_None in Hh. exact Hh. }
  unfold resultHandler.
  destruct err as [e|]; [|exact Hmerge].
  destruct (AnyError.hasMessage e && negb (AnyError.isMongoWriteConcernError e));
    [discriminate|].
  destruct (AnyError.isMongoWriteConcernError e); [|exact Hmerge].
  destruct (handleMongoWriteConcernError b _ e) as [[args|x] m]; discriminate.
Qed.

(** What the callback receives when the result handler ends the run. *)
Lemma resultHandler_Finished bulkOperation b err result exit args handled :
  resultHandler WriteConcernFailed bulkOperation b err result
    = (Finished exit args, handled) ->
  exists failure,
    args = (Some (BulkWriteFailure failure), None) /\
    MongoBulkWriteError.resultArgument failure =
      BulkWriteResult.mk (BulkOperationBase.bulkResult handled) /\
    forall x,
      MongoBulkWriteError.error failure = OfError x ->
      AnyError.hasMessage x = true /\ AnyError.isMongoWriteConcernError x = false.
Proof.
  assert (Hmerge :
            mergeAndDecide WriteConcernFailed bulkOperation b err result
              = (Finished exit args, handled) ->
            exists failure,
              args = (Some (BulkWriteFailure failure), None) /\
              MongoBulkWriteError.resultArgument failure =
                BulkWriteResult.mk (BulkOperationBase.bulkResult handled) /\
              forall x,
                MongoBulkWriteError.error failure = OfError x ->
                AnyError.hasMessage x = true /\
                AnyError.isMongoWriteConcernError x = false).
  { rewrite mergeAndDecide_unfold.
    destruct (mergeBatchResults _ _ _ _) as [[v merged]|x]; [|discriminate].
    cbv zeta.
    destruct (handleWriteError _ _ _) eqn:Hh; [|discriminate].
    intros [= _ <- <-]. apply handleWriteError_Some in Hh.
    destruct Hh as (failure & Hargs & Hres & Hsource).
    exists failure. split; [exact Hargs|]. split; [exact Hres|].
    intros x Hx. now elim (Hsource x). }
  unfold resultHandler.
  destruct err as [e|]; [|exact Hmerge].
  destruct (AnyError.hasMessage e && negb (AnyError.isMongoWriteConcernError e))
    eqn:Hdriver.
  { intros [= _ <- <-]. eexists. split; [reflexivity|]. split; [reflexivity|].
    cbn [MongoBulkWriteError.error]. intros x [= <-].
    apply andb_prop in Hdriver as [Hmsg Hkind].
    apply negb_true_iff in Hkind. split; assumption. }
  destruct (AnyError.isMongoWriteConcernError e); [|exact Hmerge].
  unfold handleMongoWriteConcernError.
  destruct (mergeBatchResults b _ None _) as [[v merged]|x]; [|discriminate].
  destruct (Document.result (AnyError.doc e)) as [r|].
  - destruct (Document.writeConcernError r); [|discriminate].
    intros [= _ <- <-]. eexists. split; [reflexivity|]. split; [reflexivity|].
    discriminate.
  - intros [= _ <- <-]. eexists. split; [reflexivity|]. split; [reflexivity|].
    discriminate.
Qed.

Lemma executeCommands_queue_success queue : forall bulkOperation options w r,
  outcome (queueRun queue bulkOperation options w) = Called (None, Some r) ->
  map batch (dispatched (queueRun queue bulkOperation options w)) = queue /\
  r = BulkWriteResult.mk
        (BulkOperationBase.bulkResult (final (queueRun queue bulkOperation options w))) /\
  (queue <> [] ->
   BulkResult.writeErrors
     (BulkOperationBase.bulkResult (final (queueRun queue bulkOperation options w)))
     = [] /\
   BulkResult.writeConcernErrors
     (BulkOperationBase.bulkResult (final (queueRun queue bulkOperation options w)))
     = []).
Proof.
  induction queue as [|b rest IH]; intros bulkOperation options w r; simpl.
  - intros [= <-]. split; [reflexivity|]. split; [reflexivity|].
    intros Hne. now elim Hne.
  - destruct (executeOperation _ _ _ _ _) as [[err result|err] w'].
    + destruct (resultHandler _ _ _ _ _) as [[exit args| |x] handled] eqn:Hr;
        simpl.
      * intros [= ->].
        apply resultHandler_Finished in Hr as (failure & Hargs & _).
        discriminate Hargs.
      * intros Hout. destruct (IH handled options w' r Hout) as (Hlog & Hres & Hclean).
        split; [now f_equal|]. split; [exact Hres|]. intros _.
        destruct rest as [|b2 rest2]; [|apply Hclean; discriminate].
        simpl. eapply resultHandler_Continue. exact Hr.
      * discriminate.
    + destruct (mergeBatchResults _ _ _ _) as [[v merged]|x]; simpl; discriminate.
Qed.

(** X10: when the run ends with a result and no error, every queued batch
    has been dispatched, in queue order, nothing is left in the queue, the
    result handed over wraps the final cumulative result, and, if anything
    was dispatched, that result holds neither a write error nor a
    write-concern error. *)
Theorem X10_success_means_all_dispatched bulkOperation options w r :
  outcome (commandsRun bulkOperation options w) = Called (None, Some r) ->
  map batch (dispatched (commandsRun bulkOperation options w))
    = BulkOperationBase.batches bulkOperation /\
  BulkOperationBase.batches (final (commandsRun bulkOperation options w)) = [] /\
  r = BulkWriteResult.mk
        (BulkOperationBase.bulkResult (final (commandsRun bulkOperation options w))) /\
  (dispatched (commandsRun bulkOperation options w) <> [] ->
   BulkResult.writeErrors
     (BulkOperationBase.bulkResult (final (commandsRun bulkOperation options w))) = [] /\
   BulkResult.writeConcernErrors
     (BulkOperationBase.bulkResult (final (commandsRun bulkOperation options w))) = []).
Proof.
  intros Hout.
  pose proof (X9_dispatch_follows_queue bulkOperation options w) as Hlog.
  unfold executeCommands in *.
  destruct (executeCommands_queue_success _ _ _ _ Hout) as (Hall & Hr & Hclean).
  split; [exact Hall|]. split.
  - rewrite Hall in Hlog.
    rewrite <- (app_nil_r (BulkOperationBase.batches bulkOperation)) in Hlog at 1.
    apply app_inv_head in Hlog. now symmetry.
  - split; [exact Hr|]. intros Hne. apply Hclean.
    intros Hq. apply Hne.
    pose proof (eq_trans Hall Hq) as Hnil.
    apply map_eq_nil in Hnil. exact Hnil.
Qed.

Lemma executeCommands_queue_failure queue : forall bulkOperation options w e r,
  outcome (queueRun queue bulkOperation options w) = Called (Some e, r) ->
  r = None /\
  exists failure,
    e = BulkWriteFailure failure /\
    MongoBulkWriteError.resultArgument failure =
      BulkWriteResult.mk
        (BulkOperationBase.bulkResult (final (queueRun queue bulkOperation options w)))
    /\
    forall x,
      MongoBulkWriteError.error failure = OfError x ->
      AnyError.hasMessage x = true /\ AnyError.isMongoWriteConcernError x = false.
Proof.
  induction queue as [|b rest IH]; intros bulkOperation options w e r; simpl.
  - discriminate.
  - destruct (executeOperation _ _ _ _ _) as [[err result|err] w'].
    + destruct (resultHandler _ _ _ _ _) as [[exit args| |x] handled] eqn:Hr;
        simpl.
      * intros [= ->].
        apply resultHandler_Finished in Hr as (failure & [= -> ->] & Hres).
        split; [reflexivity|]. exists failure. split; [reflexivity | exact Hres].
      * apply IH.
      * discriminate.
    + destruct (mergeBatchResults _ _ _ _) as [[v merged]|x]; simpl; discriminate.
Qed.

(** X11: when the run ends with an error for the callback, the error is a
    [MongoBulkWriteError] built with the view of the cumulative result as
    the run leaves it, and no result is passed beside it.  Its [result]
    property is that view when it comes from write errors or write-concern
    errors; when it is built from a driver error, the property is that
    view unless the driver error has a [result] of its own, which
    [Object.assign] then leaves in its place. *)
Theorem X11_failure_carries_the_result bulkOperation options w e r :
  outcome (commandsRun bulkOperation options w) = Called (Some e, r) ->
  r = None /\
  exists failure,
    e = BulkWriteFailure failure /\
    MongoBulkWriteError.resultArgument failure =
      BulkWriteResult.mk
        (BulkOperationBase.bulkResult (final (commandsRun bulkOperation options w)))
    /\
    match MongoBulkWriteError.error failure with
    | OfError x =>
        AnyError.hasMessage x = true /\
        AnyError.isMongoWriteConcernError x = false /\
        MongoBulkWriteError.result failure =
          match Document.result (AnyError.doc x) with
          | Some own => ResultOfError own
          | None =>
              ResultGiven
                (BulkWriteResult.mk
                   (BulkOperationBase.bulkResult
                      (final (commandsRun bulkOperation options w))))
          end
    | _ =>
        MongoBulkWriteError.result failure =
          ResultGiven
            (BulkWriteResult.mk
               (BulkOperationBase.bulkResult
                  (final (commandsRun bulkOperation options w))))
    end.
Proof.
  unfold executeCommands. intros Hout.
  apply executeCommands_queue_failure in Hout as (-> & failure & -> & Hres & Hsrc).
  split; [reflexivity|]. exists failure. split; [reflexivity|].
  split; [exact Hres|].
  destruct failure as [[x|message code errors|wce] given];
    cbn [MongoBulkWriteError.error MongoBulkWriteError.resultArgument] in *.
  - destruct (Hsrc x eq_refl) as [Hmsg Hkind].
    split; [exact Hmsg|]. split; [exact Hkind|].
    unfold MongoBulkWriteError.result.
    cbn [MongoBulkWriteError.error MongoBulkWriteError.resultArgument].
    rewrite Hres. reflexivity.
  - unfold MongoBulkWriteError.result.
    cbn [MongoBulkWriteError.error MongoBulkWriteError.resultArgument].
    rewrite Hres. reflexivity.
  - unfold MongoBulkWriteError.result.
    cbn [MongoBulkWriteError.error MongoBulkWriteError.resultArgument].
    rewrite Hres. reflexivity.
Qed.

Lemma queue_head rest : forall handled options w,
  match dispatched (queueRun rest handled options w) with
  | [] =>
      outcome (queueRun rest handled options w) =
        Called (None,
                Some (BulkWriteResult.mk (BulkOperationBase.bulkResult handled))) /\
      final (queueRun rest handled options w) = handled
  | next :: _ => before next = BulkOperationBase.bulkResult handled
  end.
Proof.
  destruct rest as [|b rest]; intros handled options w; simpl.
  - split; reflexivity.
  - destruct (executeOperation _ _ _ _ _) as [[err result|err] w'];
      [destruct (resultHandler _ _ _ _ _) as [[exit args| |x] h]|
       destruct (mergeBatchResults _ _ _ _) as [[v merged]|x]];
      reflexivity.
Qed.

(** What the log says about one entry: the state the batch was dispatched
    from, and how the way its dispatch ended decides the rest of the run. *)
Lemma log_entry queue : forall bulkOperation options w pre entry post,
  dispatched (queueRun queue bulkOperation options w) = pre ++ entry :: post ->
  exists at_dispatch,
    BulkOperationBase.bulkResult at_dispatch = before entry /\
    match reply entry with
    | Replied err result =>
        match resultHandler WriteConcernFailed at_dispatch (batch entry)
                            err result with
        | (Finished _ args, handled) =>
            post = [] /\
            outcome (queueRun queue bulkOperation options w) = Called args /\
            final (queueRun queue bulkOperation options w) = handled
        | (Escaped x, handled) =>
            post = [] /\
            outcome (queueRun queue bulkOperation options w) = Uncaught x /\
            final (queueRun queue bulkOperation options w) = handled
        | (Continue, handled) =>
            match post with
            | [] =>
                outcome (queueRun queue bulkOperation options w) =
                  Called (None,
                          Some (BulkWriteResult.mk
                                  (BulkOperationBase.bulkResult handled))) /\
                final (queueRun queue bulkOperation options w) = handled
            | next :: _ => before next = BulkOperationBase.bulkResult handled
            end
        end
    | Raised err =>
        post = [] /\
        match mergeBatchResults (batch entry) (before entry)
                                (Some (AnyError.set_ok (Some 0) err)) None with
        | Normal (_, merged) =>
            outcome (queueRun queue bulkOperation options w) = Called (None, None) /\
            BulkOperationBase.bulkResult
              (final (queueRun queue bulkOperation options w)) = merged
        | Throw x =>
            outcome (queueRun queue bulkOperation options w) = Uncaught x /\
            BulkOperationBase.bulkResult
              (final (queueRun queue bulkOperation options w)) = before entry
        end
    end.
Proof.
  induction queue as [|b rest IH]; intros bulkOperation options w pre entry post Hlog.
  - simpl in Hlog. now apply app_cons_not_nil in Hlog.
  - simpl in Hlog |- *.
    destruct (executeOperation _ _ _ _ _) as [[err result|err] w'].
    + destruct (resultHandler _ _ _ _ _) as [[exit args| |x] handled] eqn:Hr;
        simpl in Hlog |- *; symmetry in Hlog.
      * apply singleton_split in Hlog as (-> & -> & ->).
        exists (BulkOperationBase.set_batches rest bulkOperation).
        split; [reflexivity|]. simpl. rewrite Hr. auto.
      * destruct pre as [|first pre]; simpl in Hlog.
        -- injection Hlog as -> ->.
           exists (BulkOperationBase.set_batches rest bulkOperation).
           split; [reflexivity|]. simpl. rewrite Hr.
           apply queue_head.
        -- injection Hlog as _ Hlog. symmetry in Hlog.
           exact (IH _ _ _ _ _ _ Hlog).
      * apply singleton_split in Hlog as (-> & -> & ->).
        exists (BulkOperationBase.set_batches rest bulkOperation).
        split; [reflexivity|]. simpl. rewrite Hr. auto.
    + exists (BulkOperationBase.set_batches rest bulkOperation).
      destruct (mergeBatchResults _ _ _ _) as [[v merged]|x] eqn:Hm;
        simpl in Hlog; symmetry in Hlog;
        apply singleton_split in Hlog as (-> & -> & ->);
        (split; [reflexivity|]); cbn [batch before reply];
        rewrite Hm; auto.
Qed.

(** A [MongoWriteConcernError] ends the run: with the aggregate error, or
    with a [TypeError] that escapes the handler. *)
Lemma resultHandler_MongoWriteConcernError_ends bulkOperation b e result :
  AnyError.isMongoWriteConcernError e = true ->
  (exists failure handled,
      resultHandler WriteConcernFailed bulkOperation b (Some e) result =
        (Finished ExitWriteConcernError (Some (BulkWriteFailure failure), None),
         handled)) \/
  (exists handled,
      resultHandler WriteConcernFailed bulkOperation b (Some e) result =
        (Escaped TypeError, handled)).
Proof.
  intros Hkind. unfold resultHandler, handleMongoWriteConcernError.
  rewrite Hkind, andb_false_r.
  destruct (mergeBatchResults_total
              b (BulkOperationBase.bulkResult bulkOperation) None
              (Document.result (AnyError.doc e))) as [[merged ->]| ->].
  - destruct (Document.result (AnyError.doc e)) as [r|].
    + destruct (Document.writeConcernError r); [left|right]; eauto.
    + left; eauto.
  - right; eauto.
Qed.

(** C5 (amended): in any run of the executor, ordered or not, a
    dispatch that ends in a [MongoWriteConcernError] is the last dispatch
    of the run, and the run ends with the aggregate error for the callback
    or with a [TypeError] that escapes.  A write-concern-specific failure
    whose server document carries a [writeConcernError] and is merged (it
    is not a top-level failure, and there is no clash of marker kinds in
    the operation-time phase) is the last dispatch of the run, the
    [writeConcernError] is appended to
    the cumulative result as a [WriteConcernError], and the callback
    receives the aggregate error whose [result] is the view of that
    cumulative result.  A [MongoWriteConcernError] that carries no
    [result] merges nothing: the callback receives an aggregate error
    without message and code, built with the cumulative result as it was
    when the batch was dispatched. *)
Theorem C5_write_concern_failure_is_terminal queue :
  forall bulkOperation options w pre entry post,
    dispatched (queueRun queue bulkOperation options w) = pre ++ entry :: post ->
    (forall e result,
        reply entry = Replied (Some e) result ->
        AnyError.isMongoWriteConcernError e = true ->
        post = [] /\
        ((exists failure,
             outcome (queueRun queue bulkOperation options w) =
               Called (Some (BulkWriteFailure failure), None)) \/
         outcome (queueRun queue bulkOperation options w) = Uncaught TypeError)) /\
    (forall doc wce,
        writeConcernFailure (reply entry) = Some (doc, wce) ->
        markersClash (BulkResult.opTime (before entry)) doc = false ->
        post = [] /\
        exists failure,
          outcome (queueRun queue bulkOperation options w) =
            Called (Some (BulkWriteFailure failure), None) /\
          MongoBulkWriteError.result failure =
            ResultGiven
              (BulkWriteResult.mk
                 (BulkOperationBase.bulkResult
                    (final (queueRun queue bulkOperation options w)))) /\
          BulkResult.writeConcernErrors
            (BulkOperationBase.bulkResult
               (final (queueRun queue bulkOperation options w))) =
            BulkResult.writeConcernErrors (before entry)
              ++ [WriteConcernError.mk wce]) /\
    (forall e result,
        reply entry = Replied (Some e) result ->
        AnyError.isMongoWriteConcernError e = true ->
        Document.result (AnyError.doc e) = None ->
        outcome (queueRun queue bulkOperation options w) =
          Called (Some (BulkWriteFailure
                          (MongoBulkWriteError.mk
                             (OfObject None None [])
                             (BulkWriteResult.mk (before entry)))),
                  None) /\
        BulkOperationBase.bulkResult
          (final (queueRun queue bulkOperation options w)) = before entry).
Proof.
  intros bulkOperation options w pre entry post Hlog.
  destruct (log_entry _ _ _ _ _ _ _ Hlog) as (at_dispatch & Hat & Hentry).
  split; [|split].
  - intros e result Hreply Hkind. rewrite Hreply in Hentry.
    destruct (resultHandler_MongoWriteConcernError_ends
                at_dispatch (batch entry) e result Hkind)
      as [(failure & handled & Hh)|(handled & Hh)];
      rewrite Hh in Hentry; destruct Hentry as (-> & Hout & _);
      (split; [reflexivity|]); [left; eauto | right; exact Hout].
  - intros doc wce Hfail Hclash.
    destruct (reply entry) as [err result|err] eqn:Hreply;
      [|discriminate Hfail].
    rewrite <- Hat in Hclash.
    destruct (@resultHandler_writeConcernFailure
                WriteConcernFailed at_dispatch (batch entry) err result doc wce
                Hfail Hclash)
      as (exit & failure & handled & Hh & Hres & Hwce).
    rewrite Hh in Hentry. destruct Hentry as (-> & Hout & Hfinal).
    split; [reflexivity|]. exists failure.
    rewrite Hout, Hfinal, <- Hat. auto.
  - intros e result Hreply Hkind Hnone. rewrite Hreply in Hentry.
    rewrite (@resultHandler_without_result
               WriteConcernFailed at_dispatch (batch entry) e result Hkind Hnone)
      in Hentry.
    destruct Hentry as (_ & Hout & Hfinal).
    rewrite Hout, Hfinal, <- Hat. split; [reflexivity|].
    destruct at_dispatch as [o [] i]; reflexivity.
Qed.

(** X12: a reply whose error is a driver error (it has a message and is not
    a write-concern error) ends the run at once: no later batch is
    dispatched, the reply is not merged, and the callback receives the
    aggregate error built from that error and the cumulative result as it
    was when the batch was dispatched. *)
Theorem X12_driver_error_is_terminal queue :
  forall bulkOperation options w pre entry post e result,
    dispatched (queueRun queue bulkOperation options w) = pre ++ entry :: post ->
    reply entry = Replied (Some e) result ->
    AnyError.hasMessage e = true ->
    AnyError.isMongoWriteConcernError e = false ->
    post = [] /\
    outcome (queueRun queue bulkOperation options w) =
      Called (Some (BulkWriteFailure
                      (MongoBulkWriteError.mk (OfError e)
                                              (BulkWriteResult.mk (before entry)))),
              None) /\
    BulkOperationBase.bulkResult (final (queueRun queue bulkOperation options w))
      = before entry.
Proof.
  intros bulkOperation options w pre entry post e result Hlog Hreply Hmsg Hkind.
  destruct (log_entry _ _ _ _ _ _ _ Hlog) as (at_dispatch & Hat & Hentry).
  rewrite Hreply in Hentry. unfold resultHandler in Hentry.
  rewrite Hmsg, Hkind in Hentry. simpl in Hentry.
  destruct Hentry as (-> & Hout & Hfinal).
  rewrite Hout, Hfinal, Hat. auto.
Qed.

(** X13: when the dispatching call itself throws while the cumulative
    result is still ok, the run ends there; the failure is merged as a
    top-level failure ([ok] drops to 0 and one write error with index 0 is
    recorded), and the callback is invoked with neither an error nor a
    result. *)
Theorem X13_thrown_dispatch_calls_back_empty queue :
  forall bulkOperation options w pre entry post err,
    dispatched (queueRun queue bulkOperation options w) = pre ++ entry :: post ->
    reply entry = Raised err ->
    BulkResult.ok (before entry) = 1 ->
    post = [] /\
    outcome (queueRun queue bulkOperation options w) = Called (None, None) /\
    BulkOperationBase.bulkResult (final (queueRun queue bulkOperation options w)) =
      BulkResult.set_writeErrors
        (BulkResult.writeErrors (before entry)
           ++ [WriteError.mk (Some 0)
                             (Some (num_or_zero (Document.code (AnyError.doc err))))
                             (Document.message (AnyError.doc err))
                             (js_get (Batch.operations (batch entry)) 0)])
        (BulkResult.set_ok 0 (before entry)).
Proof.
  intros bulkOperation options w pre entry post err Hlog Hreply Hok.
  destruct (log_entry _ _ _ _ _ _ _ Hlog) as (at_dispatch & Hat & Hentry).
  rewrite Hreply in Hentry. destruct Hentry as (-> & Hentry).
  rewrite (@mergeBatchResults_top_level
             (batch entry) (before entry) (Some (AnyError.set_ok (Some 0) err)) None
             (AnyError.doc (AnyError.set_ok (Some 0) err)) eq_refl eq_refl Hok)
    in Hentry.
  destruct Hentry as (Hout & Hfinal). rewrite Hout, Hfinal. auto.
Qed.

(** X14: once the cumulative result holds a write error or a write-concern
    error, the executor dispatches nothing more: every batch dispatched
    after another one in the same run was dispatched from a cumulative
    result that holds neither. *)
Theorem X14_no_dispatch_after_an_error queue :
  forall bulkOperation options w pre entry next post,
    dispatched (queueRun queue bulkOperation options w)
      = pre ++ entry :: next :: post ->
    BulkResult.writeErrors (before next) = [] /\
    BulkResult.writeConcernErrors (before next) = [].
Proof.
  intros bulkOperation options w pre entry next post Hlog.
  destruct (log_entry _ _ _ _ _ _ _ Hlog) as (at_dispatch & Hat & Hentry).
  destruct (reply entry) as [err result|err].
  - destruct (resultHandler _ _ _ _ _) as [[exit args| |x] handled] eqn:Hr.
    + destruct Hentry as (Hnil & _). discriminate Hnil.
    + rewrite Hentry. eapply resultHandler_Continue. exact Hr.
    + destruct Hentry as (Hnil & _). discriminate Hnil.
  - destruct Hentry as (Hnil & _). discriminate Hnil.
Qed.

(** *** Entering the executor *)

Lemma get_batches_set_writeConcern v this :
  get_batches (BulkOperationBase.set_writeConcern v this) = get_batches this.
Proof. reflexivity. Qed.

(** X15: [execute] on an instance that has not been executed and holds no
    batch at all (none sealed, none being filled) fails with
    [MongoInvalidArgumentError], dispatches nothing, and leaves the
    [executed] flag unset. *)
Theorem X15_empty_execute_keeps_the_guard this options callback w :
  BulkOperationBase.executed this = false ->
  get_batches this = [] ->
  dispatched (executeRun this options callback w) = [] /\
  outcome (executeRun this options callback w) =
    handleEarlyError
      (MongoInvalidArgumentError "Invalid BulkOperation, Batch cannot be empty")
      callback /\
  BulkOperationBase.executed (final (executeRun this options callback w)) = false /\
  world (executeRun this options callback w) = w.
Proof.
  intros Hexec Hempty. unfold execute. rewrite Hexec.
  set (this1 := match WriteConcern_fromOptions _ with
                | Some wc => BulkOperationBase.set_writeConcern (Some wc) this
                | None => this
                end).
  assert (H1 : get_batches this1 = [] /\ BulkOperationBase.executed this1 = false).
  { unfold this1. destruct (WriteConcern_fromOptions _); auto. }
  destruct H1 as [Hg He]. clearbody this1.
  unfold get_batches in Hg. unfold pushBatch.
  destruct (BulkOperationBase.isOrdered this1).
  - destruct (BulkOperationPrivate.currentBatch (BulkOperationBase.s this1)).
    + now apply app_eq_nil in Hg as [_ ?].
    + simpl. rewrite Hg.
      change (BulkOperationBase.batches (BulkOperationBase.set_batches [] this1))
        with (@nil Batch.t).
      simpl. auto.
  - destruct (BulkOperationPrivate.currentRemoveBatch (BulkOperationBase.s this1));
      [now apply app_eq_nil in Hg as [_ ?]|].
    destruct (BulkOperationPrivate.currentUpdateBatch (BulkOperationBase.s this1));
      [now apply app_eq_nil in Hg as [_ ?]|].
    destruct (BulkOperationPrivate.currentInsertBatch (BulkOperationBase.s this1));
      [now apply app_eq_nil in Hg as [_ ?]|].
    simpl. rewrite Hg.
      change (BulkOperationBase.batches (BulkOperationBase.set_batches [] this1))
        with (@nil Batch.t).
      simpl. auto.
Qed.

(** X16: whatever [execute] dispatches is an initial segment of the list
    the [batches] getter shows before the call: the sealed batches in queue
    order, then the batch being filled (ordered mode) or the insert,
    update and delete batches being filled, in this order (unordered
    mode). *)
Theorem X16_execute_dispatches_what_batches_shows this options callback w :
  isPrefix (map batch (dispatched (executeRun this options callback w)))
           (get_batches this).
Proof.
  unfold execute.
  destruct (BulkOperationBase.executed this); [exists (get_batches this); reflexivity|].
  set (this1 := match WriteConcern_fromOptions _ with
                | Some wc => BulkOperationBase.set_writeConcern (Some wc) this
                | None => this
                end).
  assert (H1 : get_batches this1 = get_batches this).
  { unfold this1. destruct (WriteConcern_fromOptions _); reflexivity. }
  rewrite <- H1. clearbody this1. clear H1.
  set (this2 := if BulkOperationBase.isOrdered this1 then _ else _).
  assert (H2 : BulkOperationBase.batches this2 = get_batches this1).
  { unfold this2, get_batches, pushBatch.
    destruct (BulkOperationBase.isOrdered this1); simpl.
    - destruct (BulkOperationPrivate.currentBatch _); reflexivity.
    - destruct (BulkOperationPrivate.currentInsertBatch _),
        (BulkOperationPrivate.currentUpdateBatch _),
        (BulkOperationPrivate.currentRemoveBatch _); reflexivity. }
  rewrite <- H2. clearbody this2.
  destruct (BulkOperationBase.batches this2) as [|b rest] eqn:Hq.
  - exists []. reflexivity.
  - unfold executeLegacyOperation.
    pose proof (X9_dispatch_follows_queue
                  (BulkOperationBase.set_executed true this2)
                  (BulkWriteOptions.spread
                     (BulkOperationPrivate.options
                        (BulkOperationBase.s
                           (BulkOperationBase.set_executed true this2)))
                     match options with
                     | Some o => o
                     | None => BulkWriteOptions.empty
                     end) w) as Hlog.
    change (BulkOperationBase.batches (BulkOperationBase.set_executed true this2))
      with (BulkOperationBase.batches this2) in Hlog.
    rewrite Hq in Hlog. eexists. exact Hlog.
Qed.

End ExecutorLog.

(** ** The options of a dispatch *)

Section DispatchOptions.

Variable resolveOptions :
  BulkOperationBase.t -> BulkWriteOptions.t -> BulkWriteOptions.t.

(** X17: the options of a dispatch never carry
    [bypassDocumentValidation: false]: the option is [true] when the
    resolved options or the bulk operation itself ask for it, and absent
    otherwise. *)
Theorem X17_bypassDocumentValidation_true_or_absent bulkOperation options b :
  BulkWriteOptions.bypassDocumentValidation
    (finalOptionsFor resolveOptions bulkOperation options b) =
    match BulkWriteOptions.bypassDocumentValidation
            (resolveOptions bulkOperation
               (BulkWriteOptions.set_ordered
                  (Some (BulkOperationBase.isOrdered bulkOperation)) options)),
          BulkOperationPrivate.bypassDocumentValidation
            (BulkOperationBase.s bulkOperation) with
    | Some true, _ | _, Some true => Some true
    | _, _ => None
    end.
Proof.
  unfold finalOptionsFor.
  set (resolved := resolveOptions bulkOperation _).
  destruct (BulkWriteOptions.bypassDocumentValidation resolved) as [[|]|] eqn:Hr,
    (BulkOperationPrivate.bypassDocumentValidation (BulkOperationBase.s bulkOperation))
      as [[|]|];
    destruct (BulkOperationPrivate.checkKeys (BulkOperationBase.s bulkOperation));
    simpl;
    repeat match goal with
           | |- context [match ?x with _ => _ end] =>
               match x with
               | BulkWriteOptions.retryWrites _ => destruct x as [[|]|]
               | isUpdateBatch _ => destruct x
               | isDeleteBatch _ => destruct x
               | negb _ => destruct x
               end; simpl
           end;
    try rewrite Hr; reflexivity.
Qed.

(** X18: a batch is dispatched with [retryWrites] enabled only if the
    resolved options enabled it and the batch holds no multi-document
    update (Update batch) and no delete without limit (Delete batch). *)
Theorem X18_retryWrites_only_for_single_document_writes bulkOperation options b :
  BulkWriteOptions.retryWrites
    (finalOptionsFor resolveOptions bulkOperation options b) = Some true ->
  BulkWriteOptions.retryWrites
    (resolveOptions bulkOperation
       (BulkWriteOptions.set_ordered
          (Some (BulkOperationBase.isOrdered bulkOperation)) options)) = Some true /\
  (Batch.batchType b = UPDATE ->
   forall op, In op (Batch.operations b) -> js_truthy (js_prop op "multi") = false) /\
  (Batch.batchType b = DELETE ->
   forall op, In op (Batch.operations b) -> js_prop op "limit" <> JNum 0).
Proof.
  unfold finalOptionsFor.
  set (resolved := resolveOptions bulkOperation _).
  set (o1 := match BulkWriteOptions.bypassDocumentValidation resolved with
             | Some true => resolved
             | _ => BulkWriteOptions.set_bypassDocumentValidation None resolved
             end).
  set (o2 := match BulkOperationPrivate.bypassDocumentValidation _ with
             | Some true => BulkWriteOptions.set_bypassDocumentValidation (Some true) o1
             | _ => o1
             end).
  set (o3 := if negb _ then BulkWriteOptions.set_checkKeys (Some false) o2 else o2).
  assert (H3 : BulkWriteOptions.retryWrites o3 = BulkWriteOptions.retryWrites resolved).
  { unfold o3, o2, o1.
    destruct (negb _), (BulkOperationPrivate.bypassDocumentValidation _) as [[|]|],
      (BulkWriteOptions.bypassDocumentValidation resolved) as [[|]|]; reflexivity. }
  clearbody o3. rewrite <- H3.
  destruct (BulkWriteOptions.retryWrites o3) as [[|]|] eqn:Hretry;
    try (rewrite Hretry; discriminate).
  unfold isUpdateBatch, isDeleteBatch.
  destruct (Batch.batchType b); simpl; try rewrite Hretry; simpl; intros Hfinal.
  - repeat split; intros; discriminate.
  - split; [reflexivity|]. split; [|intros; discriminate].
    intros _ op Hin. injection Hfinal as Hfinal.
    apply negb_true_iff in Hfinal.
    destruct (js_truthy (js_prop op "multi")) eqn:Hm; [|reflexivity].
    assert (Hex : existsb (fun op => js_truthy (js_prop op "multi"))
                          (Batch.operations b) = true)
      by (apply existsb_exists; eauto).
    congruence.
  - split; [reflexivity|]. split; [intros; discriminate|].
    intros _ op Hin Hlimit. injection Hfinal as Hfinal.
    apply negb_true_iff in Hfinal.
    assert (Hex : existsb (fun op => match js_prop op "limit" with
                                     | JNum 0 => true
                                     | _ => false
                                     end) (Batch.operations b) = true).
    { apply existsb_exists. exists op. split; [exact Hin|]. now rewrite Hlimit. }
    congruence.
Qed.

End DispatchOptions.

Lemma X10_success_means_all_dispatched_witness :
  outcome Sample.successRun =
    Called (None, Some (BulkWriteResult.mk
                          (BulkResult.set_nInserted 4 BulkResult.initial))) /\
  map batch (dispatched Sample.successRun)
    = [Sample.firstInsertBatch; Sample.secondInsertBatch] /\
  BulkOperationBase.batches (final Sample.successRun) = [].
Proof.
  split; [reflexivity|].
  pose proof (@X10_success_means_all_dispatched
                (list DispatchOutcome) Sample.scripted Sample.keepOptions 64
                Sample.twoBatchBulk BulkWriteOptions.empty
                [Replied None (Some Sample.replyTwo);
                 Replied None (Some Sample.replyTwo)]
                (BulkWriteResult.mk (BulkResult.set_nInserted 4 BulkResult.initial))
                eq_refl) as H.
  split; [exact (proj1 H) | exact (proj1 (proj2 H))].
Defined.

Lemma X11_failure_carries_the_result_witness :
  exists failure,
    outcome Sample.ownResultRun = Called (Some (BulkWriteFailure failure), None) /\
    MongoBulkWriteError.resultArgument failure =
      BulkWriteResult.mk (BulkOperationBase.bulkResult (final Sample.ownResultRun)) /\
    MongoBulkWriteError.result failure = ResultOfError Sample.replyTwo.
Proof.
  destruct (@X11_failure_carries_the_result
              (list DispatchOutcome) Sample.scripted Sample.keepOptions 64
              Sample.threeBatchBulk BulkWriteOptions.empty
              [Replied None (Some Sample.replyTwo);
               Replied (Some Sample.errorWithResult) None;
               Replied None (Some Sample.replyTwo)]
              (BulkWriteFailure
                 (MongoBulkWriteError.mk
                    (OfError Sample.errorWithResult)
                    (BulkWriteResult.mk Sample.afterFirstInsert)))
              None eq_refl)
    as [_ (failure & He & Hres & Hsource)].
  exists failure. injection He as <-.
  split; [reflexivity|]. split; [exact Hres|].
  exact (proj2 (proj2 Hsource)).
Defined.

Lemma C5_write_concern_failure_is_terminal_witness :
  dispatched Sample.failingRun = [Sample.firstDispatch] ++ Sample.failingDispatch :: [] /\
  writeConcernFailure (reply Sample.failingDispatch)
    = Some (Sample.writeConcernReply, Sample.wceData) /\
  markersClash (BulkResult.opTime (before Sample.failingDispatch))
               Sample.writeConcernReply = false /\
  exists failure,
    outcome Sample.failingRun = Called (Some (BulkWriteFailure failure), None) /\
    MongoBulkWriteError.result failure =
      ResultGiven
        (BulkWriteResult.mk
           (BulkOperationBase.bulkResult (final Sample.failingRun))) /\
    BulkResult.writeConcernErrors
      (BulkOperationBase.bulkResult (final Sample.failingRun)) =
      BulkResult.writeConcernErrors (before Sample.failingDispatch)
        ++ [WriteConcernError.mk Sample.wceData].
Proof.
  split; [reflexivity|]. split; [reflexivity|]. split; [reflexivity|].
  exact (proj2 (proj1 (proj2 (@C5_write_concern_failure_is_terminal
                  (list DispatchOutcome) Sample.scripted Sample.keepOptions 64
                  (BulkOperationBase.batches Sample.threeBatchBulk)
                  Sample.threeBatchBulk BulkWriteOptions.empty
                  [Replied None (Some Sample.replyTwo);
                   Replied (Some Sample.writeConcernFailed) None;
                   Replied None (Some Sample.replyTwo)]
                  [Sample.firstDispatch] Sample.failingDispatch []
                  eq_refl))
                  Sample.writeConcernReply Sample.wceData eq_refl eq_refl)).
Defined.

(** C5, as stated, fails: when the second batch ends in a
    [MongoWriteConcernError] that carries no [result], the run ends with
    an aggregate error, but nothing has been merged as a
    [WriteConcernError]; and when it ends in one whose [result] has no
    [writeConcernError], a [TypeError] escapes and the callback is not
    invoked at all. *)
Lemma C5_failure_without_result_is_not_merged :
  (outcome Sample.bareFailureRun =
     Called (Some (BulkWriteFailure
                     (MongoBulkWriteError.mk
                        (OfObject None None [])
                        (BulkWriteResult.mk Sample.afterFirstInsert))),
             None) /\
   map reply (dispatched Sample.bareFailureRun) =
     [Replied None (Some Sample.replyTwo);
      Replied (Some Sample.bareWriteConcernFailed) None] /\
   BulkResult.writeConcernErrors
     (BulkOperationBase.bulkResult (final Sample.bareFailureRun)) = []) /\
  (outcome Sample.hollowFailureRun = Uncaught TypeError /\
   map reply (dispatched Sample.hollowFailureRun) =
     [Replied None (Some Sample.replyTwo);
      Replied (Some Sample.hollowWriteConcernFailed) None] /\
   BulkResult.writeConcernErrors
     (BulkOperationBase.bulkResult (final Sample.hollowFailureRun)) = []).
Proof. repeat split; reflexivity. Qed.

Lemma X12_driver_error_is_terminal_witness :
  dispatched Sample.networkErrorRun
    = [Sample.firstDispatch] ++ Sample.networkErrorDispatch :: [] /\
  reply Sample.networkErrorDispatch = Replied (Some Sample.networkError) None /\
  AnyError.hasMessage Sample.networkError = true /\
  AnyError.isMongoWriteConcernError Sample.networkError = false /\
  outcome Sample.networkErrorRun =
    Called (Some (BulkWriteFailure
                    (MongoBulkWriteError.mk
                       (OfError Sample.networkError)
                       (BulkWriteResult.mk (before Sample.networkErrorDispatch)))),
            None) /\
  BulkOperationBase.bulkResult (final Sample.networkErrorRun)
    = before Sample.networkErrorDispatch.
Proof.
  split; [reflexivity|]. split; [reflexivity|]. split; [reflexivity|].
  split; [reflexivity|].
  exact (proj2 (@X12_driver_error_is_terminal
                  (list DispatchOutcome) Sample.scripted Sample.keepOptions 64
                  (BulkOperationBase.batches Sample.threeBatchBulk)
                  Sample.threeBatchBulk BulkWriteOptions.empty
                  [Replied None (Some Sample.replyTwo);
                   Replied (Some Sample.networkError) None]
                  [Sample.firstDispatch] Sample.networkErrorDispatch []
                  Sample.networkError None eq_refl eq_refl eq_refl eq_refl)).
Defined.

Lemma X13_thrown_dispatch_calls_back_empty_witness :
  dispatched Sample.thrownRun
    = [Sample.firstDispatch] ++ Sample.thrownDispatch :: [] /\
  reply Sample.thrownDispatch = Raised Sample.rawThrownError /\
  BulkResult.ok (before Sample.thrownDispatch) = 1 /\
  outcome Sample.thrownRun = Called (None, None) /\
  BulkOperationBase.bulkResult (final Sample.thrownRun) =
    BulkResult.mk 0
      [WriteError.mk (Some 0) (Some 10107) (Some "not master"%string)
                     (Some Sample.docC)]
      [] [] 2 0 0 0 0 [] None.
Proof.
  split; [reflexivity|]. split; [reflexivity|]. split; [reflexivity|].
  exact (proj2 (@X13_thrown_dispatch_calls_back_empty
                  (list DispatchOutcome) Sample.scripted Sample.keepOptions 64
                  (BulkOperationBase.batches Sample.threeBatchBulk)
                  Sample.threeBatchBulk BulkWriteOptions.empty
                  [Replied None (Some Sample.replyTwo); Raised Sample.rawThrownError]
                  [Sample.firstDispatch] Sample.thrownDispatch []
                  Sample.rawThrownError eq_refl eq_refl eq_refl)).
Defined.

Lemma X14_no_dispatch_after_an_error_witness :
  dispatched Sample.failingRun
    = [] ++ Sample.firstDispatch :: Sample.failingDispatch :: [] /\
  BulkResult.writeErrors (before Sample.failingDispatch) = [] /\
  BulkResult.writeConcernErrors (before Sample.failingDispatch) = [].
Proof.
  split; [reflexivity|].
  exact (@X14_no_dispatch_after_an_error
           (list DispatchOutcome) Sample.scripted Sample.keepOptions 64
           (BulkOperationBase.batches Sample.threeBatchBulk)
           Sample.threeBatchBulk BulkWriteOptions.empty
           [Replied None (Some Sample.replyTwo);
            Replied (Some Sample.writeConcernFailed) None;
            Replied None (Some Sample.replyTwo)]
           [] Sample.firstDispatch Sample.failingDispatch [] eq_refl).
Defined.

Lemma X15_empty_execute_keeps_the_guard_witness :
  BulkOperationBase.executed Sample.orderedBulk = false /\
  get_batches Sample.orderedBulk = [] /\
  outcome (execute Sample.scripted Sample.keepOptions BulkWriteOptions.writeConcern
                   64 Sample.orderedBulk None true [])
    = Called (Some (EarlyFailure
                      (MongoInvalidArgumentError
                         "Invalid BulkOperation, Batch cannot be empty")), None) /\
  BulkOperationBase.executed
    (final (execute Sample.scripted Sample.keepOptions BulkWriteOptions.writeConcern
                    64 Sample.orderedBulk None true [])) = false.
Proof.
  split; [reflexivity|]. split; [reflexivity|].
  pose proof (@X15_empty_execute_keeps_the_guard
                (list DispatchOutcome) Sample.scripted Sample.keepOptions
                BulkWriteOptions.writeConcern 64
                Sample.orderedBulk None true [] eq_refl eq_refl) as H.
  split; [exact (proj1 (proj2 H)) | exact (proj1 (proj2 (proj2 H)))].
Defined.

Lemma X18_retryWrites_only_for_single_document_writes_witness :
  BulkWriteOptions.retryWrites
    (finalOptionsFor Sample.keepOptions Sample.orderedBulk Sample.retryOptions
                     Sample.updateBatch) = Some true /\
  forall op,
    In op (Batch.operations Sample.updateBatch) ->
    js_truthy (js_prop op "multi") = false.
Proof.
  split; [reflexivity|].
  exact (proj1 (proj2 (@X18_retryWrites_only_for_single_document_writes
                         Sample.keepOptions Sample.orderedBulk Sample.retryOptions
                         Sample.updateBatch eq_refl)) eq_refl).
Defined.

(** ** Combined write-concern errors *)

Lemma append_assoc_string (a b c : string) :
  ((a ++ b) ++ c)%string = (a ++ (b ++ c))%string.
Proof. induction a as [|ch a IH]; simpl; [reflexivity | now rewrite IH]. Qed.

Lemma append_empty_string (a : string) : (a ++ "")%string = a.
Proof. induction a as [|ch a IH]; simpl; [reflexivity | now rewrite IH]. Qed.

Lemma combineErrmsg_later errors : forall i errmsg,
  combineErrmsg (S i) errors errmsg =
    (errmsg ++ fold_right String.append ""%string
                          (map WriteConcernError.errmsg errors))%string.
Proof.
  induction errors as [|e rest IH]; intros i errmsg; simpl.
  - now rewrite append_empty_string.
  - rewrite IH. now rewrite append_assoc_string.
Qed.

(** X19: [getWriteConcernError] gives nothing when no write-concern error
    was recorded and the error itself when there is one; two or more are
    combined into a new error whose code is [WriteConcernFailed] and whose
    message is the first message, [" and "], and the remaining messages
    joined without any separator. *)
Theorem X19_write_concern_errors_combined (WriteConcernFailed : Z)
        (r : BulkWriteResult.t) :
  match BulkResult.writeConcernErrors (BulkWriteResult.result r) with
  | [] => getWriteConcernError WriteConcernFailed r = None
  | [e] => getWriteConcernError WriteConcernFailed r = Some e
  | first :: others =>
      getWriteConcernError WriteConcernFailed r =
        Some (WriteConcernError.mk
                (WriteConcernErrorData.mk
                   WriteConcernFailed
                   (WriteConcernError.errmsg first ++ " and "
                      ++ fold_right String.append ""%string
                                    (map WriteConcernError.errmsg others))%string
                   None None))
  end.
Proof.
  unfold getWriteConcernError.
  destruct (BulkResult.writeConcernErrors (BulkWriteResult.result r))
    as [|first [|second rest]]; try reflexivity.
  simpl combineErrmsg. rewrite combineErrmsg_later.
  rewrite ?append_assoc_string. reflexivity.
Qed.

(** ** The find builder's pending operation *)

Lemma set_currentOp_twice a b this :
  BulkOperationBase.set_currentOp a (BulkOperationBase.set_currentOp b this)
    = BulkOperationBase.set_currentOp a this.
Proof. destruct this as [o [] i]; reflexivity. Qed.

(** X20: after [find], the modifiers [upsert], [collation] and
    [arrayFilters] can be chained in any order: the pending operation ends
    up with the selector and all three settings; a second [find] discards
    the settings of an unfinished chain; the pending operation is handed
    out once, and a second request finds the empty one. *)
Theorem X20_modifiers_compose selector c f this :
  js_truthy selector = true ->
  let started := snd (find selector this) in
  let full := CurrentOp.mk (Some selector) (Some true) (Some c) (Some f) in
  upsert (collation c (arrayFilters f started))
    = BulkOperationBase.set_currentOp (Some full) this /\
  upsert (arrayFilters f (collation c started))
    = BulkOperationBase.set_currentOp (Some full) this /\
  collation c (upsert (arrayFilters f started))
    = BulkOperationBase.set_currentOp (Some full) this /\
  collation c (arrayFilters f (upsert started))
    = BulkOperationBase.set_currentOp (Some full) this /\
  arrayFilters f (upsert (collation c started))
    = BulkOperationBase.set_currentOp (Some full) this /\
  arrayFilters f (collation c (upsert started))
    = BulkOperationBase.set_currentOp (Some full) this /\
  snd (find selector (upsert (collation c (arrayFilters f started)))) = started /\
  buildCurrentOp (BulkOperationBase.set_currentOp (Some full) this)
    = (full, BulkOperationBase.set_currentOp None this) /\
  fst (buildCurrentOp (BulkOperationBase.set_currentOp None this)) = CurrentOp.empty.
Proof.
  intros Htruthy. unfold find. rewrite Htruthy. simpl.
  destruct this as [o [] i]. repeat split; reflexivity.
Qed.

Lemma X20_modifiers_compose_witness :
  js_truthy Sample.docA = true /\
  upsert (collation Sample.docB
                    (arrayFilters [Sample.docC]
                                  (snd (find Sample.docA Sample.orderedBulk))))
    = BulkOperationBase.set_currentOp
        (Some (CurrentOp.mk (Some Sample.docA) (Some true) (Some Sample.docB)
                            (Some [Sample.docC])))
        Sample.orderedBulk.
Proof.
  split; [reflexivity|].
  exact (proj1 (@X20_modifiers_compose Sample.docA Sample.docB [Sample.docC]
                  Sample.orderedBulk eq_refl)).
Defined.

(** ** Validation in the builder, [insert] and [raw] *)

Section BuilderProperties.

Variable hasAtomicOperators : JsValue -> bool.
Variable makeUpdateStatement : JsValue -> JsValue -> JsValue -> bool -> Completion JsValue.
Variable makeDeleteStatement : JsValue -> JsValue -> Z -> Completion JsValue.
Variable addToOperationsList :
  BatchType -> JsValue -> BulkOperationBase.t -> Completion unit * BulkOperationBase.t.
Variable newObjectId : JsValue.
Variable dbForceServerObjectId : option bool.

Local Abbreviation do_updateOne :=
  (updateOne hasAtomicOperators makeUpdateStatement addToOperationsList).
Local Abbreviation do_replaceOne :=
  (replaceOne hasAtomicOperators makeUpdateStatement addToOperationsList).
Local Abbreviation do_update := (update makeUpdateStatement addToOperationsList).
Local Abbreviation do_insert :=
  (insert addToOperationsList newObjectId dbForceServerObjectId).
Local Abbreviation do_raw :=
  (raw hasAtomicOperators makeUpdateStatement makeDeleteStatement
       addToOperationsList newObjectId dbForceServerObjectId).

(** X21: a document is turned down by exactly one of [updateOne] and
    [replaceOne]: the one without atomic operators by [updateOne], the one
    with them by [replaceOne]; the call that turns it down throws
    [MongoInvalidArgumentError] before the pending operation is taken, so
    the bulk operation is left as it was; the other call, like [update]
    for any document, takes the pending operation and goes on to build the
    statement. *)
Theorem X21_updateOne_and_replaceOne_validate_first document this :
  let pending := fst (buildCurrentOp this) in
  let taken := snd (buildCurrentOp this) in
  let statement multi :=
    makeUpdateStatement (CurrentOp_selector pending) document
                        (CurrentOp_toObject pending) multi in
  (if hasAtomicOperators document
   then
     do_replaceOne document this =
       (Throw (MongoInvalidArgumentError
                 "Replacement document must not use atomic operators"), this) /\
     do_updateOne document this = addStatement addToOperationsList UPDATE
                                                (statement false) taken
   else
     do_updateOne document this =
       (Throw (MongoInvalidArgumentError "Update document requires atomic operators"),
        this) /\
     do_replaceOne document this = addStatement addToOperationsList UPDATE
                                                 (statement false) taken) /\
  do_update document this =
    addStatement addToOperationsList UPDATE (statement true) taken /\
  BulkOperationBase.currentOp taken = None.
Proof.
  unfold updateOne, replaceOne, update.
  destruct (buildCurrentOp this) as [pending taken] eqn:Hb. simpl.
  assert (Htaken : BulkOperationBase.currentOp taken = None).
  { unfold buildCurrentOp in Hb.
    destruct (BulkOperationBase.currentOp this); injection Hb as _ <-;
      destruct this as [o [] i]; reflexivity. }
  destruct (hasAtomicOperators document); simpl; auto.
Qed.

Lemma js_field_obj_set_same k v fields : js_field k (obj_set k v fields) = v.
Proof.
  induction fields as [|[k' v'] rest IH]; simpl.
  - now rewrite String.eqb_refl.
  - destruct (String.eqb k k') eqn:Hk; simpl; [now rewrite String.eqb_refl|].
    rewrite Hk. exact IH.
Qed.

Lemma js_field_obj_set_other k k' v fields :
  k' <> k -> js_field k' (obj_set k v fields) = js_field k' fields.
Proof.
  intros Hne.
  induction fields as [|[k0 v0] rest IH]; simpl.
  - destruct (String.eqb k' k) eqn:Hk; [|reflexivity].
    apply String.eqb_eq in Hk. contradiction.
  - destruct (String.eqb k k0) eqn:Hk; simpl.
    + apply String.eqb_eq in Hk. subst k0.
      destruct (String.eqb k' k) eqn:Hk'; [|reflexivity].
      apply String.eqb_eq in Hk'. contradiction.
    + destruct (String.eqb k' k0); [reflexivity | exact IH].
Qed.

(** X22: [insert] hands [addToOperationsList] the caller's document with
    every property other than [_id] as it was; an [_id] that is present is
    never replaced; an absent one ([null] or [undefined]) is filled with a
    new [ObjectId] unless ids are left to the server, which the options of
    the bulk operation decide before those of the database. *)
Theorem X22_insert_assigns_missing_id_only document this :
  exists sent,
    do_insert document this = addToOperationsList INSERT (JObj sent) this /\
    (forall k, k <> "_id"%string -> js_field k sent = js_field k document) /\
    js_field "_id" sent =
      (if js_nullish (js_field "_id" document)
       then match BulkWriteOptions.forceServerObjectId
                    (BulkOperationPrivate.options (BulkOperationBase.s this)),
                  dbForceServerObjectId with
            | Some true, _ | None, Some true => js_field "_id" document
            | _, _ => newObjectId
            end
       else js_field "_id" document).
Proof.
  unfold insert, shouldForceServerObjectId.
  destruct (js_nullish (js_field "_id" document)) eqn:Hid; simpl.
  - destruct (BulkWriteOptions.forceServerObjectId _) as [[|]|];
      [| |destruct dbForceServerObjectId as [[|]|]]; simpl;
      eexists; (split; [reflexivity|]); split;
      try reflexivity;
      try (intros k Hk; now apply js_field_obj_set_other);
      apply js_field_obj_set_same.
  - eexists. split; [reflexivity|]. split; reflexivity.
Qed.

(** X23: [raw] with the single model [{ insertOne: { document } }] for an
    object document does exactly what [insert(document)] does. *)
Theorem X23_raw_insertOne_is_insert document this :
  raw hasAtomicOperators makeUpdateStatement makeDeleteStatement
      addToOperationsList newObjectId dbForceServerObjectId
      [("insertOne"%string, JObj [("document"%string, JObj document)])] this
    = insert addToOperationsList newObjectId dbForceServerObjectId document this.
Proof.
  unfold raw, rawInsert, insert, assignId, addStatement, bind, js_member. simpl.
  destruct (shouldForceServerObjectId dbForceServerObjectId this); simpl.
  - rewrite andb_false_r. reflexivity.
  - rewrite andb_true_r.
    destruct (js_nullish (js_field "_id" document)); reflexivity.
Qed.

(** X24: [raw] turns down, with [MongoInvalidArgumentError] and without
    touching the bulk operation, every single-model operation whose model
    is an object in the legacy shape (it has a [q] property) under
    [replaceOne], [updateOne], [updateMany], [deleteOne] or [deleteMany],
    and every operation object that has none of the six known keys. *)
Theorem X24_raw_rejects_legacy_and_unknown this :
  (forall key model,
      In key ["replaceOne"; "updateOne"; "updateMany"; "deleteOne"; "deleteMany"]%string ->
      obj_has "q" model = true ->
      do_raw [(key, JObj model)] this =
        (Throw (MongoInvalidArgumentError "Raw operations are not allowed"), this)) /\
  (forall op,
      obj_has "insertOne" op = false -> obj_has "replaceOne" op = false ->
      obj_has "updateOne" op = false -> obj_has "updateMany" op = false ->
      obj_has "deleteOne" op = false -> obj_has "deleteMany" op = false ->
      do_raw op this =
        (Throw (MongoInvalidArgumentError
                  "bulkWrite only supports insertOne, updateOne, updateMany, deleteOne, deleteMany"),
         this)).
Proof.
  split.
  - intros key model Hkey Hq.
    simpl in Hkey.
    destruct Hkey as [<- | [<- | [<- | [<- | [<- | []]]]]];
      unfold raw, rawUpdate, rawDelete; simpl; rewrite Hq; reflexivity.
  - intros op H1 H2 H3 H4 H5 H6. unfold raw.
    rewrite H1, H2, H3, H4, H5, H6. reflexivity.
Qed.

End BuilderProperties.

(** ** Wire compression *)

(** [compress] knows the names [snappy] and [zlib] only: any other
    agreed compressor, [none] and a missing one included, makes it throw
    [MongoInvalidArgumentError] naming the compressor, before the callback
    is used; and a zlib compression level of [0] is not passed on: the
    data is deflated as if no level had been given. *)
Theorem compress_known_names
        (CodecError : Type) (kModuleError : option CodecError)
        (snappyCompress :
           Compression.Buffer -> option CodecError * option Compression.Buffer)
        (deflate :
           option Z -> Compression.Buffer ->
           option CodecError * option Compression.Buffer)
        (agreedCompressor : option string) (level : option Z)
        (data : Compression.Buffer) :
  agreedCompressor <> Some "snappy"%string ->
  agreedCompressor <> Some "zlib"%string ->
  compress kModuleError snappyCompress deflate agreedCompressor level data =
    Throw (MongoInvalidArgumentError
             ("Unknown compressor " ++ template_text agreedCompressor
                ++ " failed to compress")%string) /\
  compress kModuleError snappyCompress deflate (Some "zlib"%string) (Some 0) data =
    compress kModuleError snappyCompress deflate (Some "zlib"%string) None data.
Proof.
  intros Hs Hz. split; [|reflexivity].
  unfold compress. destruct agreedCompressor as [name|]; [|reflexivity].
  destruct (String.eqb name "snappy") eqn:H1.
  { apply String.eqb_eq in H1. subst name. contradiction. }
  destruct (String.eqb name "zlib") eqn:H2.
  { apply String.eqb_eq in H2. subst name. contradiction. }
  reflexivity.
Qed.

Lemma compress_unknown_name_example :
  compress (CodecError := unit) None (fun d => (None, Some d))
           (fun _ d => (None, Some d)) (Some "none"%string) None [] =
    Throw (MongoInvalidArgumentError "Unknown compressor none failed to compress").
Proof.
  exact (proj1 (@compress_known_names unit None (fun d => (None, Some d))
                  (fun _ d => (None, Some d)) (Some "none"%string) None []
                  ltac:(discriminate) ltac:(discriminate))).
Defined.

(** X25: with codecs that undo each other (what [Snappy.uncompress] and
    [zlib.inflate] give back for the output of [Snappy.compress] and
    [zlib.deflate] is the input), a buffer that [compress] delivered for an
    agreed compressor is turned back into the original data by
    [decompress] called with that compressor's ID from the [Compressor]
    table. *)
Theorem X25_compress_then_decompress
        (CodecError : Type) (kModuleError : option CodecError)
        (snappyCompress snappyUncompress inflate :
           Compression.Buffer -> option CodecError * option Compression.Buffer)
        (deflate :
           option Z -> Compression.Buffer ->
           option CodecError * option Compression.Buffer)
        (name : string) (compressorID : Z) (level : option Z)
        (data compressed : Compression.Buffer) :
  (forall d c, snappyCompress d = (None, Some c) ->
               snappyUncompress c = (None, Some d)) ->
  (forall l d c, deflate l d = (None, Some c) -> inflate c = (None, Some d)) ->
  table_lookup name Compressor = Some compressorID ->
  compress kModuleError snappyCompress deflate (Some name) level data
    = Normal (None, Some compressed) ->
  Compression.decompress kModuleError snappyUncompress inflate
                         compressorID compressed
    = Normal (None, Some data).
Proof.
  intros Hsnappy Hzlib Hid Hc.
  unfold compress in Hc. simpl in Hid.
  destruct (String.eqb name "none") eqn:H0.
  { apply String.eqb_eq in H0. subst name. discriminate Hc. }
  destruct (String.eqb name "snappy") eqn:H1.
  { injection Hid as <-.
    destruct kModuleError as [e|]; [discriminate Hc|].
    injection Hc as Hc. unfold Compression.decompress. simpl.
    f_equal. now apply Hsnappy. }
  destruct (String.eqb name "zlib") eqn:H2; [|discriminate Hid].
  injection Hid as <-. injection Hc as Hc.
  unfold Compression.decompress. simpl. f_equal. eapply Hzlib. exact Hc.
Qed.

Lemma X25_compress_then_decompress_witness :
  Compression.decompress (CodecError := unit) None
                         (fun c => (None, Some (tl c)))
                         (fun c => (None, Some (tl c)))
                         Compression.zlib [Byte.x02; Byte.x41; Byte.x42]
    = Normal (None, Some [Byte.x41; Byte.x42]).
Proof.
  refine (@X25_compress_then_decompress unit None
            (fun d => (None, Some (Byte.x01 :: d)))
            (fun c => (None, Some (tl c)))
            (fun c => (None, Some (tl c)))
            (fun _ d => (None, Some (Byte.x02 :: d)))
            "zlib"%string Compression.zlib (Some 6)
            [Byte.x41; Byte.x42] [Byte.x02; Byte.x41; Byte.x42] _ _ _ _).
  - intros d c H. injection H as <-. reflexivity.
  - intros l d c H. injection H as <-. reflexivity.
  - reflexivity.
  - reflexivity.
Defined.

(** ** The size policy *)

Lemma toString_nonempty (z : Z) :
  (1 <= String.length (Compression.toString z))%nat.
Proof.
  unfold Compression.toString.
  destruct (Z.to_int z) as [d|d]; simpl.
  - destruct d; simpl; lia.
  - lia.
Qed.

(** X26: whatever the last handshake reported, the limits the constructor
    derives are usable: none of the three size limits is [0] (a reported
    [0] or a missing value gives the default of 16 MiB, respectively 1000
    operations), the key size is at least 3 bytes, and without a handshake
    the limits are 16 MiB per document, 1000 operations per batch and a key
    size of 5; with an auto-encrypter the batch is cut at 2 MiB while the
    document limit stays that of the server. *)
Theorem X26_size_limits_are_usable (isMaster : option IsMaster.t)
        (usingAutoEncryption : bool) :
  let policy := SizePolicy.ofServer isMaster usingAutoEncryption in
  SizePolicy.maxBsonObjectSize policy <> 0 /\
  SizePolicy.maxBatchSizeBytes policy <> 0 /\
  SizePolicy.maxWriteBatchSize policy <> 0 /\
  3 <= SizePolicy.maxKeySize policy /\
  SizePolicy.maxBsonObjectSize policy =
    SizePolicy.maxBsonObjectSize (SizePolicy.ofServer isMaster false) /\
  SizePolicy.ofServer None usingAutoEncryption =
    SizePolicy.mk 16777216 (if usingAutoEncryption then 2097152 else 16777216)
                  1000 5.
Proof.
  assert (Hnz : forall n, num_truthy n = true -> num_or_zero n <> 0).
  { intros [z|]; simpl; [|discriminate].
    destruct (z =? 0) eqn:Hz; [discriminate|]. intros _.
    now apply Z.eqb_neq. }
  cbv zeta. unfold SizePolicy.ofServer. cbn [SizePolicy.maxBsonObjectSize
    SizePolicy.maxBatchSizeBytes SizePolicy.maxWriteBatchSize SizePolicy.maxKeySize].
  assert (Hb : (match isMaster with
                | Some m => if num_truthy (IsMaster.maxBsonObjectSize m)
                            then num_or_zero (IsMaster.maxBsonObjectSize m)
                            else 1024 * 1024 * 16
                | None => 1024 * 1024 * 16
                end) <> 0).
  { destruct isMaster as [m|]; [|lia].
    destruct (num_truthy (IsMaster.maxBsonObjectSize m)) eqn:Ht; [now apply Hnz | lia]. }
  assert (Hw : (match isMaster with
                | Some m => if num_truthy (IsMaster.maxWriteBatchSize m)
                            then num_or_zero (IsMaster.maxWriteBatchSize m)
                            else 1000
                | None => 1000
                end) <> 0).
  { destruct isMaster as [m|]; [|lia].
    destruct (num_truthy (IsMaster.maxWriteBatchSize m)) eqn:Ht; [now apply Hnz | lia]. }
  split; [|split; [|split; [|split; [|split]]]].
  - exact Hb.
  - destruct usingAutoEncryption; [lia | exact Hb].
  - exact Hw.
  - match goal with |- 3 <= Z.of_nat (String.length (Compression.toString ?z)) + 2 =>
      pose proof (toString_nonempty z) end. lia.
  - reflexivity.
  - destruct usingAutoEncryption; reflexivity.
Qed.

(** ** Credentials *)

Section CredentialsProperties.

Variable MONGODB_AWS : string.
Variable MONGODB_CR : string.
Variable MONGODB_DEFAULT : string.
Variable MONGODB_GSSAPI : string.
Variable MONGODB_PLAIN : string.
Variable MONGODB_SCRAM_SHA1 : string.
Variable MONGODB_SCRAM_SHA256 : string.
Variable MONGODB_X509 : string.

Local Abbreviation defaultMechanism :=
  (getDefaultAuthMechanism MONGODB_CR MONGODB_SCRAM_SHA1 MONGODB_SCRAM_SHA256).
Local Abbreviation construct := (new_MongoCredentials MONGODB_DEFAULT).
Local Abbreviation resolve :=
  (resolveAuthMechanism MONGODB_CR MONGODB_DEFAULT MONGODB_SCRAM_SHA1
                        MONGODB_SCRAM_SHA256).
Local Abbreviation validation :=
  (validate MONGODB_AWS MONGODB_CR MONGODB_GSSAPI MONGODB_PLAIN
            MONGODB_SCRAM_SHA1 MONGODB_SCRAM_SHA256 MONGODB_X509).
Local Abbreviation mergeInto := (merge MONGODB_DEFAULT).

Lemma getDefaultAuthMechanism_cases ismaster :
  defaultMechanism ismaster = MONGODB_SCRAM_SHA256 \/
  defaultMechanism ismaster = MONGODB_SCRAM_SHA1 \/
  defaultMechanism ismaster = MONGODB_CR.
Proof.
  unfold getDefaultAuthMechanism.
  destruct ismaster as [[[mechs|] [v|]]|]; simpl; auto;
    try (destruct (existsb _ mechs); now auto);
    destruct (3 <=? v); auto.
Qed.

Lemma new_settled env u p s g props :
  settledName g = true ->
  construct env (MongoCredentialsOptions.mk u p s None (Some g) (Some props))
    = MongoCredentials.mk u p s g props.
Proof.
  unfold settledName, new_MongoCredentials. intros H.
  apply andb_prop in H. destruct H as [H Haws].
  apply andb_prop in H. destruct H as [Hne _].
  apply negb_true_iff in Haws.
  cbn [MongoCredentialsOptions.username MongoCredentialsOptions.password
       MongoCredentialsOptions.source MongoCredentialsOptions.db
       MongoCredentialsOptions.mechanism MongoCredentialsOptions.mechanismProperties
       nullish_or str_truthy].
  rewrite Hne, Haws, andb_false_r. reflexivity.
Qed.

(** X27: [resolveAuthMechanism] changes nothing but the mechanism: user
    name, password, source and mechanism properties are those of the
    credentials it was called on; a mechanism that does not match
    [/DEFAULT/i] is kept, any other is replaced by the one
    [getDefaultAuthMechanism] picks for the handshake; and credentials
    that were resolved once stay as they are under any later handshake.
    The three names [getDefaultAuthMechanism] can pick are taken to be
    settled names: not empty, matching neither [/DEFAULT/i] nor
    [/MONGODB-AWS/i]. *)
Theorem X27_resolved_once_and_only_the_mechanism env this ismaster :
  settledName MONGODB_SCRAM_SHA256 = true ->
  settledName MONGODB_SCRAM_SHA1 = true ->
  settledName MONGODB_CR = true ->
  let resolved := resolve env this ismaster in
  MongoCredentials.username resolved = MongoCredentials.username this /\
  MongoCredentials.password resolved = MongoCredentials.password this /\
  MongoCredentials.source resolved = MongoCredentials.source this /\
  MongoCredentials.mechanismProperties resolved
    = MongoCredentials.mechanismProperties this /\
  MongoCredentials.mechanism resolved =
    (if match_i "DEFAULT" (MongoCredentials.mechanism this)
     then defaultMechanism ismaster
     else MongoCredentials.mechanism this) /\
  forall later, resolve env resolved later = resolved.
Proof.
  intros H256 H1 Hcr.
  assert (Hg : settledName (defaultMechanism ismaster) = true).
  { destruct (getDefaultAuthMechanism_cases ismaster) as [-> | [-> | ->]];
      assumption. }
  cbv zeta. unfold resolveAuthMechanism.
  destruct (match_i "DEFAULT" (MongoCredentials.mechanism this)) eqn:Hd.
  - rewrite !new_settled by exact Hg.
    repeat (split; [reflexivity|]).
    intros later. cbn [MongoCredentials.mechanism].
    unfold settledName in Hg.
    apply andb_prop in Hg. destruct Hg as [Hg _].
    apply andb_prop in Hg. destruct Hg as [_ Hg].
    apply negb_true_iff in Hg. rewrite Hg. reflexivity.
  - repeat (split; [reflexivity|]).
    intros later. rewrite Hd. reflexivity.
Qed.

Lemma NoDup_eqb_false (names : list string) (i j : nat) (a b : string) :
  NoDup names -> nth_error names i = Some a -> nth_error names j = Some b ->
  i <> j -> String.eqb a b = false.
Proof.
  intros Hnd Hi Hj Hij.
  destruct (String.eqb a b) eqn:Hab; [|reflexivity].
  exfalso. apply Hij. apply String.eqb_eq in Hab. subst b.
  apply (proj1 (NoDup_nth_error names) Hnd); [|congruence].
  apply nth_error_Some. rewrite Hi. discriminate.
Qed.

Ltac distinct_pair Hnd i j :=
  let E := fresh "E" in
  pose proof (@NoDup_eqb_false _ i j _ _ Hnd eq_refl eq_refl ltac:(discriminate))
    as E.

Ltac known_names :=
  rewrite ?String.eqb_refl;
  repeat match goal with
         | E : String.eqb ?a ?b = false |- context [String.eqb ?a ?b] => rewrite E
         end.

Lemma eqb_distinct (a b : string) : a <> b -> String.eqb a b = false.
Proof. intros H. now apply String.eqb_neq. Qed.

(** X28: what [validate] asks of each mechanism, the seven names it tests
    being distinct.  [MONGODB-CR], [SCRAM-SHA-1] and [SCRAM-SHA-256] need a
    non-empty user name; [PLAIN] needs a non-empty user name and a source;
    [GSSAPI] needs a non-empty user name and a source that is absent or
    ["$external"]; [MONGODB-AWS] needs such a source; [MONGODB-X509] needs
    such a source and a password that is absent or empty; credentials of
    any other mechanism pass. *)
Theorem X28_what_validate_requires (this : MongoCredentials.t) :
  NoDup [MONGODB_AWS; MONGODB_CR; MONGODB_GSSAPI; MONGODB_PLAIN;
         MONGODB_SCRAM_SHA1; MONGODB_SCRAM_SHA256; MONGODB_X509] ->
  let mechanism := MongoCredentials.mechanism this in
  let named := str_truthy (MongoCredentials.username this) in
  let external := externalOrAbsent (MongoCredentials.source this) in
  (mechanism = MONGODB_CR \/ mechanism = MONGODB_SCRAM_SHA1
   \/ mechanism = MONGODB_SCRAM_SHA256 ->
   (validation this = None <-> named = true)) /\
  (mechanism = MONGODB_PLAIN ->
   (validation this = None <->
    named = true /\ MongoCredentials.source this <> None)) /\
  (mechanism = MONGODB_GSSAPI ->
   (validation this = None <-> named = true /\ external = true)) /\
  (mechanism = MONGODB_AWS -> (validation this = None <-> external = true)) /\
  (mechanism = MONGODB_X509 ->
   (validation this = None <->
    external = true /\
    (MongoCredentials.password this = None
     \/ MongoCredentials.password this = Some ""%string))) /\
  (~ In mechanism [MONGODB_AWS; MONGODB_CR; MONGODB_GSSAPI; MONGODB_PLAIN;
                   MONGODB_SCRAM_SHA1; MONGODB_SCRAM_SHA256; MONGODB_X509] ->
   validation this = None).
Proof.
  intros Hnd.
  distinct_pair Hnd 0%nat 1%nat. distinct_pair Hnd 0%nat 2%nat.
  distinct_pair Hnd 0%nat 3%nat. distinct_pair Hnd 0%nat 4%nat.
  distinct_pair Hnd 0%nat 5%nat. distinct_pair Hnd 0%nat 6%nat.
  distinct_pair Hnd 1%nat 0%nat. distinct_pair Hnd 1%nat 2%nat.
  distinct_pair Hnd 1%nat 3%nat. distinct_pair Hnd 1%nat 4%nat.
  distinct_pair Hnd 1%nat 5%nat. distinct_pair Hnd 1%nat 6%nat.
  distinct_pair Hnd 2%nat 0%nat. distinct_pair Hnd 2%nat 1%nat.
  distinct_pair Hnd 2%nat 3%nat. distinct_pair Hnd 2%nat 4%nat.
  distinct_pair Hnd 2%nat 5%nat. distinct_pair Hnd 2%nat 6%nat.
  distinct_pair Hnd 3%nat 0%nat. distinct_pair Hnd 3%nat 1%nat.
  distinct_pair Hnd 3%nat 2%nat. distinct_pair Hnd 3%nat 4%nat.
  distinct_pair Hnd 3%nat 5%nat. distinct_pair Hnd 3%nat 6%nat.
  distinct_pair Hnd 4%nat 0%nat. distinct_pair Hnd 4%nat 1%nat.
  distinct_pair Hnd 4%nat 2%nat. distinct_pair Hnd 4%nat 3%nat.
  distinct_pair Hnd 4%nat 5%nat. distinct_pair Hnd 4%nat 6%nat.
  distinct_pair Hnd 5%nat 0%nat. distinct_pair Hnd 5%nat 1%nat.
  distinct_pair Hnd 5%nat 2%nat. distinct_pair Hnd 5%nat 3%nat.
  distinct_pair Hnd 5%nat 4%nat. distinct_pair Hnd 5%nat 6%nat.
  distinct_pair Hnd 6%nat 0%nat. distinct_pair Hnd 6%nat 1%nat.
  distinct_pair Hnd 6%nat 2%nat. distinct_pair Hnd 6%nat 3%nat.
  distinct_pair Hnd 6%nat 4%nat. distinct_pair Hnd 6%nat 5%nat.
  destruct this as [username password source mechanism props].
  cbv zeta. unfold validate, externalOrAbsent.
  cbn [MongoCredentials.mechanism MongoCredentials.username
       MongoCredentials.password MongoCredentials.source].
  split; [|split; [|split; [|split; [|split]]]].
  - intros [-> | [-> | ->]];
      known_names;
      cbn [orb andb];
      destruct (str_truthy username), password; cbn [negb];
        split; intros H; congruence.
  - intros ->.
    known_names.
    cbn [orb andb].
    destruct (str_truthy username), source, password; cbn [negb andb];
      split; intros H; try congruence; try (split; congruence);
      destruct H as [Hu Hs]; congruence.
  - intros ->.
    known_names.
    cbn [orb andb].
    destruct (str_truthy username), source as [s|], password; cbn [negb andb];
      try destruct (String.eqb s "$external"); cbn [negb];
      split; intros H; try congruence; try (split; congruence);
      destruct H as [Hu Hs]; congruence.
  - intros ->.
    known_names.
    cbn [orb andb].
    destruct source as [s|], password; cbn [negb andb];
      try destruct (String.eqb s "$external"); cbn [negb];
      split; intros H; congruence.
  - intros ->.
    known_names.
    cbn [orb andb].
    destruct source as [s|], password as [p|]; cbn [negb andb];
      try destruct (String.eqb s "$external"); cbn [negb];
      try (destruct (String.eqb p "") eqn:Hp;
           [apply String.eqb_eq in Hp; subst p | apply String.eqb_neq in Hp]);
      split; intros H; try congruence; try (split; [congruence | auto]);
      try (destruct H as [Hs [Hn | Hn]]; congruence).
  - intros Hnot. cbn [In] in Hnot.
    rewrite !(eqb_distinct (a := mechanism)) by (intros ->; tauto).
    cbn [orb andb]. destruct password; reflexivity.
Qed.

End CredentialsProperties.

Lemma X27_resolved_once_and_only_the_mechanism_witness :
  MongoCredentials.mechanism
    (resolveAuthMechanism "MONGODB-CR" "DEFAULT" "SCRAM-SHA-1" "SCRAM-SHA-256"
                          Sample.noEnv Sample.defaultUser
                          (Some Sample.modernServer))
    = "SCRAM-SHA-256"%string.
Proof.
  exact (proj1 (proj2 (proj2 (proj2 (proj2
           (@X27_resolved_once_and_only_the_mechanism
              "MONGODB-CR" "DEFAULT" "SCRAM-SHA-1" "SCRAM-SHA-256"
              Sample.noEnv Sample.defaultUser (Some Sample.modernServer)
              eq_refl eq_refl eq_refl)))))).
Defined.

Lemma X28_what_validate_requires_witness :
  validate "MONGODB-AWS" "MONGODB-CR" "GSSAPI" "PLAIN" "SCRAM-SHA-1"
           "SCRAM-SHA-256" "MONGODB-X509" Sample.x509User = None.
Proof.
  refine (proj2 (proj1 (proj2 (proj2 (proj2 (proj2
            (@X28_what_validate_requires
               "MONGODB-AWS" "MONGODB-CR" "GSSAPI" "PLAIN" "SCRAM-SHA-1"
               "SCRAM-SHA-256" "MONGODB-X509" Sample.x509User _))))) eq_refl)
            (conj eq_refl (or_intror eq_refl))).
  repeat constructor; simpl; intuition discriminate.
Defined.

Lemma mechanism_or_default (m : option string) (DEFAULT : string) :
  let chosen := match m with
                | Some x => if negb (String.eqb x "") then x else DEFAULT
                | None => DEFAULT
                end in
  (if negb (String.eqb chosen "") then chosen else DEFAULT) = chosen.
Proof.
  cbv zeta. destruct m as [x|].
  - destruct (String.eqb x "") eqn:Hx; cbn [negb].
    + destruct (String.eqb DEFAULT "") eqn:Hd; cbn [negb]; reflexivity.
    + rewrite Hx. reflexivity.
  - destruct (String.eqb DEFAULT "") eqn:Hd; cbn [negb]; reflexivity.
Qed.

Lemma env_fill_again (given from_env : option string) :
  let filled := if negb (str_truthy given) && str_truthy from_env
                then from_env else given in
  (if negb (str_truthy filled) && str_truthy from_env then from_env else filled)
    = filled.
Proof.
  cbv zeta.
  destruct (str_truthy given) eqn:Hg, (str_truthy from_env) eqn:He;
    cbn [negb andb]; rewrite ?Hg, ?He; reflexivity.
Qed.

Lemma token_fill_again (props : list (string * JsValue)) (token : option string) :
  let filled :=
    match token with
    | Some t =>
        if negb (js_truthy (js_field "AWS_SESSION_TOKEN" props))
           && negb (String.eqb t "")
        then obj_set "AWS_SESSION_TOKEN" (JStr t) props
        else props
    | None => props
    end in
  match token with
  | Some t =>
      if negb (js_truthy (js_field "AWS_SESSION_TOKEN" filled))
         && negb (String.eqb t "")
      then obj_set "AWS_SESSION_TOKEN" (JStr t) filled
      else filled
  | None => filled
  end = filled.
Proof.
  cbv zeta. destruct token as [t|]; [|reflexivity].
  destruct (js_truthy (js_field "AWS_SESSION_TOKEN" props)) eqn:Hp;
    cbn [negb andb].
  - rewrite Hp. reflexivity.
  - destruct (String.eqb t "") eqn:Ht; cbn [negb].
    + rewrite Hp. cbn [negb andb]. reflexivity.
    + rewrite js_field_obj_set_same. cbn [js_truthy]. rewrite Ht. reflexivity.
Qed.

Lemma new_MongoCredentials_again (DEFAULT : string) (env : ProcessEnv.t)
      (options : MongoCredentialsOptions.t) :
  new_MongoCredentials DEFAULT env
                       (optionsOf (new_MongoCredentials DEFAULT env options))
    = new_MongoCredentials DEFAULT env options.
Proof.
  destruct options as [u p s db m props].
  pose proof (mechanism_or_default m DEFAULT) as Hm. cbv zeta in Hm.
  unfold new_MongoCredentials, optionsOf.
  cbn [MongoCredentialsOptions.username MongoCredentialsOptions.password
       MongoCredentialsOptions.source MongoCredentialsOptions.db
       MongoCredentialsOptions.mechanism MongoCredentialsOptions.mechanismProperties].
  set (chosen := match m with
                 | Some x => if negb (String.eqb x "") then x else DEFAULT
                 | None => DEFAULT
                 end) in *.
  destruct (match_i "MONGODB-AWS" chosen) eqn:Haws;
    cbn [MongoCredentials.username MongoCredentials.password
         MongoCredentials.source MongoCredentials.mechanism
         MongoCredentials.mechanismProperties nullish_or];
    rewrite Hm, Haws;
    change (str_truthy None) with false; rewrite andb_false_r.
  - rewrite !env_fill_again.
    rewrite (token_fill_again (nullish_or props [])
                              (ProcessEnv.AWS_SESSION_TOKEN env)).
    reflexivity.
  - reflexivity.
Qed.

(** X29: merging no options into credentials that the constructor built
    gives the same credentials back, provided their user name, password
    and source are defined: nothing is defaulted and the environment is
    not applied a second time. *)
Theorem X29_merge_without_options_is_identity (DEFAULT : string)
        (env : ProcessEnv.t) (options : MongoCredentialsOptions.t) :
  let creds := new_MongoCredentials DEFAULT env options in
  MongoCredentials.username creds <> None ->
  MongoCredentials.password creds <> None ->
  MongoCredentials.source creds <> None ->
  merge DEFAULT env (Some creds) MongoCredentialsOptions.empty = creds.
Proof.
  cbv zeta. intros Hu Hp Hs.
  rewrite <- (new_MongoCredentials_again DEFAULT env options) at 2.
  unfold merge, optionsOf. cbn [MongoCredentialsOptions.username
    MongoCredentialsOptions.password MongoCredentialsOptions.source
    MongoCredentialsOptions.db MongoCredentialsOptions.mechanism
    MongoCredentialsOptions.mechanismProperties MongoCredentialsOptions.empty
    nullish_or].
  destruct (MongoCredentials.username (new_MongoCredentials DEFAULT env options));
    [|contradiction].
  destruct (MongoCredentials.password (new_MongoCredentials DEFAULT env options));
    [|contradiction].
  destruct (MongoCredentials.source (new_MongoCredentials DEFAULT env options));
    [|contradiction].
  reflexivity.
Qed.

Lemma X29_merge_without_options_is_identity_witness :
  merge "DEFAULT" Sample.awsEnv
        (Some (new_MongoCredentials "DEFAULT" Sample.awsEnv Sample.awsOptions))
        MongoCredentialsOptions.empty
    = MongoCredentials.mk (Some "AKIDEXAMPLE"%string) (Some "given"%string)
                          (Some "$external"%string) "MONGODB-AWS"
                          [("AWS_SESSION_TOKEN"%string, JStr "token")].
Proof.
  exact (@X29_merge_without_options_is_identity "DEFAULT" Sample.awsEnv
           Sample.awsOptions ltac:(discriminate) ltac:(discriminate)
           ltac:(discriminate)).
Defined.

(** X30: the environment only fills gaps, and only for a mechanism that
    matches [/MONGODB-AWS/i]: a non-empty user name or password and a
    truthy [AWS_SESSION_TOKEN] property given in the options are what the
    credentials hold, whatever the environment says; mechanism and source
    never depend on the environment; and for any other mechanism the
    credentials are the same under every environment. *)
Theorem X30_environment_only_fills_gaps (DEFAULT : string)
        (env other : ProcessEnv.t) (options : MongoCredentialsOptions.t) :
  let creds := new_MongoCredentials DEFAULT env options in
  let given :=
    nullish_or (MongoCredentialsOptions.mechanismProperties options) [] in
  (str_truthy (MongoCredentialsOptions.username options) = true ->
   MongoCredentials.username creds = MongoCredentialsOptions.username options) /\
  (str_truthy (MongoCredentialsOptions.password options) = true ->
   MongoCredentials.password creds = MongoCredentialsOptions.password options) /\
  (js_truthy (js_field "AWS_SESSION_TOKEN" given) = true ->
   MongoCredentials.mechanismProperties creds = given) /\
  MongoCredentials.mechanism creds
    = MongoCredentials.mechanism (new_MongoCredentials DEFAULT other options) /\
  MongoCredentials.source creds
    = MongoCredentials.source (new_MongoCredentials DEFAULT other options) /\
  (match_i "MONGODB-AWS" (MongoCredentials.mechanism creds) = false ->
   new_MongoCredentials DEFAULT other options = creds).
Proof.
  destruct options as [u p s db m props].
  cbv zeta. unfold new_MongoCredentials.
  cbn [MongoCredentialsOptions.username MongoCredentialsOptions.password
       MongoCredentialsOptions.source MongoCredentialsOptions.db
       MongoCredentialsOptions.mechanism MongoCredentialsOptions.mechanismProperties].
  set (chosen := match m with
                 | Some x => if negb (String.eqb x "") then x else DEFAULT
                 | None => DEFAULT
                 end).
  destruct (match_i "MONGODB-AWS" chosen) eqn:Haws;
    cbn [MongoCredentials.username MongoCredentials.password
         MongoCredentials.source MongoCredentials.mechanism
         MongoCredentials.mechanismProperties].
  - split; [|split; [|split; [|split; [|split]]]].
    + intros ->. reflexivity.
    + intros ->. reflexivity.
    + intros ->. destruct (ProcessEnv.AWS_SESSION_TOKEN env); reflexivity.
    + reflexivity.
    + reflexivity.
    + rewrite Haws. discriminate.
  - repeat split; reflexivity.
Qed.

(** ** The stored operation time over a run of merges *)

Lemma mergeBatchResults_nextMarker batch bulkResult reply :
  BulkResult.ok bulkResult = 1 \/ BulkResult.ok bulkResult = 0 ->
  match nextMarker (BulkResult.opTime bulkResult) (mergedMarker reply) with
  | Normal marker =>
      exists merged,
        mergeBatchResults batch bulkResult None (Some reply)
          = Normal (JUndefined, merged) /\
        BulkResult.opTime merged = marker /\
        (BulkResult.ok merged = 1 \/ BulkResult.ok merged = 0)
  | Throw e => mergeBatchResults batch bulkResult None (Some reply) = Throw e
  end.
Proof.
  intros Hok. unfold mergedMarker.
  destruct (effectiveResult None (Some reply)) as [doc|] eqn:Heff.
  - erewrite mergeBatchResults_cases by exact Heff.
    destruct (num_is (Document.ok doc) 0) eqn:Hzero; cbn [andb nextMarker].
    + destruct bulkResult as [ok we wce ids ni nu nm nmod nr ups ot].
      cbn in Hok |- *. destruct Hok as [-> | ->]; cbn;
        eexists; (split; [reflexivity|]); auto.
    + destruct (mergeFields batch doc bulkResult) as [merged|x] eqn:Hf.
      * destruct (mergeFields_opTime _ _ _ Hf) as (marked & Hmarked & Hop).
        rewrite mergeOpTime_nextMarker in Hmarked.
        destruct (nextMarker _ _) as [marker|e]; [|discriminate].
        injection Hmarked as <-. exists merged. split; [reflexivity|]. split.
        -- rewrite Hop. destruct bulkResult; reflexivity.
        -- rewrite (mergeFields_ok _ _ _ Hf). exact Hok.
      * unfold mergeFields, bind in Hf. rewrite mergeOpTime_nextMarker in Hf.
        destruct (nextMarker _ _) as [marker|e].
        -- destruct (mergeUpserted _ _ _); discriminate.
        -- injection Hf as <-. reflexivity.
  - cbn [nextMarker]. exists bulkResult. unfold mergeBatchResults.
    rewrite Heff. auto.
Qed.

(** What a run of merges leaves as the stored marker is what the
    operation-time phase makes of the markers of the replies, one after
    the other. *)
Lemma mergeAll_markers replies : forall bulkResult,
  BulkResult.ok bulkResult = 1 \/ BulkResult.ok bulkResult = 0 ->
  match foldMarkers (BulkResult.opTime bulkResult) (markersOf replies) with
  | Normal marker =>
      exists merged,
        mergeAll bulkResult replies = Normal merged /\
        BulkResult.opTime merged = marker
  | Throw e => mergeAll bulkResult replies = Throw e
  end.
Proof.
  induction replies as [|[batch reply] rest IH]; intros bulkResult Hok.
  - exists bulkResult. split; reflexivity.
  - pose proof (mergeBatchResults_nextMarker batch bulkResult reply Hok) as Hstep.
    unfold markersOf in *. cbn [mergeAll map foldMarkers snd].
    destruct (nextMarker _ _) as [marker|e].
    + destruct Hstep as (merged & -> & Hop & Hok').
      specialize (IH merged Hok'). rewrite Hop in IH. exact IH.
    + rewrite Hstep. reflexivity.
Qed.

(** Folding "keep the greater one" over a list ends on a greatest element
    of the list. *)
Lemma fold_keepMax_max {A : Type} (key : A -> Z * Z) xs : forall x0,
  In (fold_left (keepMax key) xs x0) (x0 :: xs) /\
  Forall (fun x => lexLe (key x) (key (fold_left (keepMax key) xs x0))) (x0 :: xs).
Proof.
  induction xs as [|x rest IH]; intros x0.
  - simpl. split; [now left|]. constructor; [apply lexLe_refl | constructor].
  - cbn [fold_left]. unfold keepMax at 2 4.
    destruct (lexLtb (key x0) (key x)) eqn:Hlt.
    + destruct (IH x) as [Hin Hmax]. split; [right; exact Hin|].
      inversion Hmax as [|? ? Hx Hrest]; subst.
      constructor; [|constructor; assumption].
      eapply lexLe_trans; [apply lexLtb_true; exact Hlt | exact Hx].
    + destruct (IH x0) as [Hin Hmax].
      inversion Hmax as [|? ? H0 Hrest]; subst.
      split.
      * destruct Hin as [Hin|Hin]; [left; exact Hin | right; right; exact Hin].
      * constructor; [exact H0|]. constructor; [|exact Hrest].
        eapply lexLe_trans; [apply lexLtb_false; exact Hlt | exact H0].
Qed.

Lemma foldMarkers_pairs markers : forall stored,
  timestampsOf markers = [] ->
  comparedExactly (seenMarkers stored (pairsOf markers)) = true ->
  foldMarkers (option_map pairOpTime stored) markers =
    Normal (option_map pairOpTime
              match seenMarkers stored (pairsOf markers) with
              | [] => None
              | first :: rest => Some (fold_left (keepMax pairKey) rest first)
              end).
Proof.
  induction markers as [|[[v|ts t]|] rest IH]; intros stored Hts Hexact.
  - destruct stored; reflexivity.
  - discriminate Hts.
  - cbn [foldMarkers pairsOf timestampsOf] in *.
    destruct stored as [[ts0 t0]|];
      cbn [option_map pairOpTime nextMarker fst snd seenMarkers] in *.
    + cbn [comparedExactly forallb] in Hexact.
      apply andb_prop in Hexact as [Hhead Htail].
      apply andb_prop in Hhead as [Hfirst Hothers].
      apply andb_prop in Hfirst as [H1 H2].
      apply negb_true_iff in H1, H2. cbn [fst snd] in H1, H2.
      rewrite replacesPair_exact by assumption.
      cbn [fold_left].
      destruct (lexLtb (pairKey (ts0, t0)) (pairKey (ts, t))) eqn:Hlt.
      * replace (keepMax pairKey (ts0, t0) (ts, t)) with (ts, t)
          by (unfold keepMax; now rewrite Hlt).
        exact (IH (Some (ts, t)) Hts Htail).
      * replace (keepMax pairKey (ts0, t0) (ts, t)) with (ts0, t0)
          by (unfold keepMax; now rewrite Hlt).
        apply (IH (Some (ts0, t0)) Hts). cbn [seenMarkers comparedExactly].
        rewrite Hothers. cbn [andb].
        cbn [comparedExactly] in Htail.
        apply andb_prop in Htail as [_ Htail]. exact Htail.
    + exact (IH (Some (ts, t)) Hts Hexact).
  - cbn [foldMarkers nextMarker pairsOf timestampsOf] in *.
    exact (IH stored Hts Hexact).
Qed.

Lemma foldMarkers_timestamps markers : forall stored,
  pairsOf markers = [] ->
  foldMarkers (option_map OTTimestamp stored) markers =
    Normal (option_map OTTimestamp
              match seenMarkers stored (timestampsOf markers) with
              | [] => None
              | first :: rest => Some (fold_left (keepMax timestampKey) rest first)
              end).
Proof.
  induction markers as [|[[v|ts t]|] rest IH]; intros stored Hpairs.
  - destruct stored; reflexivity.
  - cbn [foldMarkers pairsOf timestampsOf] in *.
    destruct stored as [w|];
      cbn [option_map nextMarker Long_fromValue seenMarkers] in *.
    + rewrite timestamp_exact. cbn [fold_left].
      destruct (lexLtb (timestampKey w) (timestampKey v)) eqn:Hlt.
      * replace (keepMax timestampKey w v) with v
          by (unfold keepMax; now rewrite Hlt).
        exact (IH (Some v) Hpairs).
      * replace (keepMax timestampKey w v) with w
          by (unfold keepMax; now rewrite Hlt).
        exact (IH (Some w) Hpairs).
    + exact (IH (Some v) Hpairs).
  - discriminate Hpairs.
  - cbn [foldMarkers nextMarker pairsOf timestampsOf] in *.
    exact (IH stored Hpairs).
Qed.

(** C6 (amended): when the replies of a run are merged one after the
    other, replies that are top-level failures or bring no marker leave
    the stored [lastOperationTime] as it is.  If all markers are
    decomposed [{ts, t}] pairs, the stored marker ends on one that is
    greatest, in the lexicographic order on (seconds [ts], ordinal [t]),
    among the stored marker and the markers of the replies, a number and
    a [Long] being compared by the integer they stand for, provided no
    comparison wraps around: no number or signed [Long] that is not
    negative arrives after an unsigned [Long] of [2^63] or more.  If all
    markers are wire [Timestamp]s, it ends on a greatest one in the order
    on (seconds, ordinal) given by their high and low halves.  (5, 2)
    after (5, 1) replaces it and (4, 9) after (5, 1) does not. *)
Theorem C6_lastOperationTime_is_lexicographic_maximum :
  (forall bulkResult stored replies,
      BulkResult.ok bulkResult = 1 \/ BulkResult.ok bulkResult = 0 ->
      BulkResult.opTime bulkResult = option_map pairOpTime stored ->
      timestampsOf (markersOf replies) = [] ->
      comparedExactly (seenMarkers stored (pairsOf (markersOf replies))) = true ->
      exists merged,
        mergeAll bulkResult replies = Normal merged /\
        match seenMarkers stored (pairsOf (markersOf replies)) with
        | [] => BulkResult.opTime merged = None
        | _ :: _ =>
            exists m,
              BulkResult.opTime merged = Some (pairOpTime m) /\
              In m (seenMarkers stored (pairsOf (markersOf replies))) /\
              Forall (fun x => lexLe (pairKey x) (pairKey m))
                     (seenMarkers stored (pairsOf (markersOf replies)))
        end) /\
  (forall bulkResult stored replies,
      BulkResult.ok bulkResult = 1 \/ BulkResult.ok bulkResult = 0 ->
      BulkResult.opTime bulkResult = option_map OTTimestamp stored ->
      pairsOf (markersOf replies) = [] ->
      exists merged,
        mergeAll bulkResult replies = Normal merged /\
        match seenMarkers stored (timestampsOf (markersOf replies)) with
        | [] => BulkResult.opTime merged = None
        | _ :: _ =>
            exists v,
              BulkResult.opTime merged = Some (OTTimestamp v) /\
              In v (seenMarkers stored (timestampsOf (markersOf replies))) /\
              Forall (fun x => lexLe (timestampKey x) (timestampKey v))
                     (seenMarkers stored (timestampsOf (markersOf replies)))
        end) /\
  (forall batch,
      exists merged,
        mergeAll BulkResult.initial
                 [(batch, Sample.replyAt (CNum 5) (CNum 1));
                  (batch, Sample.replyAt (CNum 5) (CNum 2))] = Normal merged /\
        BulkResult.opTime merged = Some (OTPair (CNum 5) (CNum 2))) /\
  (forall batch,
      exists merged,
        mergeAll BulkResult.initial
                 [(batch, Sample.replyAt (CNum 5) (CNum 1));
                  (batch, Sample.replyAt (CNum 4) (CNum 9))] = Normal merged /\
        BulkResult.opTime merged = Some (OTPair (CNum 5) (CNum 1))) /\
  (forall batch,
      exists merged,
        mergeAll BulkResult.initial
                 [(batch, Sample.replyAt (CLong (Long.mk 5 false)) (CNum 1));
                  (batch, Sample.replyAt (CNum 5) (CLong (Long.mk 2 true)))]
          = Normal merged /\
        BulkResult.opTime merged
          = Some (OTPair (CNum 5) (CLong (Long.mk 2 true)))).
Proof.
  split; [|split;
           [|repeat split; intros [? ? ? [] ? ? ?]; eexists; split; reflexivity]].
  - intros bulkResult stored replies Hok Hstored Hts Hexact.
    pose proof (mergeAll_markers replies bulkResult Hok) as Hrun.
    rewrite Hstored, (foldMarkers_pairs _ stored Hts Hexact) in Hrun.
    destruct Hrun as (merged & Hmerged & Hop).
    exists merged. split; [exact Hmerged|]. rewrite Hop.
    destruct (seenMarkers stored (pairsOf (markersOf replies)))
      as [|first rest]; [reflexivity|].
    exists (fold_left (keepMax pairKey) rest first).
    split; [reflexivity|]. apply fold_keepMax_max.
  - intros bulkResult stored replies Hok Hstored Hpairs.
    pose proof (mergeAll_markers replies bulkResult Hok) as Hrun.
    rewrite Hstored, (foldMarkers_timestamps _ stored Hpairs) in Hrun.
    destruct Hrun as (merged & Hmerged & Hop).
    exists merged. split; [exact Hmerged|]. rewrite Hop.
    destruct (seenMarkers stored (timestampsOf (markersOf replies)))
      as [|first rest]; [reflexivity|].
    exists (fold_left (keepMax timestampKey) rest first).
    split; [reflexivity|]. apply fold_keepMax_max.
Qed.

Lemma C6_lastOperationTime_is_lexicographic_maximum_witness :
  exists merged,
    mergeAll BulkResult.initial
             [(Sample.firstInsertBatch, Sample.replyAt (CNum 5) (CNum 1));
              (Sample.secondInsertBatch, Sample.replyTwo);
              (Sample.thirdInsertBatch,
               Sample.replyAt (CLong (Long.mk 4 true)) (CNum 9))]
      = Normal merged /\
    exists m,
      BulkResult.opTime merged = Some (pairOpTime m) /\
      In m [(CNum 5, CNum 1); (CLong (Long.mk 4 true), CNum 9)] /\
      Forall (fun x => lexLe (pairKey x) (pairKey m))
             [(CNum 5, CNum 1); (CLong (Long.mk 4 true), CNum 9)].
Proof.
  exact (proj1 C6_lastOperationTime_is_lexicographic_maximum
               BulkResult.initial None
               [(Sample.firstInsertBatch, Sample.replyAt (CNum 5) (CNum 1));
                (Sample.secondInsertBatch, Sample.replyTwo);
                (Sample.thirdInsertBatch,
                 Sample.replyAt (CLong (Long.mk 4 true)) (CNum 9))]
               (or_introl eq_refl) eq_refl eq_refl eq_refl).
Defined.

(** C6, as stated, fails: a marker whose [ts] is an unsigned [Long] with
    its top bit set is replaced by the later marker (5, 1), which is
    smaller, because the 64-bit subtraction behind [greaterThan] wraps
    around; a wire [Timestamp] (4, 9) that arrives after the decomposed
    marker (5, 1) replaces it, being compared with 0; and a decomposed
    marker that arrives after a wire [Timestamp] makes the merge throw. *)
Lemma C6_later_smaller_marker_replaces_greater :
  (exists merged,
      mergeAll BulkResult.initial
               [(Sample.firstInsertBatch, Sample.replyAt Sample.farFuture (CNum 1));
                (Sample.secondInsertBatch, Sample.replyAt (CNum 5) (CNum 1))]
        = Normal merged /\
      BulkResult.opTime merged = Some (OTPair (CNum 5) (CNum 1)) /\
      lexLtb (pairKey (CNum 5, CNum 1)) (pairKey (Sample.farFuture, CNum 1)) = true) /\
  (exists merged,
      mergeAll BulkResult.initial
               [(Sample.firstInsertBatch, Sample.replyAt (CNum 5) (CNum 1));
                (Sample.secondInsertBatch, Sample.replyStamped (4 * 2 ^ 32 + 9))]
        = Normal merged /\
      BulkResult.opTime merged = Some (OTTimestamp (4 * 2 ^ 32 + 9)) /\
      timestampKey (4 * 2 ^ 32 + 9) = (4, 9) /\
      lexLtb (4, 9) (pairKey (CNum 5, CNum 1)) = true) /\
  mergeAll BulkResult.initial
           [(Sample.firstInsertBatch, Sample.replyStamped (5 * 2 ^ 32 + 1));
            (Sample.secondInsertBatch, Sample.replyAt (CNum 5) (CNum 2))]
    = Throw TypeError.
Proof.
  split; [|split].
  - eexists. split; [reflexivity|]. split; reflexivity.
  - eexists. split; [reflexivity|]. repeat split; reflexivity.
  - reflexivity.
Qed.
